(** * Event filtering, curated-city fallback and bucket cache

    A shallow embedding of the query layer of the events API
    ([src/filters.py], [src/views.py]).  Querysets are lists of rows in the
    order the database returns them, a Django [Q] object is an optional
    predicate on rows (none for the empty [Q()]), request parameters are an ordered multi-dictionary,
    and the view methods that dispatch background tasks thread the task
    queue explicitly.  What lives outside the two source files (the model
    managers, [core.utils], the geospatial and full-text engines of the
    database, the clock) enters as section variables. *)

From Stdlib Require Import ZArith QArith Qminmax List String Ascii Bool.
From Stdlib Require Import Lia Lqa Permutation Sorted.
Import ListNotations.

Local Open Scope string_scope.
Local Open Scope Z_scope.
Local Open Scope list_scope.

Set Implicit Arguments.

(** ** Exceptions and results *)

Variant exn : Set :=
| DoesNotExist
| MultipleObjectsReturned
| ValueError
| UnboundLocalError
| NotFound.

Inductive result (A : Type) : Type :=
| Ok (a : A)
| Raise (e : exn).

Arguments Ok {A} a.
Arguments Raise {A} e.

Definition bind {A B : Type} (r : result A) (k : A -> result B) : result B :=
  match r with
  | Ok a => k a
  | Raise e => Raise e
  end.

Notation "'do' x <- r ; k" := (bind r (fun x => k))
  (at level 10, x name, r at level 100, k at level 200).

(** A block of statements either returns from its method or falls through
    to the statements after it. *)
Variant flow (R S : Type) : Type :=
| Return (r : R)
| Continue (s : S).

Arguments Return {R S} r.
Arguments Continue {R S} s.

(** ** Time

    Aware datetimes are absolute instants, counted in microseconds (the
    resolution of [datetime]). *)

Definition Time := Z.

Definition timedelta (days hours minutes seconds : Z) : Z :=
  (((days * 24 + hours) * 60 + minutes) * 60 + seconds) * 1000000.

(** ** Strings: the case-insensitive lookups

    [name__istartswith] and [name__icontains] compile to
    [UPPER(col) LIKE UPPER(pattern)] with the pattern escaped; strings are
    ASCII here. *)

Definition upper_ascii (c : ascii) : ascii :=
  let n := nat_of_ascii c in
  if ((97 <=? n) && (n <=? 122))%nat then ascii_of_nat (n - 32) else c.

Fixpoint upper (s : string) : string :=
  match s with
  | EmptyString => EmptyString
  | String c s' => String (upper_ascii c) (upper s')
  end.

Definition lower_ascii (c : ascii) : ascii :=
  let n := nat_of_ascii c in
  if ((65 <=? n) && (n <=? 90))%nat then ascii_of_nat (n + 32) else c.

Fixpoint lower (s : string) : string :=
  match s with
  | EmptyString => EmptyString
  | String c s' => String (lower_ascii c) (lower s')
  end.

Fixpoint contains (needle hay : string) : bool :=
  String.prefix needle hay ||
  match hay with
  | EmptyString => false
  | String _ hay' => contains needle hay'
  end.

Definition istartswith (field value : string) : bool :=
  String.prefix (upper value) (upper field).

Definition icontains (field value : string) : bool :=
  contains (upper value) (upper field).

Definition in_ (s : string) (l : list string) : bool :=
  existsb (String.eqb s) l.

Lemma in__true (s : string) (l : list string) : in_ s l = true <-> In s l.
Proof.
  unfold in_. rewrite existsb_exists. split.
  - intros [x [Hx Heq]]. apply String.eqb_eq in Heq. now subst.
  - intros H. exists s. split; [assumption | apply String.eqb_refl].
Qed.

(** [a == b] where either side may be [None]. *)
Definition eqb_opt (a b : option string) : bool :=
  match a, b with
  | Some a, Some b => String.eqb a b
  | None, None => true
  | _, _ => false
  end.

(** ** Request parameters

    A [QueryDict] keeps every value of a key, in order; [get] answers the
    last one, [update] appends. *)

Definition QueryDict := list (string * string).

Fixpoint get (key : string) (qd : QueryDict) : option string :=
  match qd with
  | [] => None
  | (k, v) :: qd' =>
      match get key qd' with
      | Some v' => Some v'
      | None => if String.eqb k key then Some v else None
      end
  end.

Definition get_default (key : string) (default : string) (qd : QueryDict) : string :=
  match get key qd with
  | Some v => v
  | None => default
  end.

Definition update (qd : QueryDict) (key value : string) : QueryDict :=
  qd ++ [(key, value)].

(** Truth value of an optional string: [None] and [''] are false. *)
Definition truthy (o : option string) : bool :=
  match o with
  | Some (String _ _) => true
  | _ => false
  end.

(** ** Geometry *)

Record Point : Set := { x : Q; y : Q }.

(** [MultiPoint(a, b).centroid]: the mean of the coordinates. *)
Definition centroid (a b : Point) : Point :=
  {| x := (x a + x b) / 2; y := (y a + y b) / 2 |}.

(** ** Rows *)

Module City.
Record t : Set := {
  id : Z;
  slug : string;
  point : Point;
  is_curated : bool
}.
End City.

Module Location.
Record t : Set := {
  city : Z;           (* foreign key: City.id *)
  venue : string      (* the venue's slug *)
}.
End Location.

(** Modelled from the spec: [core.models] is not among the sources; the spec
    describes [has_location] as a flag, and [filter_has_location] compares
    it with the constant [Event.YES]. *)
Variant has_location_choice : Set := YES | NO.

Module Event.
Record t : Set := {
  id : Z;
  name : string;
  description : string;
  start_date : Time;
  end_date : Time;
  prices_available : list string;
  is_featured : bool;
  is_staff_picked : bool;
  has_location : has_location_choice;
  point : option Point;
  locations : list Location.t
}.
End Event.

Definition has_location_eqb (a b : has_location_choice) : bool :=
  match a, b with
  | YES, YES | NO, NO => true
  | _, _ => false
  end.

Lemma Q_eq_dec (a b : Q) : {a = b} + {a <> b}.
Proof. decide equality; [apply Pos.eq_dec | apply Z.eq_dec]. Defined.

Lemma Point_eq_dec (a b : Point) : {a = b} + {a <> b}.
Proof. decide equality; apply Q_eq_dec. Defined.

Lemma Location_eq_dec (a b : Location.t) : {a = b} + {a <> b}.
Proof. decide equality; [apply string_dec | apply Z.eq_dec]. Defined.

Lemma Event_eq_dec (a b : Event.t) : {a = b} + {a <> b}.
Proof.
  decide equality;
    try apply Z.eq_dec; try apply string_dec; try apply bool_dec;
    try (apply list_eq_dec; first [apply string_dec | apply Location_eq_dec]).
  - decide equality. apply Point_eq_dec.
  - decide equality.
Defined.

(** ** Querysets *)

Section QuerySet.
Context {A : Type}.

Definition exclude (p : A -> bool) (qs : list A) : list A :=
  filter (fun a => negb (p a)) qs.

Definition none (qs : list A) : list A := [].

Definition exists_ (qs : list A) : bool :=
  match qs with
  | [] => false
  | _ :: _ => true
  end.

(** [first()] of a queryset whose order is already the one it is
    evaluated in. *)
Definition first (qs : list A) : option A := hd_error qs.

Lemma exclude_In (p : A -> bool) (qs : list A) (a : A) :
  In a (exclude p qs) <-> In a qs /\ p a = false.
Proof.
  unfold exclude. rewrite filter_In, negb_true_iff. reflexivity.
Qed.

Lemma exists__false (qs : list A) : exists_ qs = false <-> qs = [].
Proof. destruct qs; simpl; split; congruence. Qed.
End QuerySet.

(** [order_by]: a stable sort on a key ([leb] is the order of the key,
    ascending for ['field'], descending for ['-field']). *)
Section OrderBy.
Context {A K : Type} (key : A -> K) (leb : K -> K -> bool).

Fixpoint insert_by (a : A) (l : list A) : list A :=
  match l with
  | [] => [a]
  | b :: l' => if leb (key a) (key b) then a :: l else b :: insert_by a l'
  end.

Definition order_by (l : list A) : list A := fold_right insert_by [] l.

Lemma insert_by_perm (a : A) (l : list A) : Permutation (a :: l) (insert_by a l).
Proof.
  induction l as [|b l IH]; simpl.
  - apply Permutation_refl.
  - destruct (leb (key a) (key b)).
    + apply Permutation_refl.
    + eapply perm_trans; [apply perm_swap | apply perm_skip, IH].
Qed.

Lemma order_by_perm (l : list A) : Permutation l (order_by l).
Proof.
  induction l as [|a l IH]; simpl.
  - apply perm_nil.
  - eapply perm_trans; [apply perm_skip, IH | apply insert_by_perm].
Qed.

Lemma order_by_In (l : list A) (a : A) : In a (order_by l) <-> In a l.
Proof.
  split; intros H.
  - eapply Permutation_in; [apply Permutation_sym, order_by_perm | exact H].
  - eapply Permutation_in; [apply order_by_perm | exact H].
Qed.

Lemma order_by_nil (l : list A) : order_by l = [] <-> l = [].
Proof.
  split; intros H.
  - apply Permutation_nil. rewrite <- H. apply Permutation_sym, order_by_perm.
  - now subst.
Qed.

Definition key_le (a b : A) : Prop := leb (key a) (key b) = true.

Hypothesis leb_total : forall k1 k2, leb k1 k2 = true \/ leb k2 k1 = true.
Hypothesis leb_trans :
  forall k1 k2 k3, leb k1 k2 = true -> leb k2 k3 = true -> leb k1 k3 = true.

Lemma insert_by_sorted (a : A) (l : list A) :
  StronglySorted key_le l -> StronglySorted key_le (insert_by a l).
Proof.
  induction 1 as [|b l Hl IH Hb]; simpl.
  - constructor; constructor.
  - destruct (leb (key a) (key b)) eqn:E.
    + constructor; [constructor; assumption|].
      constructor; [exact E|].
      eapply Forall_impl; [|exact Hb].
      intros c Hc. unfold key_le in *. eauto.
    + constructor; [exact IH|].
      assert (Hba : key_le b a).
      { unfold key_le. destruct (leb_total (key a) (key b)); congruence. }
      eapply Permutation_Forall; [apply insert_by_perm|].
      constructor; assumption.
Qed.

Lemma order_by_sorted (l : list A) : StronglySorted key_le (order_by l).
Proof.
  induction l as [|a l IH]; simpl.
  - constructor.
  - apply insert_by_sorted, IH.
Qed.
End OrderBy.

(** ** Q objects

    A [Q()] without children is empty: combining it with another [Q]
    answers the other one, and filtering on it narrows nothing. *)

Definition Qobj := option (Event.t -> bool).

Definition Q_ : Qobj := None.

Definition Qleaf (p : Event.t -> bool) : Qobj := Some p.

Definition q_or (a b : Qobj) : Qobj :=
  match a, b with
  | None, _ => b
  | _, None => a
  | Some p, Some q => Some (fun e => p e || q e)
  end.

Definition q_and (a b : Qobj) : Qobj :=
  match a, b with
  | None, _ => b
  | _, None => a
  | Some p, Some q => Some (fun e => p e && q e)
  end.

Definition q_holds (q : Qobj) (e : Event.t) : bool :=
  match q with
  | None => true
  | Some p => p e
  end.

Definition filter_q (q : Qobj) (qs : list Event.t) : list Event.t :=
  filter (q_holds q) qs.

Definition distinct (qs : list Event.t) : list Event.t := nodup Event_eq_dec qs.

Lemma distinct_In (qs : list Event.t) (e : Event.t) : In e (distinct qs) <-> In e qs.
Proof. apply nodup_In. Qed.

(** Field lookups on events. *)

Definition start_date__lte (t : Time) (e : Event.t) : bool := Event.start_date e <=? t.
Definition start_date__gte (t : Time) (e : Event.t) : bool := t <=? Event.start_date e.
Definition end_date__lte (t : Time) (e : Event.t) : bool := Event.end_date e <=? t.
Definition end_date__gte (t : Time) (e : Event.t) : bool := t <=? Event.end_date e.
Definition start_date__range (lo hi : Time) (e : Event.t) : bool :=
  (lo <=? Event.start_date e) && (Event.start_date e <=? hi).
Definition prices_available__contains (tiers : list string) (e : Event.t) : bool :=
  forallb (fun tier => in_ tier (Event.prices_available e)) tiers.
Definition is_featured_ (v : bool) (e : Event.t) : bool := Bool.eqb (Event.is_featured e) v.
Definition is_staff_picked_ (v : bool) (e : Event.t) : bool :=
  Bool.eqb (Event.is_staff_picked e) v.
Definition has_location_ (v : has_location_choice) (e : Event.t) : bool :=
  has_location_eqb (Event.has_location e) v.
Definition locations__city__in (cities : list City.t) (e : Event.t) : bool :=
  existsb (fun l => existsb (fun c => Location.city l =? City.id c) cities)
          (Event.locations e).

(** [City.objects.get(slug=...)] over the rows of the table. *)
Definition City_objects_get (City_objects : list City.t) (slug : option string)
  : result City.t :=
  match slug with
  | None => Raise DoesNotExist
  | Some s =>
      match filter (fun c => String.eqb (City.slug c) s) City_objects with
      | [] => Raise DoesNotExist
      | [c] => Ok c
      | _ :: _ :: _ => Raise MultipleObjectsReturned
      end
  end.

(** * [filters.py]: [EventFilter] *)

Module EventFilter.

Definition FREE := "free".
Definition PRICE_10 := "price_10".
Definition PRICE_25 := "price_25".
Definition PRICE_50 := "price_50".
Definition PRICE_100 := "price_100".
Definition PRICE_100_plus := "price_100_plus".

Definition PRICE_CHOICES : list string :=
  [FREE; PRICE_10; PRICE_25; PRICE_50; PRICE_100; PRICE_100_plus].

Definition NOW := "now".
Definition TODAY := "today".
Definition TOMORROW := "tomorrow".
Definition WEEKEND := "weekend".
Definition NEXT_WEEK := "next-week".
Definition NEXT_WEEKEND := "next-weekend".
Definition THIS_WEEK := "this-week".
Definition HAPPENING_LATER := "happening-later".
Definition PAST_EVENTS := "past".

Definition WHEN_CHOICES : list string :=
  [NOW; TODAY; TOMORROW; THIS_WEEK; WEEKEND; NEXT_WEEK; NEXT_WEEKEND;
   HAPPENING_LATER; PAST_EVENTS].

Definition FIVE_MILE := "mile-5".
Definition TWENTY_FIVE_MILE := "mile-25".
Definition FIFTY_MILE := "mile-50".
Definition HUNDRED_MILE := "mile-100".
Definition HUNDRED_PLUS_MILE := "mile-100-plus".
Definition ONE_HUNDRED_FIFTY_MILE := "mile-150".
Definition TWO_HUNDRED_MILE := "mile-200".
Definition TWO_HUNDRED_FIFTY_MILE := "mile-250".
Definition THREE_HUNDRED_MILE := "mile-300".
Definition THREE_HUNDRED_FIFTY_MILE := "mile-350".

Definition RADIUS_CHOICES : list string :=
  [FIVE_MILE; TWENTY_FIVE_MILE; FIFTY_MILE; HUNDRED_MILE; HUNDRED_PLUS_MILE;
   ONE_HUNDRED_FIFTY_MILE; TWO_HUNDRED_MILE; TWO_HUNDRED_FIFTY_MILE;
   THREE_HUNDRED_MILE; THREE_HUNDRED_FIFTY_MILE].

(** [filter_has_location] serves two filters, told apart by [name]:
    ['is_curated'] and ['has_location']. *)
Definition filter_has_location (queryset : list Event.t) (name : string) (value : bool)
  : list Event.t :=
  let qs := queryset in
  (* the statements after the [if name == 'is_curated'] block *)
  let rest (qs : list Event.t) :=
    if value then filter (has_location_ YES) qs else qs in
  if String.eqb name "is_curated" then
    let qs :=
      if value
      then filter_q (q_or (Qleaf (is_staff_picked_ value))
                          (Qleaf (is_featured_ value))) qs
      else filter (is_staff_picked_ value) qs in
    if negb value then qs else rest qs
  else rest qs.

Definition filter_price (queryset : list Event.t) (value : string) : list Event.t :=
  filter (prices_available__contains [value]) queryset.

Definition filter_price_sections (queryset : list Event.t) (value : string)
  : list Event.t :=
  let queryset := filter (prices_available__contains [value]) queryset in
  if String.eqb value PRICE_10 then
    exclude (prices_available__contains [FREE]) queryset
  else if String.eqb value PRICE_25 then
    exclude (q_holds (q_or (Qleaf (prices_available__contains [FREE]))
                           (Qleaf (prices_available__contains [PRICE_10]))))
            queryset
  else if String.eqb value PRICE_50 then
    exclude (q_holds (q_or (q_or (Qleaf (prices_available__contains [FREE]))
                                 (Qleaf (prices_available__contains [PRICE_10])))
                           (Qleaf (prices_available__contains [PRICE_25]))))
            queryset
  else if String.eqb value PRICE_100 then
    exclude (q_holds (q_or (q_or (q_or (Qleaf (prices_available__contains [FREE]))
                                       (Qleaf (prices_available__contains [PRICE_10])))
                                 (Qleaf (prices_available__contains [PRICE_25])))
                           (Qleaf (prices_available__contains [PRICE_50]))))
            queryset
  else if String.eqb value PRICE_100_plus then
    exclude (q_holds (q_or (q_or (q_or (q_or
               (Qleaf (prices_available__contains [FREE]))
               (Qleaf (prices_available__contains [PRICE_10])))
               (Qleaf (prices_available__contains [PRICE_25])))
               (Qleaf (prices_available__contains [PRICE_50])))
               (Qleaf (prices_available__contains [PRICE_100]))))
            queryset
  else queryset.

(** *** The request an [EventFilter] instance serves

    [City.objects], [core.utils] and the database's distance function are
    not in [filters.py]; they are the variables of this section, together
    with the request's [GET] parameters, the cleaned [since] / [until] of
    the form and the two readings of the clock [filter_when] makes. *)

Section Request.

Variable City_objects : list City.t.
Variable GET : QueryDict.
Variable cleaned_since cleaned_until : option Time.

(** [core.utils] *)
Variable get_tampa : list string.
Variable get_city_day_start : City.t -> Time.
Variable to_city_time : City.t -> Time -> Time.
Variable get_weekend get_next_week get_next_weekend get_this_week :
  City.t -> Time * Time.

(** [timezone.now()] as read in the [NOW] branch and in the [PAST_EVENTS]
    branch of [filter_when]. *)
Variable utc_now_NOW utc_now_PAST : Time.

(** [until.replace(hour=23, minute=59, second=59)], in the time zone the
    form value carries. *)
Variable replace_hms : Time -> Z -> Z -> Z -> Time.

(** The database's [Distance] between two points, in metres, and Python's
    [float] of a parameter string ([None] when it raises). *)
Variable distance : Point -> Point -> Q.
Variable float : string -> option Q.

Definition process_since_and_until (city : City.t) : option Time * option Time :=
  let since := cleaned_since in
  let since :=
    match since with
    | Some since => Some (to_city_time city since)
    | None => None
    end in
  let until := cleaned_until in
  let until :=
    match until with
    | Some until =>
        let until := replace_hms until 23 59 59 in
        Some (to_city_time city until)
    | None => None
    end in
  (since, until).

Definition filter_when (queryset : list Event.t) (value : list string)
  : result (list Event.t) :=
  let tampa_bay_slug := "tampa-bay-florida-united-states" in
  let city_slug := get_default "city" tampa_bay_slug GET in
  match City_objects_get City_objects (Some city_slug) with
  | Raise DoesNotExist => Ok queryset
  | Raise e => Raise e
  | Ok city =>
      let start := get_city_day_start city in
      let start := to_city_time city start in
      let end_ := start + timedelta 0 23 59 59 in
      let when_filter := Q_ in
      let when_filter :=
        if in_ NOW value then
          let utc_now := utc_now_NOW in
          q_and (Qleaf (start_date__lte utc_now)) (Qleaf (end_date__gte utc_now))
        else when_filter in
      let when_filter :=
        if in_ TODAY value then
          q_or when_filter (Qleaf (start_date__range start end_))
        else when_filter in
      let when_filter :=
        if in_ TOMORROW value then
          let start_date := start + timedelta 1 0 0 0 in
          let end_date := end_ + timedelta 1 0 0 0 in
          q_or when_filter (Qleaf (start_date__range start_date end_date))
        else when_filter in
      let when_filter :=
        if in_ WEEKEND value then
          let '(start_date, end_date) := get_weekend city in
          let start_date := to_city_time city start_date in
          let end_date := to_city_time city end_date in
          q_or when_filter (Qleaf (start_date__range start_date end_date))
        else when_filter in
      let when_filter :=
        if in_ NEXT_WEEK value then
          let '(start_date, end_date) := get_next_week city in
          let start_date := to_city_time city start_date in
          let end_date := to_city_time city end_date in
          q_or when_filter (Qleaf (start_date__range start_date end_date))
        else when_filter in
      let when_filter :=
        if in_ NEXT_WEEKEND value then
          let '(start_date, end_date) := get_next_weekend city in
          let start_date := to_city_time city start_date in
          let end_date := to_city_time city end_date in
          q_or when_filter (Qleaf (start_date__range start_date end_date))
        else when_filter in
      let when_filter :=
        if in_ THIS_WEEK value then
          let '(start_date, end_date) := get_this_week city in
          let start_date := to_city_time city start_date in
          let end_date := to_city_time city end_date in
          q_or when_filter (Qleaf (start_date__range start_date end_date))
        else when_filter in
      let when_filter :=
        if in_ HAPPENING_LATER value then
          let '(start_date, end_date) := get_next_weekend city in
          let end_date := to_city_time city end_date in
          q_or when_filter (Qleaf (start_date__gte end_date))
        else when_filter in
      let when_filter :=
        if in_ PAST_EVENTS value then
          let utc_now := utc_now_PAST in
          q_or when_filter (Qleaf (end_date__lte utc_now))
        else when_filter in
      let '(since, until) := process_since_and_until city in
      let when_filter :=
        match since, until with
        | Some since, Some until =>
            q_or when_filter (Qleaf (start_date__range since until))
        | None, Some until => q_or when_filter (Qleaf (start_date__lte until))
        | Some since, None => q_or when_filter (Qleaf (start_date__gte since))
        | None, None => when_filter
        end in
      let queryset := filter_q when_filter queryset in
      Ok (distinct queryset)
  end.

(** [point__dwithin=(ref_point, D(m=distance))]: the row has a point and it
    lies within the bound, metres, of the reference point. *)
Definition point__dwithin (ref_point : Point) (metres : Q) (e : Event.t) : bool :=
  match Event.point e with
  | Some p => Qle_bool (distance p ref_point) metres
  | None => false
  end.

(** Truth value of [add_miles]: [None] and [0.0] are false. *)
Definition truthy_float (o : option Q) : bool :=
  match o with
  | Some q => negb (Qeq_bool q 0)
  | None => false
  end.

Definition one_mile : Z := 1609.

(** The [if] / [elif] chain of [filter_radius] that binds [distance]; no
    branch binds it for a value outside the chain. *)
Definition radius_distance (value : string) : option Z :=
  if String.eqb value FIVE_MILE then Some (5 * one_mile)
  else if String.eqb value TWENTY_FIVE_MILE then Some (25 * one_mile)
  else if String.eqb value FIFTY_MILE then Some (50 * one_mile)
  else if String.eqb value HUNDRED_MILE then Some (100 * one_mile)
  else if String.eqb value ONE_HUNDRED_FIFTY_MILE
          || String.eqb value HUNDRED_PLUS_MILE then Some (150 * one_mile)
  else if String.eqb value TWO_HUNDRED_MILE then Some (200 * one_mile)
  else if String.eqb value TWO_HUNDRED_FIFTY_MILE then Some (250 * one_mile)
  else if String.eqb value THREE_HUNDRED_MILE then Some (300 * one_mile)
  else if String.eqb value THREE_HUNDRED_FIFTY_MILE then Some (350 * one_mile)
  else None.

(** The other cities of the cluster, as [filter_radius] queries them: no
    [order_by], so the rows come in the table's default order. *)
Definition cluster_siblings (city : City.t) : list City.t :=
  let cities := filter (fun c => in_ (City.slug c) get_tampa) City_objects in
  exclude (fun c => String.eqb (City.slug c) (City.slug city)) cities.

(** The first half of [filter_radius], up to [one_mile = 1609]: it either
    returns a queryset or goes on with [ref_point] and [add_miles]. *)
Definition reference_point (queryset : list Event.t)
  : result (flow (list Event.t) (Point * option Q)) :=
  let city := get "city" GET in
  let longitude := get "longitude" GET in
  let latitude := get "latitude" GET in
  if negb (truthy city || (truthy longitude && truthy latitude)) then
    Ok (Return queryset)
  else if truthy city || truthy longitude && truthy latitude then
    let add_miles : option Q := None in
    match City_objects_get City_objects city with
    | Raise DoesNotExist =>
        if truthy longitude && truthy latitude then
          match longitude, latitude with
          | Some longitude, Some latitude =>
              match float longitude, float latitude with
              | Some lon, Some lat =>
                  Ok (Continue ({| x := lon; y := lat |}, add_miles))
              | _, _ => Raise ValueError
              end
          | _, _ => Raise ValueError
          end
        else Ok (Return (none queryset))
    | Raise e => Raise e
    | Ok city =>
        let ref_point := City.point city in
        if in_ (City.slug city) get_tampa then
          let cities := cluster_siblings city in
          match first cities with
          | Some sibling =>
              let ref_point' := centroid (City.point sibling) (City.point city) in
              let add_miles :=
                Some (distance (City.point sibling) ref_point / (1999 # 1000))%Q in
              Ok (Continue (ref_point', add_miles))
          | None => Ok (Continue (ref_point, add_miles))
          end
        else Ok (Continue (ref_point, add_miles))
    end
  else Raise UnboundLocalError.

Definition filter_radius (queryset : list Event.t) (value : string)
  : result (list Event.t) :=
  do r <- reference_point queryset;
  match r with
  | Return qs => Ok qs
  | Continue (ref_point, add_miles) =>
      match radius_distance value with
      | None => Raise UnboundLocalError
      | Some distance_ =>
          let distance_ : Q := inject_Z distance_ in
          let distance_ :=
            if truthy_float add_miles then
              match add_miles with
              | Some add_miles => (distance_ + add_miles)%Q
              | None => distance_
              end
            else distance_ in
          Ok (filter (point__dwithin ref_point distance_) queryset)
      end
  end.

End Request.

End EventFilter.

Module NativeCache.
Record t : Set := {
  url : option string;
  platform : option string;
  page_type : option string;
  tab : option string;
  city : option string;
  radius : option string;
  page_no : option string;
  query_params : list string;
  response : string;         (* the stored payload, serialized *)
  updated_at : Time
}.
End NativeCache.

Module EventBucket.
Record t : Set := {
  pk : Z;
  bucket_type : string;
  bucket : string;
  is_active : bool;
  sort_order : Z
}.
End EventBucket.

(** The background tasks of [core.tasks] the two cached views dispatch,
    with the arguments of their [delay] calls. *)
Variant Task : Set :=
| cache_date_tab_city_page
    (event_bucket buckets : list Z) (city : option string)
    (page_no page_size : string) (radius : option string)
| cache_top_tab_city_page
    (url : string) (platform page_type tab city radius : option string).

(** [task.delay(...)]: the message joins the queue; the caller goes on. *)
Definition delay (queue : list Task) (task : Task) : list Task := queue ++ [task].

Definition list_string_eqb (a b : list string) : bool :=
  if list_eq_dec string_dec a b then true else false.

(** * [views.py]: [EventViewSet] *)

(** [D(mi=n)] in metres. *)
Definition D_mi (miles : Z) : Q := inject_Z miles * (1609344 # 1000).

(** [Greatest(a, b)] *)
Definition Greatest (a b : Q) : Q := if Qle_bool a b then b else a.

Module EventViewSet.

Import EventFilter.

Section Request.

Variable Event_objects : list Event.t.
Variable City_objects : list City.t.

(** [Event.objects.viewable(past_events=...)], a manager method of
    [core.models], as the predicate its queryset filters on. *)
Variable viewable : bool -> Event.t -> bool.

Variable get_tampa : list string.
Variable distance : Point -> Point -> Q.

(** The database's full-text and trigram functions:
    [SearchVector('name', 'description') = SearchQuery(value, phrase)] on a
    row, and [TrigramSimilarity] of a column's text and the value. *)
Variable search_matches : string -> Event.t -> bool.
Variable TrigramSimilarity : string -> string -> Q.

(** [timezone.now()] as read under [if what:]. *)
Variable timezone_now : Time.

Variable query_params : QueryDict.

(** The [if] / [elif] chain of [get_nearest_curated_city] that binds
    [distance], in miles; [None] where the method returns [False]. *)
Definition curated_city_distance (radius : option string) : option Z :=
  if eqb_opt radius (Some FIVE_MILE) then Some 5
  else if eqb_opt radius (Some TWENTY_FIVE_MILE) then Some 25
  else if eqb_opt radius (Some FIFTY_MILE) then Some 50
  else if eqb_opt radius (Some HUNDRED_MILE) then Some 100
  else if eqb_opt radius (Some HUNDRED_PLUS_MILE) then Some 10000
  else None.

(** [None] stands for the [False] the method returns when no branch binds
    [distance]. *)
Definition get_nearest_curated_city (city : City.t) (radius : option string)
  : option (list City.t) :=
  match curated_city_distance radius with
  | None => None
  | Some distance_ =>
      let point := {| x := x (City.point city); y := y (City.point city) |} in
      let cities :=
        filter (fun c => City.is_curated c
                         && Qle_bool (distance (City.point c) point) (D_mi distance_))
               City_objects in
      let cities :=
        order_by (fun c => distance (City.point c) point) Qle_bool cities in
      let cities :=
        if negb (exists_ cities) && in_ (City.slug city) get_tampa then
          filter (fun c => String.eqb (City.slug c) "tampa-bay-florida-united-states")
                 City_objects
        else cities in
      Some cities
  end.

(** [if not curated_city]: [False] and the empty queryset. *)
Definition falsy (curated_city : option (list City.t)) : bool :=
  match curated_city with
  | None => true
  | Some cities => negb (exists_ cities)
  end.

(** The block [if not is_curated: ...] of [get_queryset] (lines 259-275),
    as a function of the [self.queryset] it starts from and answers. *)
Definition curated_city_block (is_curated : bool) (city : option City.t)
  (radius : option string) (self_queryset : list Event.t) : list Event.t :=
  if negb is_curated then
    let qs := self_queryset in
    match city with
    | Some city =>
        let curated_city := get_nearest_curated_city city radius in
        if falsy curated_city then
          let qs := filter (is_featured_ false) qs in
          let qs := filter (is_staff_picked_ false) qs in
          qs
        else
          match curated_city with
          | Some ((nearest :: _) as curated_city) =>
              let nearest_city := City.id nearest in
              let curated_city :=
                exclude (fun c => City.id c =? nearest_city) curated_city in
              exclude (fun e =>
                         q_holds (q_or (Qleaf (is_featured_ true))
                                       (Qleaf (is_staff_picked_ true))) e
                         && locations__city__in curated_city e) qs
          | _ => qs
          end
    | None => self_queryset
    end
  else self_queryset.

Definition is_search : bool :=
  let value := get_default "search" "" query_params in
  truthy (Some value).

Definition similarity (value : string) (e : Event.t) : Q :=
  Greatest (TrigramSimilarity (Event.name e) value)
           (TrigramSimilarity (Event.description e) value).

Definition filter_search (queryset : list Event.t) : list Event.t :=
  let value := get_default "search" "" query_params in
  if (String.length value <? 3)%nat then none queryset
  else
    let ft_search :=
      filter_q (q_or (Qleaf (search_matches value))
                     (Qleaf (fun e => istartswith (Event.name e) value))) queryset in
    if exists_ ft_search then ft_search
    else
      let name_search := filter (fun e => istartswith (Event.name e) value) queryset in
      if exists_ name_search then name_search
      else
        let ts_search :=
          order_by (similarity value) (fun a b => Qle_bool b a)
            (filter (fun e => negb (Qle_bool (similarity value e) (3 # 100)))
                    queryset) in
        if exists_ ts_search then ts_search
        else
          let general :=
            filter_q (q_or (Qleaf (fun e => icontains (Event.name e) value))
                           (Qleaf (fun e => icontains (Event.description e) value)))
                     queryset in
          general.

Definition search_events : list Event.t :=
  let is_past_events := get "when" query_params in
  let events := filter (viewable false) Event_objects in
  let events :=
    if truthy is_past_events && eqb_opt is_past_events (Some PAST_EVENTS)
    then filter (viewable true) Event_objects
    else events in
  distinct (filter_search events).

(** The method also writes [radius] back into the request's parameters,
    for the filters that run on its result. *)
Definition get_queryset : result (list Event.t) :=
  let radius := get_default "radius" HUNDRED_PLUS_MILE query_params in
  if is_search then Ok search_events
  else
    let queryset := Event_objects in
    let is_past_events := get "when" query_params in
    let what := get "what" query_params in
    let self_queryset := filter (viewable false) queryset in
    let self_queryset :=
      if truthy is_past_events && eqb_opt is_past_events (Some PAST_EVENTS)
      then order_by Event.end_date (fun a b => b <=? a)
                    (filter (viewable true) queryset)
      else self_queryset in
    let city_slug := get "city" query_params in
    do self_queryset <-
      (if truthy city_slug then
         match City_objects_get City_objects city_slug with
         | Raise DoesNotExist =>
             Ok (curated_city_block false None (Some radius) self_queryset)
         | Raise e => Raise e
         | Ok city =>
             Ok (curated_city_block (City.is_curated city) (Some city)
                                    (Some radius) self_queryset)
         end
       else Ok self_queryset);
    let self_queryset :=
      if truthy what then filter (start_date__gte timezone_now) queryset
      else self_queryset in
    Ok (order_by Event.start_date Z.leb self_queryset).

End Request.

(** *** The cached tab view

    The constants of [core.models], the staleness test of [core.utils] and
    the paginator and serializer of the framework are variables; the task
    queue is threaded through the view. *)

Section Cache.

Variable NativeCache_objects : list NativeCache.t.
Variable EventBucket_objects : list EventBucket.t.
Variable is_refresh_cache : NativeCache.t -> bool.

Variable Section_DESKTOP Section_CITY_PAGE Section_DATE_TAB : string.
Variable EventBucket_WHEN EventBucket_HAPPENING_LATER : string.
Variable EventBucketPagination_page_size : string.

(** [self.paginate_queryset]: a page, [None] when pagination is off, or
    the exception of an invalid page. *)
Variable paginate_queryset :
  QueryDict -> list EventBucket.t -> result (option (list EventBucket.t)).
Variable get_paginated_response : QueryDict -> list EventBucket.t -> string.
Variable EventBucketSerializer_data : QueryDict -> list EventBucket.t -> string.

(** The local [event_bucket] of [when_paginated]. *)
Definition when_buckets (query_params : QueryDict) : list EventBucket.t :=
  let event_bucket :=
    order_by EventBucket.sort_order Z.leb
      (filter (fun b => String.eqb (EventBucket.bucket_type b) EventBucket_WHEN
                        && Bool.eqb (EventBucket.is_active b) true)
              EventBucket_objects) in
  let registered_user := get_default "registered_user" "false" query_params in
  if String.eqb (lower registered_user) "true" then
    exclude (fun b => String.eqb (EventBucket.bucket b) EventBucket_HAPPENING_LATER)
            event_bucket
  else event_bucket.

(** The local [response] of [when_paginated]: the cache rows of the key. *)
Definition when_response (query_params : QueryDict) : list NativeCache.t :=
  let city := get "city" query_params in
  let radius := get "radius" query_params in
  let page_no := get_default "page" "1" query_params in
  let page_size :=
    get_default "page_size" EventBucketPagination_page_size query_params in
  filter (fun c =>
            eqb_opt (NativeCache.url c) (Some "/v2/events/when_paginated/")
            && eqb_opt (NativeCache.platform c) (Some Section_DESKTOP)
            && eqb_opt (NativeCache.page_type c) (Some Section_CITY_PAGE)
            && eqb_opt (NativeCache.tab c) (Some Section_DATE_TAB)
            && eqb_opt (NativeCache.city c) city
            && eqb_opt (NativeCache.radius c) radius
            && eqb_opt (NativeCache.page_no c) (Some page_no)
            && list_string_eqb (NativeCache.query_params c) [page_size])
         NativeCache_objects.

(** [response.exists()] and [response.first()] are one match on the rows. *)
Definition when_paginated (query_params : QueryDict) (queue : list Task)
  : result (string * list Task) :=
  let event_bucket := when_buckets query_params in
  do page <- paginate_queryset query_params event_bucket;
  match page with
  | Some page =>
      let city := get "city" query_params in
      let radius := get "radius" query_params in
      let page_no := get_default "page" "1" query_params in
      let page_size :=
        get_default "page_size" EventBucketPagination_page_size query_params in
      let response := when_response query_params in
      match first response with
      | Some cache =>
          let queue :=
            if is_refresh_cache cache then
              let buckets := map EventBucket.pk page in
              let event_bucket := map EventBucket.pk event_bucket in
              delay queue
                (cache_date_tab_city_page event_bucket buckets city
                                          page_no page_size radius)
            else queue in
          Ok (NativeCache.response cache, queue)
      | None =>
          let buckets := map EventBucket.pk page in
          let event_bucket := map EventBucket.pk event_bucket in
          let queue :=
            delay queue
              (cache_date_tab_city_page event_bucket buckets city
                                        page_no page_size radius) in
          Ok (get_paginated_response query_params page, queue)
      end
  | None => Ok (EventBucketSerializer_data query_params event_bucket, queue)
  end.

End Cache.

End EventViewSet.

(** * [views.py]: [MapViewSet] *)

Module MapViewSet.

Import EventFilter.

Section Request.

Variable Event_objects : list Event.t.
Variable City_objects : list City.t.
Variable viewable : bool -> Event.t -> bool.
Variable get_tampa : list string.
Variable distance : Point -> Point -> Q.
Variable search_matches : string -> Event.t -> bool.
Variable query_params : QueryDict.

Definition is_search : bool :=
  let value := get_default "search" "" query_params in
  truthy (Some value).

Definition filter_search (queryset : list Event.t) : list Event.t :=
  let value := get_default "search" "" query_params in
  if (String.length value <? 3)%nat then none queryset
  else
    let ft_search :=
      filter_q (q_or (Qleaf (search_matches value))
                     (Qleaf (fun e => istartswith (Event.name e) value))) queryset in
    if exists_ ft_search then ft_search
    else
      let name_search := filter (fun e => istartswith (Event.name e) value) queryset in
      if exists_ name_search then name_search
      else
        let general :=
          filter_q (q_or (Qleaf (fun e => icontains (Event.name e) value))
                         (Qleaf (fun e => icontains (Event.description e) value)))
                   queryset in
        general.

Definition search_events : list Event.t :=
  let is_past_events := get "when" query_params in
  let events := filter (viewable false) Event_objects in
  let events :=
    if truthy is_past_events && eqb_opt is_past_events (Some PAST_EVENTS)
    then filter (viewable true) Event_objects
    else events in
  distinct (filter_search events).

(** The method is a copy of [EventViewSet.get_nearest_curated_city], and
    the curated-city block of [get_queryset] a copy of the one there. *)
Definition get_nearest_curated_city (city : City.t) (radius : option string)
  : option (list City.t) :=
  EventViewSet.get_nearest_curated_city City_objects get_tampa distance city radius.

Definition get_queryset : result (list Event.t) :=
  if is_search then Ok search_events
  else
    let queryset := Event_objects in
    let is_past_events := get "when" query_params in
    let self_queryset := filter (viewable false) queryset in
    let self_queryset :=
      if truthy is_past_events && eqb_opt is_past_events (Some PAST_EVENTS)
      then order_by Event.end_date (fun a b => b <=? a)
                    (filter (viewable true) queryset)
      else self_queryset in
    let city_slug := get "city" query_params in
    if truthy city_slug then
      match City_objects_get City_objects city_slug with
      | Raise DoesNotExist => Ok self_queryset
      | Raise e => Raise e
      | Ok city =>
          let radius := get "radius" query_params in
          Ok (EventViewSet.curated_city_block City_objects get_tampa distance
                (City.is_curated city) (Some city) radius self_queryset)
      end
    else Ok self_queryset.

End Request.

End MapViewSet.

(** * [views.py]: [SectionViewSet] *)

Module SectionViewSet.

Section Cache.

Variable NativeCache_objects : list NativeCache.t.
Variable is_refresh_cache : NativeCache.t -> bool.

(** [self.get_response(self.filter_queryset(self.get_queryset()))]: the
    payload computed without the cache. *)
Variable get_response : QueryDict -> string.

(** The local [response] of [desktop]: the cache rows of the key. *)
Definition desktop_response (query_params : QueryDict) : list NativeCache.t :=
  let url := "/v2/sections/desktop/" in
  let platform := get "platform" query_params in
  let page_type := get "page_type" query_params in
  let tab := get "tab" query_params in
  let city := get "city" query_params in
  let radius := get "radius" query_params in
  filter (fun c =>
            eqb_opt (NativeCache.url c) (Some url)
            && eqb_opt (NativeCache.platform c) platform
            && eqb_opt (NativeCache.page_type c) page_type
            && eqb_opt (NativeCache.tab c) tab
            && eqb_opt (NativeCache.city c) city
            && eqb_opt (NativeCache.radius c) radius)
         NativeCache_objects.

Definition desktop (query_params : QueryDict) (queue : list Task)
  : result (string * list Task) :=
  let url := "/v2/sections/desktop/" in
  let platform := get "platform" query_params in
  let page_type := get "page_type" query_params in
  let tab := get "tab" query_params in
  let city := get "city" query_params in
  let radius := get "radius" query_params in
  let cache_refresh := get "cache_refresh" query_params in
  let uncached := Ok (get_response query_params, queue) in
  if negb (truthy cache_refresh) then
    let response := desktop_response query_params in
    match first response with
    | Some cache =>
        if negb (is_refresh_cache cache) then
          Ok (NativeCache.response cache, queue)
        else
          let queue :=
            delay queue
              (cache_top_tab_city_page url platform page_type tab city radius) in
          Ok (NativeCache.response cache, queue)
    | None => uncached
    end
  else uncached.

End Cache.

End SectionViewSet.

(** * Properties *)

(** ** Curation predicate ([filter_has_location]) *)

Lemma has_location_eqb_YES (h : has_location_choice) :
  has_location_eqb h YES = true <-> h = YES.
Proof. destruct h; simpl; split; congruence. Qed.

Definition featured_without_location : Event.t :=
  {| Event.id := 1;
     Event.name := "Gallery opening";
     Event.description := "An online preview";
     Event.start_date := 0;
     Event.end_date := 3600000000;
     Event.prices_available := ["free"];
     Event.is_featured := true;
     Event.is_staff_picked := false;
     Event.has_location := NO;
     Event.point := None;
     Event.locations := [] |}.

(** C5, as stated, fails: a featured event whose [has_location] is not
    [YES] satisfies "staff-picked or featured" and yet [is_curated=true]
    does not match it. *)
Lemma is_curated_true_drops_featured_without_location :
  (Event.is_staff_picked featured_without_location
   || Event.is_featured featured_without_location) = true
  /\ EventFilter.filter_has_location [featured_without_location] "is_curated" true = [].
Proof. split; reflexivity. Qed.

(** C5 (amended): [is_curated=true] matches an event iff it is staff-picked
    or featured and, the method falling through to its last test, its
    [has_location] is [YES]; [is_curated=false] matches iff it is not
    staff-picked, whatever [has_location]; [has_location=true] matches iff
    [has_location] is [YES], and [has_location=false] narrows nothing. *)
Theorem filter_has_location_spec (queryset : list Event.t) (e : Event.t) :
  (In e (EventFilter.filter_has_location queryset "is_curated" true) <->
     In e queryset
     /\ (Event.is_staff_picked e || Event.is_featured e) = true
     /\ Event.has_location e = YES)
  /\ (In e (EventFilter.filter_has_location queryset "is_curated" false) <->
        In e queryset /\ Event.is_staff_picked e = false)
  /\ (In e (EventFilter.filter_has_location queryset "has_location" true) <->
        In e queryset /\ Event.has_location e = YES)
  /\ EventFilter.filter_has_location queryset "has_location" false = queryset.
Proof.
  unfold EventFilter.filter_has_location; cbn [String.eqb Ascii.eqb Bool.eqb negb].
  split; [|split; [|split]].
  - split.
    + intros H. apply filter_In in H as [H' Hloc].
      unfold filter_q in H'. apply filter_In in H' as [Hin Hq].
      cbn in Hq. unfold is_staff_picked_, is_featured_ in Hq.
      apply has_location_eqb_YES in Hloc.
      destruct (Event.is_staff_picked e), (Event.is_featured e); cbn in *;
        (split; [assumption | split; [congruence | assumption]]).
    + intros (Hin & Hor & Hloc). apply filter_In. split.
      * unfold filter_q. apply filter_In. split; [assumption|].
        cbn. unfold is_staff_picked_, is_featured_.
        destruct (Event.is_staff_picked e), (Event.is_featured e);
          cbn in *; congruence.
      * now apply has_location_eqb_YES.
  - split.
    + intros H. apply filter_In in H as [Hin Hs]. split; [assumption|].
      unfold is_staff_picked_ in Hs. now destruct (Event.is_staff_picked e).
    + intros [Hin Hs]. apply filter_In. split; [assumption|].
      unfold is_staff_picked_. now rewrite Hs.
  - split.
    + intros H. apply filter_In in H as [Hin Hl].
      split; [assumption | now apply has_location_eqb_YES].
    + intros [Hin Hl]. apply filter_In.
      split; [assumption | now apply has_location_eqb_YES].
  - reflexivity.
Qed.

(** ** Price tiers ([filter_price], [filter_price_sections]) *)

(** The tiers strictly below [value], in the order of [PRICE_CHOICES]. *)
Fixpoint tiers_before (tiers : list string) (value : string) : list string :=
  match tiers with
  | [] => []
  | t :: tiers' => if String.eqb t value then [] else t :: tiers_before tiers' value
  end.

Definition tiers_below (value : string) : list string :=
  tiers_before EventFilter.PRICE_CHOICES value.

(** The "sections" bucket of a tier, in the words of the specification:
    tagged with the tier and with no tier strictly below it. *)
Definition in_section (value : string) (e : Event.t) : bool :=
  in_ value (Event.prices_available e)
  && forallb (fun t => negb (in_ t (Event.prices_available e))) (tiers_below value).

Lemma filter_exclude {A : Type} (p q : A -> bool) (l : list A) :
  exclude q (filter p l) = filter (fun a => p a && negb (q a)) l.
Proof.
  unfold exclude. induction l as [|a l IH]; simpl; [reflexivity|].
  destruct (p a); simpl; [destruct (q a); simpl|]; now rewrite IH.
Qed.

Lemma contains_single (value : string) (e : Event.t) :
  prices_available__contains [value] e = in_ value (Event.prices_available e).
Proof. unfold prices_available__contains. simpl. apply andb_true_r. Qed.

Lemma filter_price_sections_in_section (queryset : list Event.t) (value : string) :
  In value EventFilter.PRICE_CHOICES ->
  EventFilter.filter_price_sections queryset value = filter (in_section value) queryset.
Proof.
  intros Hv. unfold EventFilter.PRICE_CHOICES in Hv. simpl in Hv.
  unfold EventFilter.filter_price_sections.
  destruct Hv as [<-|[<-|[<-|[<-|[<-|[<-|[]]]]]]];
    cbn [String.eqb Ascii.eqb Bool.eqb EventFilter.FREE EventFilter.PRICE_10
         EventFilter.PRICE_25 EventFilter.PRICE_50 EventFilter.PRICE_100
         EventFilter.PRICE_100_plus];
    rewrite ?filter_exclude; apply filter_ext; intros e;
    unfold in_section, tiers_below; cbn [tiers_before EventFilter.PRICE_CHOICES
         String.eqb Ascii.eqb Bool.eqb EventFilter.FREE EventFilter.PRICE_10
         EventFilter.PRICE_25 EventFilter.PRICE_50 EventFilter.PRICE_100
         EventFilter.PRICE_100_plus forallb q_holds q_or Qleaf];
    rewrite ?contains_single, ?negb_orb, ?andb_true_r, ?andb_assoc; reflexivity.
Qed.

Lemma in_section_true (value : string) (e : Event.t) :
  in_section value e = true <->
  In value (Event.prices_available e)
  /\ forall t, In t (tiers_below value) -> ~ In t (Event.prices_available e).
Proof.
  unfold in_section. rewrite andb_true_iff, in__true, forallb_forall.
  split; intros [H1 H2]; (split; [exact H1|]); intros t Ht.
  - specialize (H2 t Ht). apply negb_true_iff in H2.
    intros Hin. apply in__true in Hin. congruence.
  - apply negb_true_iff. destruct (in_ t (Event.prices_available e)) eqn:E;
      [|reflexivity]. apply in__true in E. now elim (H2 t Ht).
Qed.

Lemma tiers_comparable (v1 v2 : string) :
  In v1 EventFilter.PRICE_CHOICES -> In v2 EventFilter.PRICE_CHOICES -> v1 <> v2 ->
  In v1 (tiers_below v2) \/ In v2 (tiers_below v1).
Proof.
  unfold EventFilter.PRICE_CHOICES. simpl. intros H1 H2 Hne.
  destruct H1 as [<-|[<-|[<-|[<-|[<-|[<-|[]]]]]]];
    destruct H2 as [<-|[<-|[<-|[<-|[<-|[<-|[]]]]]]];
    try (now elim Hne);
    first [ left; cbv; tauto | right; cbv; tauto ].
Qed.

(** C4: the plain price predicate matches an event iff its
    [prices_available] contains the requested tier; the "sections" variant
    also excludes every event tagged with a tier strictly below the
    requested one; hence, over the six tiers, no event lies in the sections
    of two different tiers, and an event tagged with exactly one tier lies
    in the section of that tier. *)
Theorem price_sections_partition :
  (forall queryset value e,
      In e (EventFilter.filter_price queryset value) <->
      In e queryset /\ In value (Event.prices_available e))
  /\ (forall queryset value e,
         In value EventFilter.PRICE_CHOICES ->
         (In e (EventFilter.filter_price_sections queryset value) <->
          In e queryset
          /\ In value (Event.prices_available e)
          /\ forall t, In t (tiers_below value) -> ~ In t (Event.prices_available e)))
  /\ (forall queryset v1 v2 e,
         In v1 EventFilter.PRICE_CHOICES -> In v2 EventFilter.PRICE_CHOICES ->
         v1 <> v2 ->
         In e (EventFilter.filter_price_sections queryset v1) ->
         ~ In e (EventFilter.filter_price_sections queryset v2))
  /\ (forall queryset tier e,
         In tier EventFilter.PRICE_CHOICES ->
         Event.prices_available e = [tier] ->
         In e queryset ->
         In e (EventFilter.filter_price_sections queryset tier)).
Proof.
  split; [|split; [|split]].
  - intros queryset value e. unfold EventFilter.filter_price.
    now rewrite filter_In, contains_single, in__true.
  - intros queryset value e Hv.
    rewrite (filter_price_sections_in_section queryset Hv), filter_In, in_section_true.
    reflexivity.
  - intros queryset v1 v2 e H1 H2 Hne Hin1 Hin2.
    rewrite (filter_price_sections_in_section queryset H1), filter_In, in_section_true in Hin1.
    rewrite (filter_price_sections_in_section queryset H2), filter_In, in_section_true in Hin2.
    destruct Hin1 as (_ & Hv1 & Hb1), Hin2 as (_ & Hv2 & Hb2).
    destruct (tiers_comparable H1 H2 Hne) as [Hlt|Hlt].
    + exact (Hb2 v1 Hlt Hv1).
    + exact (Hb1 v2 Hlt Hv2).
  - intros queryset tier e Ht Hp Hin.
    rewrite (filter_price_sections_in_section queryset Ht), filter_In, in_section_true.
    split; [assumption|]. rewrite Hp. split; [now left|].
    intros t Hbelow [<-|[]].
    revert Hbelow. unfold EventFilter.PRICE_CHOICES in Ht. simpl in Ht.
    destruct Ht as [<-|[<-|[<-|[<-|[<-|[<-|[]]]]]]]; cbv; intuition discriminate.
Qed.

Definition concert_up_to_25 : Event.t :=
  {| Event.id := 2;
     Event.name := "Evening concert";
     Event.description := "Chamber music";
     Event.start_date := 0;
     Event.end_date := 7200000000;
     Event.prices_available := ["price_25"];
     Event.is_featured := false;
     Event.is_staff_picked := false;
     Event.has_location := YES;
     Event.point := None;
     Event.locations := [] |}.

Lemma price_sections_partition_witness :
  In concert_up_to_25
     (EventFilter.filter_price_sections [concert_up_to_25] EventFilter.PRICE_25)
  /\ ~ In concert_up_to_25
       (EventFilter.filter_price_sections [concert_up_to_25] EventFilter.PRICE_50).
Proof.
  destruct price_sections_partition as (_ & _ & Hexcl & Hexh).
  assert (H25 : In EventFilter.PRICE_25 EventFilter.PRICE_CHOICES) by (cbv; tauto).
  assert (H50 : In EventFilter.PRICE_50 EventFilter.PRICE_CHOICES) by (cbv; tauto).
  assert (Hin : In concert_up_to_25
                   (EventFilter.filter_price_sections [concert_up_to_25]
                                                      EventFilter.PRICE_25)).
  { apply Hexh; [exact H25 | reflexivity | now left]. }
  split; [exact Hin|].
  apply (Hexcl [concert_up_to_25] EventFilter.PRICE_25 EventFilter.PRICE_50
               concert_up_to_25 H25 H50); [discriminate | exact Hin].
Defined.

(** ** The time and radius filters of a request *)

Lemma City_objects_get_unknown (cities : list City.t) (slug : string) :
  (forall c, In c cities -> City.slug c <> slug) ->
  City_objects_get cities (Some slug) = Raise DoesNotExist.
Proof.
  intros Hu. unfold City_objects_get.
  replace (filter (fun c => String.eqb (City.slug c) slug) cities) with (@nil City.t);
    [reflexivity|].
  symmetry. induction cities as [|c l IH]; simpl; [reflexivity|].
  destruct (String.eqb (City.slug c) slug) eqn:E.
  - apply String.eqb_eq in E. elim (Hu c (or_introl eq_refl) E).
  - apply IH. intros c' Hc'. apply Hu. now right.
Qed.

Section EventFilterFacts.

Variable City_objects : list City.t.
Variable GET : QueryDict.
Variable cleaned_since cleaned_until : option Time.
Variable get_tampa : list string.
Variable get_city_day_start : City.t -> Time.
Variable to_city_time : City.t -> Time -> Time.
Variable get_weekend get_next_week get_next_weekend get_this_week :
  City.t -> Time * Time.
Variable utc_now_NOW utc_now_PAST : Time.
Variable replace_hms : Time -> Z -> Z -> Z -> Time.
Variable distance : Point -> Point -> Q.
Variable float : string -> option Q.

Abbreviation filter_when :=
  (EventFilter.filter_when City_objects GET cleaned_since cleaned_until
     get_city_day_start to_city_time get_weekend get_next_week get_next_weekend
     get_this_week utc_now_NOW utc_now_PAST replace_hms).
Abbreviation reference_point :=
  (EventFilter.reference_point City_objects GET get_tampa distance float).
Abbreviation filter_radius :=
  (EventFilter.filter_radius City_objects GET get_tampa distance float).
Abbreviation cluster_siblings := (EventFilter.cluster_siblings City_objects get_tampa).

(** No row of the city table carries the slug. *)
Definition unknown_slug (slug : string) : Prop :=
  forall c, In c City_objects -> City.slug c <> slug.

Lemma unknown_slug_DoesNotExist (slug : string) :
  unknown_slug slug -> City_objects_get City_objects (Some slug) = Raise DoesNotExist.
Proof. apply City_objects_get_unknown. Qed.

(** C3: an unknown city slug leaves the result of the time filter
    unchanged; in the radius filter a city slug that names no city, without
    both a longitude and a latitude to fall back on, forces the empty
    result; and a radius filter with neither a city nor coordinates returns
    its queryset. *)
Theorem unknown_city_open_for_when_closed_for_radius :
  (forall queryset value,
      unknown_slug (get_default "city" "tampa-bay-florida-united-states" GET) ->
      filter_when queryset value = Ok queryset)
  /\ (forall queryset value slug,
         get "city" GET = Some slug -> slug <> "" -> unknown_slug slug ->
         truthy (get "longitude" GET) && truthy (get "latitude" GET) = false ->
         filter_radius queryset value = Ok [])
  /\ (forall queryset value,
         truthy (get "city" GET) = false ->
         truthy (get "longitude" GET) && truthy (get "latitude" GET) = false ->
         filter_radius queryset value = Ok queryset).
Proof.
  split; [|split].
  - intros queryset value Hu. unfold EventFilter.filter_when.
    now rewrite (unknown_slug_DoesNotExist Hu).
  - intros queryset value slug Hc Hne Hu Hll.
    unfold EventFilter.filter_radius, EventFilter.reference_point.
    rewrite Hc, Hll, (unknown_slug_DoesNotExist Hu).
    destruct slug as [|a slug]; [now elim Hne|]. reflexivity.
  - intros queryset value Hc Hll.
    unfold EventFilter.filter_radius, EventFilter.reference_point.
    now rewrite Hc, Hll.
Qed.

(** *** The radius bound *)

(** The bound [filter_radius] passes to [dwithin]: the metres of the
    token, plus [add_miles] when that is true. *)
Definition effective_bound (metres : Z) (add_miles : option Q) : Q :=
  if EventFilter.truthy_float add_miles then
    match add_miles with
    | Some a => inject_Z metres + a
    | None => inject_Z metres
    end
  else inject_Z metres.

Lemma filter_radius_continue (queryset : list Event.t) (value : string)
  (ref_point : Point) (add_miles : option Q) (metres : Z) :
  reference_point queryset = Ok (Continue (ref_point, add_miles)) ->
  EventFilter.radius_distance value = Some metres ->
  filter_radius queryset value =
  Ok (filter (EventFilter.point__dwithin distance ref_point
                (effective_bound metres add_miles)) queryset).
Proof.
  intros Hr Hd. unfold EventFilter.filter_radius. rewrite Hr. simpl.
  now rewrite Hd.
Qed.

Lemma effective_bound_mono (m1 m2 : Z) (add_miles : option Q) :
  m1 <= m2 -> (effective_bound m1 add_miles <= effective_bound m2 add_miles)%Q.
Proof.
  intros Hle. assert (H : (inject_Z m1 <= inject_Z m2)%Q)
    by (rewrite <- Zle_Qle; exact Hle).
  unfold effective_bound.
  destruct (EventFilter.truthy_float add_miles); [|exact H].
  destruct add_miles as [a|]; [|exact H]. lra.
Qed.

Lemma point__dwithin_mono (ref_point : Point) (b1 b2 : Q) (e : Event.t) :
  (b1 <= b2)%Q ->
  EventFilter.point__dwithin distance ref_point b1 e = true ->
  EventFilter.point__dwithin distance ref_point b2 e = true.
Proof.
  unfold EventFilter.point__dwithin. intros Hb.
  destruct (Event.point e) as [p|]; [|discriminate].
  rewrite !Qle_bool_iff. intros H. lra.
Qed.

Lemma radius_choices_ordered (i j : nat) (v1 v2 : string) :
  (i <= j)%nat ->
  nth_error EventFilter.RADIUS_CHOICES i = Some v1 ->
  nth_error EventFilter.RADIUS_CHOICES j = Some v2 ->
  exists m1 m2,
    EventFilter.radius_distance v1 = Some m1
    /\ EventFilter.radius_distance v2 = Some m2
    /\ m1 <= m2.
Proof.
  intros Hij H1 H2.
  assert (Hi : (i < List.length EventFilter.RADIUS_CHOICES)%nat)
    by (apply nth_error_Some; rewrite H1; discriminate).
  assert (Hj : (j < List.length EventFilter.RADIUS_CHOICES)%nat)
    by (apply nth_error_Some; rewrite H2; discriminate).
  cbn in Hi, Hj.
  destruct i as [|[|[|[|[|[|[|[|[|[|i]]]]]]]]]]; try (exfalso; lia);
    cbn in H1; injection H1 as <-;
    destruct j as [|[|[|[|[|[|[|[|[|[|j]]]]]]]]]]; try (exfalso; lia);
    cbn in H2; injection H2 as <-;
    (eexists; eexists; split; [vm_compute; reflexivity|];
     split; [vm_compute; reflexivity | vm_compute; discriminate]).
Qed.

(** C8: for one request, hence one reference point, the events the radius
    filter matches under a token are matched under every later token of
    [5 < 25 < 50 < 100 < 100-plus <= 150 < 200 < 250 < 300 < 350] (the
    order of [RADIUS_CHOICES]); [mile-100-plus] has the bound of
    [mile-150], 150 miles. *)
Theorem filter_radius_monotone :
  (forall queryset i j v1 v2 r1,
      (i <= j)%nat ->
      nth_error EventFilter.RADIUS_CHOICES i = Some v1 ->
      nth_error EventFilter.RADIUS_CHOICES j = Some v2 ->
      filter_radius queryset v1 = Ok r1 ->
      exists r2,
        filter_radius queryset v2 = Ok r2 /\ forall e, In e r1 -> In e r2)
  /\ map EventFilter.radius_distance EventFilter.RADIUS_CHOICES =
     map (fun miles => Some (miles * 1609))
         [5; 25; 50; 100; 150; 150; 200; 250; 300; 350]
  /\ EventFilter.radius_distance EventFilter.HUNDRED_PLUS_MILE =
     EventFilter.radius_distance EventFilter.ONE_HUNDRED_FIFTY_MILE.
Proof.
  split; [|split; reflexivity].
  intros queryset i j v1 v2 r1 Hij H1 H2 Hr1.
  destruct (radius_choices_ordered Hij H1 H2) as (m1 & m2 & Hm1 & Hm2 & Hle).
  destruct (reference_point queryset) as [[qs|[ref_point add_miles]]|err] eqn:Hr.
  - unfold EventFilter.filter_radius in *. rewrite Hr in *. simpl in *.
    exists qs. split; [reflexivity|]. injection Hr1 as <-. auto.
  - rewrite (@filter_radius_continue queryset v1 _ _ _ Hr Hm1) in Hr1. injection Hr1 as <-.
    rewrite (@filter_radius_continue queryset v2 _ _ _ Hr Hm2).
    eexists. split; [reflexivity|]. intros e He.
    apply filter_In in He as [Hin Hd]. apply filter_In. split; [assumption|].
    eapply point__dwithin_mono; [|exact Hd]. now apply effective_bound_mono.
  - unfold EventFilter.filter_radius in Hr1. rewrite Hr in Hr1. discriminate.
Qed.

(** *** Cities of the cluster *)

Lemma reference_point_cluster (queryset : list Event.t) (slug : string)
  (city sibling : City.t) (others : list City.t) :
  get "city" GET = Some slug -> slug <> "" ->
  City_objects_get City_objects (Some slug) = Ok city ->
  In (City.slug city) get_tampa ->
  cluster_siblings city = sibling :: others ->
  reference_point queryset =
  Ok (Continue
        (centroid (City.point sibling) (City.point city),
         Some (distance (City.point sibling) (City.point city) / (1999 # 1000))%Q)).
Proof.
  intros Hc Hne Hget Hin Hsib. unfold EventFilter.reference_point.
  rewrite Hc, Hget. apply in__true in Hin. rewrite Hin, Hsib.
  destruct slug; [now elim Hne|]. reflexivity.
Qed.

(** C6 (amended): for a radius request whose city is a member of the
    cluster and has a cluster sibling, the reference point is the centroid
    of the city's point and the point of the first other cluster city in
    the default order of the city table (no ordering by distance is
    applied), and the distance bound is the metres of the token plus that
    sibling's distance divided by 1.999: above the nominal bound when the
    sibling's distance is positive, equal to it when that distance is
    zero. *)
Theorem cluster_reference_point_and_bound :
  forall queryset value slug city sibling others metres,
    get "city" GET = Some slug -> slug <> "" ->
    City_objects_get City_objects (Some slug) = Ok city ->
    In (City.slug city) get_tampa ->
    cluster_siblings city = sibling :: others ->
    EventFilter.radius_distance value = Some metres ->
    let d := distance (City.point sibling) (City.point city) in
    let ref_point := centroid (City.point sibling) (City.point city) in
    let bound := (inject_Z metres + d / (1999 # 1000))%Q in
    exists r,
      filter_radius queryset value = Ok r
      /\ (forall e, In e r <->
                    In e queryset
                    /\ exists p, Event.point e = Some p
                                 /\ (distance p ref_point <= bound)%Q)
      /\ ((0 < d)%Q -> (inject_Z metres < bound)%Q)
      /\ ((d == 0)%Q -> (bound == inject_Z metres)%Q).
Proof.
  intros queryset value slug city sibling others metres Hc Hne Hget Hin Hsib Hm
         d ref_point bound.
  pose proof (reference_point_cluster queryset Hc Hne Hget Hin Hsib) as Hr.
  rewrite (@filter_radius_continue queryset value _ _ _ Hr Hm).
  eexists. split; [reflexivity|]. split; [|split].
  - intros e. rewrite filter_In. unfold EventFilter.point__dwithin.
    fold d ref_point.
    assert (Hb : (effective_bound metres (Some (d / (1999 # 1000))) == bound)%Q).
    { unfold effective_bound, EventFilter.truthy_float, bound.
      destruct (Qeq_bool (d / (1999 # 1000)) 0) eqn:E; simpl; [|reflexivity].
      apply Qeq_bool_iff in E. rewrite E. ring. }
    split.
    + intros [Hq Hd]. split; [assumption|].
      destruct (Event.point e) as [p|]; [|discriminate].
      exists p. split; [reflexivity|].
      apply Qle_bool_iff in Hd. now rewrite <- Hb.
    + intros [Hq (p & Hp & Hd)]. split; [assumption|].
      rewrite Hp. apply Qle_bool_iff. now rewrite Hb.
  - intros Hd. unfold bound.
    assert (0 < d / (1999 # 1000))%Q by (apply Qlt_shift_div_l; lra). lra.
  - intros Hd. unfold bound. rewrite Hd. field.
Qed.

End EventFilterFacts.

(** ** A sample catalogue

    Cities of the Tampa Bay cluster and one city outside it, with rounded
    coordinates; the distance between two points is taken along the
    coordinate axes, 111 km to the degree.  The rows are in the order of
    their primary keys. *)

Module Sample.

Definition mk_city (id : Z) (slug : string) (lon lat : Q) (is_curated : bool) : City.t :=
  {| City.id := id; City.slug := slug;
     City.point := {| x := lon; y := lat |}; City.is_curated := is_curated |}.

Definition brandon := mk_city 1 "brandon-florida-united-states" (-8229 # 100) (2794 # 100) false.
Definition tampa := mk_city 2 "tampa-florida-united-states" (-8246 # 100) (2795 # 100) true.
Definition st_petersburg :=
  mk_city 3 "st-petersburg-florida-united-states" (-8264 # 100) (2776 # 100) true.
Definition clearwater :=
  mk_city 4 "clearwater-florida-united-states" (-8280 # 100) (2797 # 100) false.
Definition austin := mk_city 5 "austin-texas" (-9774 # 100) (3027 # 100) false.

Definition cities : list City.t := [brandon; tampa; st_petersburg; clearwater; austin].

Definition get_tampa : list string :=
  [City.slug brandon; City.slug tampa; City.slug st_petersburg; City.slug clearwater].

Definition Qabs_ (q : Q) : Q := if Qle_bool 0 q then q else (- q)%Q.

Definition distance (a b : Point) : Q :=
  ((Qabs_ (x a - x b) + Qabs_ (y a - y b)) * 111000)%Q.

(** The parameter strings the sample requests carry, as [float] reads them. *)
Definition float (s : string) : option Q :=
  if String.eqb s "-82.46" then Some (-8246 # 100)
  else if String.eqb s "27.95" then Some (2795 # 100)
  else None.

(** Local midnight of the requests' day and the periods counted from it;
    city time is four hours behind UTC. *)
Definition day : Z := timedelta 1 0 0 0.
Definition midnight : Time := 20000 * day.
Definition get_city_day_start (c : City.t) : Time := midnight.
Definition to_city_time (c : City.t) (t : Time) : Time := t + timedelta 0 4 0 0.
Definition get_this_week (c : City.t) : Time * Time :=
  (midnight - 2 * day, midnight + 5 * day - 1000000).
Definition get_weekend (c : City.t) : Time * Time :=
  (midnight + 3 * day, midnight + 5 * day - 1000000).
Definition get_next_week (c : City.t) : Time * Time :=
  (midnight + 5 * day, midnight + 12 * day - 1000000).
Definition get_next_weekend (c : City.t) : Time * Time :=
  (midnight + 10 * day, midnight + 12 * day - 1000000).
Definition utc_now : Time := midnight + timedelta 0 14 30 0.

(** [replace(hour, minute, second)] of a UTC value. *)
Definition replace_hms (t : Time) (h m s : Z) : Time :=
  t - t mod day + timedelta 0 h m s + t mod 1000000.

Definition mk_event (id : Z) (name description : string) (start_date end_date : Time)
  (featured staff_picked : bool) (point : option Point) (locations : list Z) : Event.t :=
  {| Event.id := id; Event.name := name; Event.description := description;
     Event.start_date := start_date; Event.end_date := end_date;
     Event.prices_available := ["free"];
     Event.is_featured := featured; Event.is_staff_picked := staff_picked;
     Event.has_location := match locations with [] => NO | _ :: _ => YES end;
     Event.point := point;
     Event.locations :=
       map (fun c => {| Location.city := c; Location.venue := "hall" |}) locations |}.

(** Stand-ins for the manager and the database: an event is viewable
    while it has not ended (past events once it has); a phrase matches a
    row that contains it as whole words; and the trigram similarity pg_trgm
    gives for the one pair the samples use. *)
Definition viewable (past_events : bool) (e : Event.t) : bool :=
  if past_events then Event.end_date e <? utc_now else utc_now <=? Event.end_date e.

Definition has_phrase (text value : string) : bool :=
  contains (" " ++ upper value ++ " ")%string (" " ++ upper text ++ " ")%string.

Definition search_matches (value : string) (e : Event.t) : bool :=
  has_phrase (Event.name e) value || has_phrase (Event.description e) value.

Definition TrigramSimilarity (text value : string) : Q :=
  if String.eqb text "Jazz Night" && String.eqb value "jazznight" then 8 # 13 else 0.

Definition jazz_night : Event.t :=
  mk_event 20 "Jazz Night" "Live quartet on the riverwalk"
    (midnight + timedelta 1 20 0 0) (midnight + timedelta 1 23 0 0)
    true false (Some (City.point tampa)) [2].

Definition pier_gala : Event.t :=
  mk_event 21 "Pier gala" "Black tie on the pier"
    (midnight + timedelta 2 19 0 0) (midnight + timedelta 2 23 0 0)
    false true (Some (City.point st_petersburg)) [3].

Definition book_club : Event.t :=
  mk_event 22 "Book club" "Monthly meeting"
    (midnight + timedelta 3 18 0 0) (midnight + timedelta 3 20 0 0)
    false false (Some (City.point austin)) [5].

Definition events : list Event.t := [jazz_night; pier_gala; book_club].

End Sample.

(** *** Instances of the filter properties *)

Definition request_unknown_city : QueryDict := [("city", "atlantis"); ("radius", "mile-25")].

Definition evening_show : Event.t :=
  Sample.mk_event 10 "Evening show" "Music by the bay"
    (Sample.midnight + timedelta 0 23 0 0) (Sample.midnight + timedelta 1 1 0 0)
    false false (Some (City.point Sample.tampa)) [2].

Lemma unknown_city_open_for_when_closed_for_radius_witness :
  EventFilter.filter_when Sample.cities request_unknown_city None None
    Sample.get_city_day_start Sample.to_city_time Sample.get_weekend
    Sample.get_next_week Sample.get_next_weekend Sample.get_this_week
    Sample.utc_now Sample.utc_now Sample.replace_hms
    [evening_show] [EventFilter.TOMORROW] = Ok [evening_show]
  /\ EventFilter.filter_radius Sample.cities request_unknown_city Sample.get_tampa
       Sample.distance Sample.float [evening_show] EventFilter.TWENTY_FIVE_MILE = Ok []
  /\ EventFilter.filter_radius Sample.cities [("radius", "mile-25")] Sample.get_tampa
       Sample.distance Sample.float [evening_show] EventFilter.TWENTY_FIVE_MILE
     = Ok [evening_show].
Proof.
  assert (Hu : unknown_slug Sample.cities "atlantis").
  { intros c Hc. cbv in Hc.
    repeat (destruct Hc as [<-|Hc]; [discriminate|]). destruct Hc. }
  split; [|split].
  - apply (proj1 (unknown_city_open_for_when_closed_for_radius
                    Sample.cities request_unknown_city None None
                    Sample.get_tampa Sample.get_city_day_start Sample.to_city_time
                    Sample.get_weekend Sample.get_next_week Sample.get_next_weekend
                    Sample.get_this_week Sample.utc_now Sample.utc_now
                    Sample.replace_hms Sample.distance Sample.float)).
    exact Hu.
  - apply (proj1 (proj2 (unknown_city_open_for_when_closed_for_radius
                    Sample.cities request_unknown_city None None
                    Sample.get_tampa Sample.get_city_day_start Sample.to_city_time
                    Sample.get_weekend Sample.get_next_week Sample.get_next_weekend
                    Sample.get_this_week Sample.utc_now Sample.utc_now
                    Sample.replace_hms Sample.distance Sample.float))
             [evening_show] EventFilter.TWENTY_FIVE_MILE "atlantis");
      [reflexivity | discriminate | exact Hu | reflexivity].
  - apply (proj2 (proj2 (unknown_city_open_for_when_closed_for_radius
                    Sample.cities [("radius", "mile-25")] None None
                    Sample.get_tampa Sample.get_city_day_start Sample.to_city_time
                    Sample.get_weekend Sample.get_next_week Sample.get_next_weekend
                    Sample.get_this_week Sample.utc_now Sample.utc_now
                    Sample.replace_hms Sample.distance Sample.float)));
      reflexivity.
Defined.

Definition request_by_coordinates : QueryDict :=
  [("longitude", "-82.46"); ("latitude", "27.95")].

Lemma filter_radius_monotone_witness :
  exists r2,
    EventFilter.filter_radius Sample.cities request_by_coordinates Sample.get_tampa
      Sample.distance Sample.float [evening_show] EventFilter.TWENTY_FIVE_MILE = Ok r2
    /\ forall e, In e [evening_show] -> In e r2.
Proof.
  apply (proj1 (filter_radius_monotone Sample.cities request_by_coordinates
                  Sample.get_tampa Sample.distance Sample.float)
           [evening_show] 0%nat 1%nat EventFilter.FIVE_MILE EventFilter.TWENTY_FIVE_MILE).
  - lia.
  - reflexivity.
  - reflexivity.
  - vm_compute. reflexivity.
Defined.

Definition request_clearwater : QueryDict :=
  [("city", "clearwater-florida-united-states"); ("radius", "mile-5")].

Definition brandon_market : Event.t :=
  Sample.mk_event 11 "Brandon farmers market" "Produce and crafts"
    (Sample.midnight + timedelta 0 9 0 0) (Sample.midnight + timedelta 0 13 0 0)
    false false (Some (City.point Sample.brandon)) [1].

(** Two cluster cities that share a point. *)
Definition ybor_city : City.t :=
  Sample.mk_city 6 "ybor-city-florida-united-states" (-8246 # 100) (2795 # 100) false.

Definition request_ybor_city : QueryDict :=
  [("city", "ybor-city-florida-united-states"); ("radius", "mile-5")].

(** C6, as stated, fails.  For Clearwater the cluster siblings come in
    table order (Brandon, Tampa, St. Petersburg): the reference point is
    the centroid with Brandon although Tampa is nearer, and an event in
    Brandon is matched at five miles where the centroid and bound of the
    nearest sibling would not match it.  And for a city whose first sibling
    lies at the same point, [add_miles] is [0.0], which is false: the bound
    stays the nominal one. *)
Lemma cluster_sibling_first_not_nearest :
  EventFilter.reference_point Sample.cities request_clearwater Sample.get_tampa
    Sample.distance Sample.float [brandon_market]
  = Ok (Continue
          (centroid (City.point Sample.brandon) (City.point Sample.clearwater),
           Some (Sample.distance (City.point Sample.brandon)
                                 (City.point Sample.clearwater) / (1999 # 1000))%Q))
  /\ In Sample.tampa
        (EventFilter.cluster_siblings Sample.cities Sample.get_tampa Sample.clearwater)
  /\ Qle_bool (Sample.distance (City.point Sample.brandon) (City.point Sample.clearwater))
              (Sample.distance (City.point Sample.tampa) (City.point Sample.clearwater))
     = false
  /\ EventFilter.filter_radius Sample.cities request_clearwater Sample.get_tampa
       Sample.distance Sample.float [brandon_market] EventFilter.FIVE_MILE
     = Ok [brandon_market]
  /\ EventFilter.point__dwithin Sample.distance
       (centroid (City.point Sample.tampa) (City.point Sample.clearwater))
       (inject_Z (5 * 1609)
        + Sample.distance (City.point Sample.tampa) (City.point Sample.clearwater)
          / (1999 # 1000))%Q
       brandon_market = false
  /\ EventFilter.reference_point [Sample.tampa; ybor_city] request_ybor_city
       [City.slug Sample.tampa; City.slug ybor_city] Sample.distance Sample.float []
     = Ok (Continue
             (centroid (City.point Sample.tampa) (City.point ybor_city),
              Some (Sample.distance (City.point Sample.tampa) (City.point ybor_city)
                    / (1999 # 1000))%Q))
  /\ effective_bound (5 * 1609)
       (Some (Sample.distance (City.point Sample.tampa) (City.point ybor_city)
              / (1999 # 1000))%Q)
     = inject_Z (5 * 1609).
Proof.
  split; [vm_compute; reflexivity|].
  split; [vm_compute; tauto|].
  split; [vm_compute; reflexivity|].
  split; [vm_compute; reflexivity|].
  split; [vm_compute; reflexivity|].
  split; vm_compute; reflexivity.
Qed.

Lemma cluster_reference_point_and_bound_witness :
  exists r,
    EventFilter.filter_radius Sample.cities request_clearwater Sample.get_tampa
      Sample.distance Sample.float [brandon_market] EventFilter.FIVE_MILE = Ok r
    /\ (inject_Z (5 * 1609)
        < inject_Z (5 * 1609)
          + Sample.distance (City.point Sample.brandon) (City.point Sample.clearwater)
            / (1999 # 1000))%Q.
Proof.
  destruct (cluster_reference_point_and_bound
              Sample.cities request_clearwater Sample.get_tampa Sample.distance
              Sample.float [brandon_market] EventFilter.FIVE_MILE
              (slug := "clearwater-florida-united-states")
              (city := Sample.clearwater) (sibling := Sample.brandon)
              (others := [Sample.tampa; Sample.st_petersburg])
              (metres := 5 * 1609))
    as (r & Hr & _ & Hpos & _).
  - reflexivity.
  - discriminate.
  - reflexivity.
  - vm_compute. tauto.
  - reflexivity.
  - reflexivity.
  - exists r. split; [exact Hr|]. apply Hpos. vm_compute. reflexivity.
Defined.

(** ** The when filter *)

(** The disjuncts a [Q] object holds: an empty one holds none. *)
Definition disjunct (q : Qobj) (e : Event.t) : bool :=
  match q with
  | None => false
  | Some p => p e
  end.

Definition nonempty (q : Qobj) : bool :=
  match q with
  | None => false
  | Some _ => true
  end.

(** [if b: when_filter |= Q(p)] *)
Definition or_if (b : bool) (p : Event.t -> bool) (q : Qobj) : Qobj :=
  if b then q_or q (Qleaf p) else q.

Lemma disjunct_or_if (b : bool) (p : Event.t -> bool) (q : Qobj) (e : Event.t) :
  disjunct (or_if b p q) e = disjunct q e || (b && p e).
Proof.
  destruct b, q as [f|]; simpl; rewrite ?orb_false_r; reflexivity.
Qed.

Lemma nonempty_or_if (b : bool) (p : Event.t -> bool) (q : Qobj) :
  nonempty (or_if b p q) = nonempty q || b.
Proof. destruct b, q as [f|]; reflexivity. Qed.

Lemma q_holds_nonempty (q : Qobj) (e : Event.t) :
  nonempty q = true -> q_holds q e = disjunct q e.
Proof. destruct q; simpl; congruence. Qed.

Section WhenFacts.

Variable City_objects : list City.t.
Variable GET : QueryDict.
Variable cleaned_since cleaned_until : option Time.
Variable get_city_day_start : City.t -> Time.
Variable to_city_time : City.t -> Time -> Time.
Variable get_weekend get_next_week get_next_weekend get_this_week :
  City.t -> Time * Time.
Variable utc_now_NOW utc_now_PAST : Time.
Variable replace_hms : Time -> Z -> Z -> Z -> Time.

Abbreviation filter_when :=
  (EventFilter.filter_when City_objects GET cleaned_since cleaned_until
     get_city_day_start to_city_time get_weekend get_next_week get_next_weekend
     get_this_week utc_now_NOW utc_now_PAST replace_hms).
Abbreviation process_since_and_until :=
  (EventFilter.process_since_and_until cleaned_since cleaned_until
     to_city_time replace_hms).

(** The city-local day of the request, as absolute instants: it ends
    23:59:59 after it starts. *)
Definition day_start (city : City.t) : Time :=
  to_city_time city (get_city_day_start city).

Definition day_end (city : City.t) : Time :=
  day_start city + timedelta 0 23 59 59.

(** A period of [core.utils], converted to absolute instants. *)
Definition window (city : City.t) (period : Time * Time) : Time * Time :=
  (to_city_time city (fst period), to_city_time city (snd period)).

Definition starts_within (w : Time * Time) (e : Event.t) : bool :=
  (fst w <=? Event.start_date e) && (Event.start_date e <=? snd w).

(** The predicate of one token, in the words of the specification. *)
Definition matches_token (city : City.t) (token : string) (e : Event.t) : bool :=
  if String.eqb token EventFilter.NOW then
    (Event.start_date e <=? utc_now_NOW) && (utc_now_NOW <=? Event.end_date e)
  else if String.eqb token EventFilter.TODAY then
    starts_within (day_start city, day_end city) e
  else if String.eqb token EventFilter.TOMORROW then
    starts_within (day_start city + timedelta 1 0 0 0,
                   day_end city + timedelta 1 0 0 0) e
  else if String.eqb token EventFilter.WEEKEND then
    starts_within (window city (get_weekend city)) e
  else if String.eqb token EventFilter.NEXT_WEEK then
    starts_within (window city (get_next_week city)) e
  else if String.eqb token EventFilter.NEXT_WEEKEND then
    starts_within (window city (get_next_weekend city)) e
  else if String.eqb token EventFilter.THIS_WEEK then
    starts_within (window city (get_this_week city)) e
  else if String.eqb token EventFilter.HAPPENING_LATER then
    snd (window city (get_next_weekend city)) <=? Event.start_date e
  else if String.eqb token EventFilter.PAST_EVENTS then
    Event.end_date e <=? utc_now_PAST
  else false.

(** The explicit range of the request: [since] and [until] as
    [process_since_and_until] converts them, [until] moved to 23:59:59. *)
Definition matches_since_until (city : City.t) (e : Event.t) : bool :=
  match process_since_and_until city with
  | (Some since, Some until) => starts_within (since, until) e
  | (None, Some until) => Event.start_date e <=? until
  | (Some since, None) => since <=? Event.start_date e
  | (None, None) => false
  end.

(** [when_filter] as [filter_when] has built it before the range is added. *)
Definition token_filter (city : City.t) (value : list string) : Qobj :=
  or_if (in_ EventFilter.PAST_EVENTS value) (matches_token city EventFilter.PAST_EVENTS)
  (or_if (in_ EventFilter.HAPPENING_LATER value)
         (matches_token city EventFilter.HAPPENING_LATER)
  (or_if (in_ EventFilter.THIS_WEEK value) (matches_token city EventFilter.THIS_WEEK)
  (or_if (in_ EventFilter.NEXT_WEEKEND value) (matches_token city EventFilter.NEXT_WEEKEND)
  (or_if (in_ EventFilter.NEXT_WEEK value) (matches_token city EventFilter.NEXT_WEEK)
  (or_if (in_ EventFilter.WEEKEND value) (matches_token city EventFilter.WEEKEND)
  (or_if (in_ EventFilter.TOMORROW value) (matches_token city EventFilter.TOMORROW)
  (or_if (in_ EventFilter.TODAY value) (matches_token city EventFilter.TODAY)
  (or_if (in_ EventFilter.NOW value) (matches_token city EventFilter.NOW) Q_)))))))).

Definition range_filter (city : City.t) (q : Qobj) : Qobj :=
  match process_since_and_until city with
  | (None, None) => q
  | _ => q_or q (Qleaf (matches_since_until city))
  end.

Lemma filter_when_found (queryset : list Event.t) (value : list string) (city : City.t) :
  City_objects_get City_objects
    (Some (get_default "city" "tampa-bay-florida-united-states" GET)) = Ok city ->
  filter_when queryset value =
  Ok (distinct (filter_q (range_filter city (token_filter city value)) queryset)).
Proof.
  intros Hget. unfold EventFilter.filter_when. rewrite Hget.
  unfold range_filter, token_filter, matches_since_until, matches_token, window,
    day_end, day_start, starts_within.
  cbn [String.eqb Ascii.eqb Bool.eqb EventFilter.NOW EventFilter.TODAY
       EventFilter.TOMORROW EventFilter.WEEKEND EventFilter.NEXT_WEEK
       EventFilter.NEXT_WEEKEND EventFilter.THIS_WEEK EventFilter.HAPPENING_LATER
       EventFilter.PAST_EVENTS].
  destruct (get_weekend city) as [w1 w2], (get_next_week city) as [nw1 nw2],
    (get_next_weekend city) as [nx1 nx2], (get_this_week city) as [t1 t2].
  cbn [fst snd].
  destruct (process_since_and_until city) as [[since|] [until|]]; reflexivity.
Qed.

Lemma disjunct_token_filter (city : City.t) (value : list string) (e : Event.t) :
  disjunct (token_filter city value) e = true <->
  exists token, In token value /\ matches_token city token e = true.
Proof.
  unfold token_filter. rewrite !disjunct_or_if. cbn [disjunct Q_].
  rewrite !orb_true_iff, !andb_true_iff, !in__true. split.
  - intros H.
    repeat match goal with
           | H : _ \/ _ |- _ => destruct H as [H|H]
           end;
      try discriminate; destruct H as [Hin Hm]; eauto.
  - intros (token & Hin & Hm). unfold matches_token in Hm.
    repeat match type of Hm with
           | context [String.eqb token ?k] =>
               destruct (String.eqb_spec token k) as [->|_];
               [ cbn [String.eqb Ascii.eqb Bool.eqb EventFilter.NOW EventFilter.TODAY
                      EventFilter.TOMORROW EventFilter.WEEKEND EventFilter.NEXT_WEEK
                      EventFilter.NEXT_WEEKEND EventFilter.THIS_WEEK
                      EventFilter.HAPPENING_LATER EventFilter.PAST_EVENTS]; tauto | ]
           end.
    discriminate.
Qed.

Lemma nonempty_token_filter (city : City.t) (value : list string) :
  value <> [] -> (forall token, In token value -> In token EventFilter.WHEN_CHOICES) ->
  nonempty (token_filter city value) = true.
Proof.
  intros Hne Hvalid. destruct value as [|token value]; [now elim Hne|].
  unfold token_filter. rewrite !nonempty_or_if. cbn [nonempty Q_].
  specialize (Hvalid token (or_introl eq_refl)).
  unfold EventFilter.WHEN_CHOICES in Hvalid. cbn [In] in Hvalid.
  repeat match goal with
         | H : _ \/ _ |- _ => destruct H as [<-|H]
         end;
    try (now elim Hvalid);
    unfold in_; cbn [existsb]; rewrite String.eqb_refl;
    cbn [orb]; rewrite ?orb_true_r; reflexivity.
Qed.

Lemma disjunct_range_filter (city : City.t) (q : Qobj) (e : Event.t) :
  disjunct (range_filter city q) e = disjunct q e || matches_since_until city e.
Proof.
  unfold range_filter, matches_since_until.
  destruct (process_since_and_until city) as [[since|] [until|]], q as [f|];
    simpl; rewrite ?orb_false_r; reflexivity.
Qed.

Lemma nonempty_range_filter (city : City.t) (q : Qobj) :
  nonempty q = true -> nonempty (range_filter city q) = true.
Proof.
  unfold range_filter.
  destruct (process_since_and_until city) as [[since|] [until|]], q as [f|];
    simpl; congruence.
Qed.

Lemma no_range_no_match (city : City.t) (e : Event.t) :
  cleaned_since = None -> cleaned_until = None -> matches_since_until city e = false.
Proof.
  intros Hs Hu. unfold matches_since_until, EventFilter.process_since_and_until.
  now rewrite Hs, Hu.
Qed.

(** C2 (amended): when the request's city resolves, for every event and
    every non-empty list of valid [when] tokens, the event is in the result
    iff it is in the queryset and either matches at least one selected
    token or falls in the [since] / [until] range supplied with the
    request; with neither [since] nor [until] supplied, iff it matches at
    least one selected token.  The tokens mean what [matches_token] says:
    [now] is start <= instant <= end; [today] and [tomorrow] are the
    city-local day windows, closed at exactly 23:59:59 after their start;
    [happening-later] is start >= the end of the next-weekend window;
    [past] is end <= instant. *)
Theorem filter_when_union :
  forall queryset value city,
    City_objects_get City_objects
      (Some (get_default "city" "tampa-bay-florida-united-states" GET)) = Ok city ->
    value <> [] ->
    (forall token, In token value -> In token EventFilter.WHEN_CHOICES) ->
    exists r,
      filter_when queryset value = Ok r
      /\ (forall e,
             In e r <->
             In e queryset
             /\ ((exists token, In token value /\ matches_token city token e = true)
                 \/ matches_since_until city e = true))
      /\ (cleaned_since = None -> cleaned_until = None ->
          forall e,
            In e r <->
            In e queryset
            /\ exists token, In token value /\ matches_token city token e = true)
      /\ (forall e,
             matches_token city EventFilter.TODAY e = true <->
             day_start city <= Event.start_date e
             <= day_start city + timedelta 0 23 59 59)
      /\ (forall e,
             matches_token city EventFilter.TOMORROW e = true <->
             day_start city + timedelta 1 0 0 0 <= Event.start_date e
             <= day_start city + timedelta 1 23 59 59)
      /\ (forall e,
             matches_token city EventFilter.NOW e = true <->
             Event.start_date e <= utc_now_NOW <= Event.end_date e)
      /\ (forall e,
             matches_token city EventFilter.HAPPENING_LATER e = true <->
             to_city_time city (snd (get_next_weekend city)) <= Event.start_date e)
      /\ (forall e,
             matches_token city EventFilter.PAST_EVENTS e = true <->
             Event.end_date e <= utc_now_PAST).
Proof.
  intros queryset value city Hget Hne Hvalid.
  rewrite (filter_when_found queryset value Hget).
  eexists. split; [reflexivity|].
  assert (Hmain : forall e,
             In e (distinct (filter_q (range_filter city (token_filter city value))
                                      queryset)) <->
             In e queryset
             /\ ((exists token, In token value /\ matches_token city token e = true)
                 \/ matches_since_until city e = true)).
  { intros e. rewrite distinct_In. unfold filter_q. rewrite filter_In.
    rewrite q_holds_nonempty
      by (apply nonempty_range_filter, nonempty_token_filter; assumption).
    rewrite disjunct_range_filter, orb_true_iff, disjunct_token_filter.
    reflexivity. }
  split; [exact Hmain|]. split; [|split; [|split; [|split; [|split]]]].
  - intros Hs Hu e. rewrite Hmain, (no_range_no_match city e Hs Hu).
    intuition discriminate.
  - intros e. unfold matches_token.
    cbn [String.eqb Ascii.eqb Bool.eqb EventFilter.NOW EventFilter.TODAY].
    unfold starts_within, day_end. cbn [fst snd].
    rewrite andb_true_iff, !Z.leb_le. reflexivity.
  - intros e. unfold matches_token.
    cbn [String.eqb Ascii.eqb Bool.eqb EventFilter.NOW EventFilter.TODAY
         EventFilter.TOMORROW].
    unfold starts_within, day_end. cbn [fst snd].
    rewrite andb_true_iff, !Z.leb_le. unfold timedelta. lia.
  - intros e. unfold matches_token.
    cbn [String.eqb Ascii.eqb Bool.eqb EventFilter.NOW].
    rewrite andb_true_iff, !Z.leb_le. reflexivity.
  - intros e. unfold matches_token, window.
    cbn [String.eqb Ascii.eqb Bool.eqb EventFilter.NOW EventFilter.TODAY
         EventFilter.TOMORROW EventFilter.WEEKEND EventFilter.NEXT_WEEK
         EventFilter.NEXT_WEEKEND EventFilter.THIS_WEEK EventFilter.HAPPENING_LATER
         fst snd].
    apply Z.leb_le.
  - intros e. unfold matches_token.
    cbn [String.eqb Ascii.eqb Bool.eqb EventFilter.NOW EventFilter.TODAY
         EventFilter.TOMORROW EventFilter.WEEKEND EventFilter.NEXT_WEEK
         EventFilter.NEXT_WEEKEND EventFilter.THIS_WEEK EventFilter.HAPPENING_LATER
         EventFilter.PAST_EVENTS].
    apply Z.leb_le.
Qed.

End WhenFacts.

(** *** Instances of the when filter *)

Definition request_tampa : QueryDict := [("city", "tampa-florida-united-states")].

(** City-local today of the sample: from 04:00:00 UTC to 03:59:59 UTC. *)
Definition last_second_show : Event.t :=
  Sample.mk_event 12 "Last call" "Starts in the last second of the day"
    (Sample.midnight + timedelta 0 4 0 0 + timedelta 0 23 59 59)
    (Sample.midnight + timedelta 1 6 0 0)
    false false (Some (City.point Sample.tampa)) [2].

Definition just_after_midnight_show : Event.t :=
  Sample.mk_event 13 "After hours" "Starts a microsecond later"
    (Sample.midnight + timedelta 0 4 0 0 + timedelta 0 23 59 59 + 1)
    (Sample.midnight + timedelta 1 6 0 0)
    false false (Some (City.point Sample.tampa)) [2].

Definition festival_next_month : Event.t :=
  Sample.mk_event 14 "Harvest festival" "Forty days from now"
    (Sample.midnight + timedelta 40 12 0 0) (Sample.midnight + timedelta 41 0 0 0)
    false false (Some (City.point Sample.tampa)) [2].

(** C2, as stated, fails: with [when=today] and a [since] thirty days
    ahead, an event that starts forty days ahead matches no selected token
    and is in the result. *)
Lemma since_joins_the_when_union :
  EventFilter.filter_when Sample.cities request_tampa
    (Some (Sample.midnight + timedelta 30 0 0 0)) None
    Sample.get_city_day_start Sample.to_city_time Sample.get_weekend
    Sample.get_next_week Sample.get_next_weekend Sample.get_this_week
    Sample.utc_now Sample.utc_now Sample.replace_hms
    [festival_next_month] [EventFilter.TODAY] = Ok [festival_next_month]
  /\ existsb (fun token =>
                matches_token Sample.get_city_day_start Sample.to_city_time
                  Sample.get_weekend Sample.get_next_week Sample.get_next_weekend
                  Sample.get_this_week Sample.utc_now Sample.utc_now
                  Sample.tampa token festival_next_month)
             [EventFilter.TODAY] = false.
Proof. split; vm_compute; reflexivity. Qed.

Lemma filter_when_union_witness :
  exists r,
    EventFilter.filter_when Sample.cities request_tampa None None
      Sample.get_city_day_start Sample.to_city_time Sample.get_weekend
      Sample.get_next_week Sample.get_next_weekend Sample.get_this_week
      Sample.utc_now Sample.utc_now Sample.replace_hms
      [last_second_show; just_after_midnight_show; festival_next_month]
      [EventFilter.TODAY] = Ok r
    /\ In last_second_show r
    /\ ~ In just_after_midnight_show r.
Proof.
  destruct (filter_when_union Sample.cities request_tampa None None
              Sample.get_city_day_start Sample.to_city_time Sample.get_weekend
              Sample.get_next_week Sample.get_next_weekend Sample.get_this_week
              Sample.utc_now Sample.utc_now Sample.replace_hms
              [last_second_show; just_after_midnight_show; festival_next_month]
              (value := [EventFilter.TODAY]) (city := Sample.tampa))
    as (r & Hr & _ & Hiff & Htoday & _).
  - reflexivity.
  - discriminate.
  - intros token [<-|[]]. cbv. tauto.
  - exists r. split; [exact Hr|]. split.
    + apply (Hiff eq_refl eq_refl). split; [cbn; tauto|].
      exists EventFilter.TODAY. split; [now left|].
      apply Htoday. vm_compute. split; discriminate.
    + intros Hin. apply (Hiff eq_refl eq_refl) in Hin.
      destruct Hin as (_ & token & [<-|[]] & Hm).
      apply Htoday in Hm. vm_compute in Hm. destruct Hm as [_ Hm]. now apply Hm.
Defined.


(** ** The curated-city policy of [EventViewSet.get_queryset] *)

Lemma Qle_bool_total (a b : Q) : Qle_bool a b = true \/ Qle_bool b a = true.
Proof.
  rewrite !Qle_bool_iff. destruct (Qlt_le_dec a b) as [H|H]; [left|right]; lra.
Qed.

Lemma Qle_bool_trans (a b c : Q) :
  Qle_bool a b = true -> Qle_bool b c = true -> Qle_bool a c = true.
Proof. rewrite !Qle_bool_iff. apply Qle_trans. Qed.

(** An event has a location in the city. *)
Definition located_in (e : Event.t) (c : City.t) : Prop :=
  exists l, In l (Event.locations e) /\ Location.city l = City.id c.

Lemma locations__city__in_true (cities : list City.t) (e : Event.t) :
  locations__city__in cities e = true <-> exists c, In c cities /\ located_in e c.
Proof.
  unfold locations__city__in, located_in. rewrite existsb_exists. split.
  - intros (l & Hl & Hc). apply existsb_exists in Hc as (c & Hc & Heq).
    apply Z.eqb_eq in Heq. eauto.
  - intros (c & Hc & l & Hl & Heq). exists l. split; [assumption|].
    apply existsb_exists. exists c. split; [assumption | now apply Z.eqb_eq].
Qed.

(** The radius tokens for which [get_nearest_curated_city] binds a distance. *)
Definition supported_radius (radius : option string) : bool :=
  existsb (fun token => eqb_opt radius (Some token))
          [EventFilter.FIVE_MILE; EventFilter.TWENTY_FIVE_MILE; EventFilter.FIFTY_MILE;
           EventFilter.HUNDRED_MILE; EventFilter.HUNDRED_PLUS_MILE].

Lemma unsupported_radius_no_distance (radius : option string) :
  supported_radius radius = false -> EventViewSet.curated_city_distance radius = None.
Proof.
  unfold supported_radius, EventViewSet.curated_city_distance. cbn [existsb].
  destruct (eqb_opt radius (Some EventFilter.FIVE_MILE)); [discriminate|].
  destruct (eqb_opt radius (Some EventFilter.TWENTY_FIVE_MILE)); [discriminate|].
  destruct (eqb_opt radius (Some EventFilter.FIFTY_MILE)); [discriminate|].
  destruct (eqb_opt radius (Some EventFilter.HUNDRED_MILE)); [discriminate|].
  destruct (eqb_opt radius (Some EventFilter.HUNDRED_PLUS_MILE)); [discriminate|].
  reflexivity.
Qed.

Section ViewFacts.

Variable Event_objects : list Event.t.
Variable City_objects : list City.t.
Variable viewable : bool -> Event.t -> bool.
Variable get_tampa : list string.
Variable distance : Point -> Point -> Q.
Variable search_matches : string -> Event.t -> bool.
Variable TrigramSimilarity : string -> string -> Q.
Variable timezone_now : Time.
Variable query_params : QueryDict.

Abbreviation get_nearest_curated_city :=
  (EventViewSet.get_nearest_curated_city City_objects get_tampa distance).
Abbreviation curated_city_block :=
  (EventViewSet.curated_city_block City_objects get_tampa distance).
Abbreviation get_queryset :=
  (EventViewSet.get_queryset Event_objects City_objects viewable get_tampa distance
     search_matches TrigramSimilarity timezone_now query_params).

(** The curated cities within a bound of a city, as the resolver's first
    query selects them. *)
Definition curated_within (city : City.t) (miles : Z) : list City.t :=
  filter (fun c => City.is_curated c
                   && Qle_bool (distance (City.point c) (City.point city)) (D_mi miles))
         City_objects.

Lemma point_eta (p : Point) : {| x := x p; y := y p |} = p.
Proof. now destruct p. Qed.

Lemma resolver_candidates (city : City.t) (radius : option string) (miles : Z) :
  EventViewSet.curated_city_distance radius = Some miles ->
  get_nearest_curated_city city radius =
  Some (let cities :=
          order_by (fun c => distance (City.point c) (City.point city)) Qle_bool
                   (curated_within city miles) in
        if negb (exists_ cities) && in_ (City.slug city) get_tampa
        then filter (fun c => String.eqb (City.slug c) "tampa-bay-florida-united-states")
                    City_objects
        else cities).
Proof.
  intros Hm. unfold EventViewSet.get_nearest_curated_city, curated_within.
  rewrite Hm, point_eta. reflexivity.
Qed.

(** When curated cities lie within the bound, the candidates are those
    cities and the first of them is no farther than any other. *)
Lemma resolver_nearest (city : City.t) (radius : option string) (miles : Z) :
  EventViewSet.curated_city_distance radius = Some miles ->
  curated_within city miles <> [] ->
  exists nearest others,
    get_nearest_curated_city city radius = Some (nearest :: others)
    /\ Permutation (curated_within city miles) (nearest :: others)
    /\ Forall (fun c => (distance (City.point nearest) (City.point city)
                         <= distance (City.point c) (City.point city))%Q) others.
Proof.
  intros Hm Hne. rewrite (resolver_candidates city radius Hm). cbv zeta.
  set (key := fun c : City.t => distance (City.point c) (City.point city)).
  pose proof (order_by_perm key Qle_bool (curated_within city miles)) as Hperm.
  pose proof (order_by_sorted key Qle_bool Qle_bool_total Qle_bool_trans
                (curated_within city miles)) as Hsorted.
  destruct (order_by key Qle_bool (curated_within city miles)) as [|nearest others] eqn:E.
  - apply Permutation_sym, Permutation_nil in Hperm. contradiction.
  - exists nearest, others. split; [reflexivity|]. split; [exact Hperm|].
    inversion Hsorted as [|? ? _ Hall]; subst.
    eapply Forall_impl; [|exact Hall].
    intros c Hc. unfold key_le, key in Hc. now apply Qle_bool_iff.
Qed.

Lemma block_no_candidate (city : City.t) (radius : option string)
  (queryset : list Event.t) (e : Event.t) :
  EventViewSet.falsy (get_nearest_curated_city city radius) = true ->
  (In e (curated_city_block false (Some city) radius queryset) <->
   In e queryset /\ Event.is_featured e = false /\ Event.is_staff_picked e = false).
Proof.
  intros Hf. unfold EventViewSet.curated_city_block. cbn [negb].
  rewrite Hf, !filter_In. unfold is_featured_, is_staff_picked_.
  destruct (Event.is_featured e), (Event.is_staff_picked e); cbn;
    intuition discriminate.
Qed.

Lemma block_candidates (city : City.t) (radius : option string)
  (nearest : City.t) (others : list City.t) (queryset : list Event.t) (e : Event.t) :
  get_nearest_curated_city city radius = Some (nearest :: others) ->
  (In e (curated_city_block false (Some city) radius queryset) <->
   In e queryset
   /\ ~ ((Event.is_featured e = true \/ Event.is_staff_picked e = true)
         /\ exists c, In c others /\ City.id c <> City.id nearest /\ located_in e c)).
Proof.
  intros Hc. unfold EventViewSet.curated_city_block. cbn [negb].
  rewrite Hc. cbn [EventViewSet.falsy exists_ negb].
  rewrite exclude_In. cbn [q_holds q_or Qleaf].
  apply and_iff_compat_l.
  rewrite <- not_true_iff_false, andb_true_iff, orb_true_iff.
  unfold is_featured_, is_staff_picked_. rewrite !eqb_true_iff.
  rewrite locations__city__in_true.
  assert (Hex : (exists c, In c (exclude (fun c => City.id c =? City.id nearest)
                                         (nearest :: others))
                           /\ located_in e c) <->
                (exists c, In c others /\ City.id c <> City.id nearest /\ located_in e c)).
  { split.
    - intros (c & Hin & Hl). apply exclude_In in Hin as [Hin Hid].
      apply Z.eqb_neq in Hid. destruct Hin as [<-|Hin]; [now elim Hid|]. eauto.
    - intros (c & Hin & Hid & Hl). exists c. split; [|assumption].
      apply exclude_In. split; [now right | now apply Z.eqb_neq]. }
  rewrite Hex. reflexivity.
Qed.

(** *** The whole of [get_queryset] *)

(** [when=past] selects the past events. *)
Definition past_requested : bool :=
  truthy (get "when" query_params)
  && eqb_opt (get "when" query_params) (Some EventFilter.PAST_EVENTS).

(** The events the view lists before the curated-city policy applies. *)
Definition listed (e : Event.t) : Prop :=
  In e Event_objects /\ viewable past_requested e = true.

(** The radius the view passes to the resolver. *)
Definition requested_radius : option string :=
  Some (get_default "radius" EventFilter.HUNDRED_PLUS_MILE query_params).

Lemma get_queryset_policy (slug : string) (city : City.t) :
  EventViewSet.is_search query_params = false ->
  truthy (get "what" query_params) = false ->
  get "city" query_params = Some slug -> slug <> "" ->
  City_objects_get City_objects (Some slug) = Ok city ->
  exists base,
    get_queryset =
    Ok (order_by Event.start_date Z.leb
          (curated_city_block (City.is_curated city) (Some city) requested_radius base))
    /\ forall e, In e base <-> listed e.
Proof.
  intros Hs Hw Hc Hne Hget. unfold EventViewSet.get_queryset.
  rewrite Hs, Hw, Hc, Hget.
  assert (Ht : truthy (Some slug) = true) by (destruct slug; [now elim Hne | reflexivity]).
  rewrite Ht. cbn [bind]. eexists. split; [reflexivity|].
  intros e. unfold listed, past_requested.
  destruct (truthy (get "when" query_params)
            && eqb_opt (get "when" query_params) (Some EventFilter.PAST_EVENTS));
    rewrite ?order_by_In, filter_In; reflexivity.
Qed.

(** C10 (amended): for every radius outside mile-5, mile-25, mile-50,
    mile-100 and mile-100-plus (mile-150 to mile-350, an unrecognized
    string, or none) the resolver answers no candidate list, whatever the
    city table holds, and the curated-city block then keeps, for an
    uncurated requested city, exactly the events that are neither featured
    nor staff-picked.  For the results of the view this gives: a request
    that is not a search, carries no [what] parameter, names an uncurated
    city and carries such a [radius] is answered with exactly the listed
    events that are neither featured nor staff-picked, whatever curated
    cities lie around the city.  A request without [radius] never reaches
    the resolver with a missing token: [get_queryset] passes mile-100-plus,
    for which the bound of the search is 10000 miles and every curated city
    within it is a candidate. *)
Theorem unsupported_radius_excludes_promoted :
  (forall city radius,
      supported_radius radius = false ->
      get_nearest_curated_city city radius = None)
  /\ (forall city radius queryset e,
         supported_radius radius = false ->
         City.is_curated city = false ->
         (In e (curated_city_block (City.is_curated city) (Some city) radius queryset) <->
          In e queryset
          /\ Event.is_featured e = false /\ Event.is_staff_picked e = false))
  /\ forallb (fun radius => negb (supported_radius radius))
       [Some EventFilter.ONE_HUNDRED_FIFTY_MILE; Some EventFilter.TWO_HUNDRED_MILE;
        Some EventFilter.TWO_HUNDRED_FIFTY_MILE; Some EventFilter.THREE_HUNDRED_MILE;
        Some EventFilter.THREE_HUNDRED_FIFTY_MILE; None] = true
  /\ (forall slug city token,
         EventViewSet.is_search query_params = false ->
         truthy (get "what" query_params) = false ->
         get "city" query_params = Some slug -> slug <> "" ->
         City_objects_get City_objects (Some slug) = Ok city ->
         City.is_curated city = false ->
         get "radius" query_params = Some token ->
         supported_radius (Some token) = false ->
         exists r,
           get_queryset = Ok r
           /\ forall e,
               In e r <->
               listed e /\ Event.is_featured e = false /\ Event.is_staff_picked e = false)
  /\ (get "radius" query_params = None ->
      requested_radius = Some EventFilter.HUNDRED_PLUS_MILE
      /\ supported_radius requested_radius = true)
  /\ EventViewSet.curated_city_distance (Some EventFilter.HUNDRED_PLUS_MILE) = Some 10000
  /\ (forall city c,
         In c City_objects -> City.is_curated c = true ->
         (distance (City.point c) (City.point city) <= D_mi 10000)%Q ->
         exists cities,
           get_nearest_curated_city city (Some EventFilter.HUNDRED_PLUS_MILE)
           = Some cities
           /\ In c cities).
Proof.
  assert (Hnone : forall city radius,
             supported_radius radius = false ->
             get_nearest_curated_city city radius = None).
  { intros city radius Hr. unfold EventViewSet.get_nearest_curated_city.
    now rewrite (unsupported_radius_no_distance radius Hr). }
  split; [exact Hnone|]. split; [|split; [|split; [|split; [|split]]]].
  - intros city radius queryset e Hr Hc. rewrite Hc.
    apply block_no_candidate. now rewrite (Hnone city radius Hr).
  - reflexivity.
  - intros slug city token Hs Hw Hc Hne Hget Hcur Hrad Hr.
    destruct (get_queryset_policy Hs Hw Hc Hne Hget) as (base & Hq & Hbase).
    rewrite Hq, Hcur. eexists. split; [reflexivity|].
    assert (Hreq : requested_radius = Some token).
    { unfold requested_radius, get_default. now rewrite Hrad. }
    intros e. rewrite order_by_In, Hreq.
    rewrite (@block_no_candidate city (Some token) base e); [now rewrite Hbase|].
    now rewrite (Hnone city (Some token) Hr).
  - intros Hrad. unfold requested_radius, get_default. rewrite Hrad.
    split; reflexivity.
  - reflexivity.
  - intros city c Hin Hcur Hd.
    assert (Hw : In c (curated_within city 10000)).
    { unfold curated_within. apply filter_In. split; [assumption|].
      rewrite Hcur. now apply Qle_bool_iff. }
    rewrite (resolver_candidates city (Some EventFilter.HUNDRED_PLUS_MILE)
               (miles := 10000) eq_refl).
    eexists. split; [reflexivity|]. cbv zeta.
    set (sorted := order_by _ Qle_bool (curated_within city 10000)).
    assert (Hs : In c sorted) by (apply order_by_In; exact Hw).
    destruct sorted as [|c0 rest]; [destruct Hs|]. exact Hs.
Qed.

(** C1 (amended): for every request that is not a search, carries no
    [what] parameter, and whose city slug names an uncurated city: if the
    resolver answers no candidate (no list, or an empty one), the result
    holds exactly the listed events that are neither featured nor
    staff-picked, so ordinary events are still returned; if it answers a
    non-empty list, the result holds exactly the listed events except the
    featured or staff-picked ones that have a location in a candidate city
    other than the first, so the first candidate's promoted events pass
    unless they are also located in another candidate; and when curated
    cities lie within the radius bound the first candidate is a nearest
    one. *)
Theorem curated_city_policy :
  forall slug city,
    EventViewSet.is_search query_params = false ->
    truthy (get "what" query_params) = false ->
    get "city" query_params = Some slug -> slug <> "" ->
    City_objects_get City_objects (Some slug) = Ok city ->
    City.is_curated city = false ->
    exists r,
      get_queryset = Ok r
      /\ (EventViewSet.falsy (get_nearest_curated_city city requested_radius) = true ->
          forall e,
            In e r <->
            listed e /\ Event.is_featured e = false /\ Event.is_staff_picked e = false)
      /\ (forall nearest others,
             get_nearest_curated_city city requested_radius = Some (nearest :: others) ->
             forall e,
               In e r <->
               listed e
               /\ ~ ((Event.is_featured e = true \/ Event.is_staff_picked e = true)
                     /\ exists c, In c others /\ City.id c <> City.id nearest
                                  /\ located_in e c))
      /\ (forall miles,
             EventViewSet.curated_city_distance requested_radius = Some miles ->
             curated_within city miles <> [] ->
             exists nearest others,
               get_nearest_curated_city city requested_radius = Some (nearest :: others)
               /\ Permutation (curated_within city miles) (nearest :: others)
               /\ Forall (fun c =>
                            (distance (City.point nearest) (City.point city)
                             <= distance (City.point c) (City.point city))%Q) others).
Proof.
  intros slug city Hs Hw Hc Hne Hget Hcur.
  destruct (get_queryset_policy Hs Hw Hc Hne Hget) as (base & Hq & Hbase).
  rewrite Hq, Hcur. eexists. split; [reflexivity|]. split; [|split].
  - intros Hf e. rewrite order_by_In, (@block_no_candidate city requested_radius _ e Hf), Hbase.
    reflexivity.
  - intros nearest others Hcand e.
    rewrite order_by_In, (@block_candidates city requested_radius nearest others _ e Hcand), Hbase.
    reflexivity.
  - intros miles Hm Hwithin. exact (resolver_nearest city requested_radius Hm Hwithin).
Qed.

End ViewFacts.

(** *** Instances of the curated-city policy *)

Definition request_austin : QueryDict :=
  [("city", "austin-texas"); ("radius", "mile-25")].

Definition request_austin_search : QueryDict :=
  [("city", "austin-texas"); ("radius", "mile-25"); ("search", "jazz")].

Definition request_austin_what : QueryDict :=
  [("city", "austin-texas"); ("radius", "mile-25"); ("what", "music")].

Definition request_clearwater_100 : QueryDict :=
  [("city", "clearwater-florida-united-states"); ("radius", "mile-100")].

(** C1, as stated, fails on two kinds of request for the uncurated city
    of Austin, for which the resolver finds no candidate within 25 miles:
    a search request is answered by [search_events], and a request with a
    [what] parameter by [Event.objects] filtered on the start date alone;
    either result holds the featured Jazz Night. *)
Lemma search_and_what_bypass_the_policy :
  City_objects_get Sample.cities (Some "austin-texas") = Ok Sample.austin
  /\ City.is_curated Sample.austin = false
  /\ EventViewSet.get_nearest_curated_city Sample.cities Sample.get_tampa
       Sample.distance Sample.austin (Some "mile-25") = Some []
  /\ Event.is_featured Sample.jazz_night = true
  /\ EventViewSet.get_queryset Sample.events Sample.cities Sample.viewable
       Sample.get_tampa Sample.distance Sample.search_matches
       Sample.TrigramSimilarity Sample.utc_now request_austin_search
     = Ok [Sample.jazz_night]
  /\ EventViewSet.get_queryset Sample.events Sample.cities Sample.viewable
       Sample.get_tampa Sample.distance Sample.search_matches
       Sample.TrigramSimilarity Sample.utc_now request_austin_what
     = Ok [Sample.jazz_night; Sample.pier_gala; Sample.book_club].
Proof. repeat (split; [vm_compute; reflexivity|]). vm_compute. reflexivity. Qed.

Lemma curated_city_policy_witness :
  (exists r,
      EventViewSet.get_queryset Sample.events Sample.cities Sample.viewable
        Sample.get_tampa Sample.distance Sample.search_matches
        Sample.TrigramSimilarity Sample.utc_now request_austin = Ok r
      /\ In Sample.book_club r /\ ~ In Sample.jazz_night r)
  /\ (exists r,
         EventViewSet.get_queryset Sample.events Sample.cities Sample.viewable
           Sample.get_tampa Sample.distance Sample.search_matches
           Sample.TrigramSimilarity Sample.utc_now request_clearwater_100 = Ok r
         /\ In Sample.jazz_night r /\ ~ In Sample.pier_gala r).
Proof.
  split.
  - destruct (curated_city_policy Sample.events Sample.cities Sample.viewable
                Sample.get_tampa Sample.distance Sample.search_matches
                Sample.TrigramSimilarity Sample.utc_now request_austin
                (slug := "austin-texas") (city := Sample.austin))
      as (r & Hr & Hnone & _); try reflexivity; try discriminate.
    exists r. split; [exact Hr|].
    assert (Hf : EventViewSet.falsy
                   (EventViewSet.get_nearest_curated_city Sample.cities
                      Sample.get_tampa Sample.distance Sample.austin
                      (requested_radius request_austin)) = true)
      by (vm_compute; reflexivity).
    split.
    + apply (Hnone Hf). repeat split; vm_compute; tauto.
    + intros Hin. apply (Hnone Hf) in Hin. destruct Hin as (_ & Hfeat & _).
      discriminate Hfeat.
  - destruct (curated_city_policy Sample.events Sample.cities Sample.viewable
                Sample.get_tampa Sample.distance Sample.search_matches
                Sample.TrigramSimilarity Sample.utc_now request_clearwater_100
                (slug := "clearwater-florida-united-states")
                (city := Sample.clearwater))
      as (r & Hr & _ & Hsome & _); try reflexivity; try discriminate.
    exists r. split; [exact Hr|].
    assert (Hc : EventViewSet.get_nearest_curated_city Sample.cities
                   Sample.get_tampa Sample.distance Sample.clearwater
                   (requested_radius request_clearwater_100)
                 = Some [Sample.tampa; Sample.st_petersburg])
      by (vm_compute; reflexivity).
    split.
    + apply (Hsome _ _ Hc). split; [split; vm_compute; tauto|].
      intros (_ & c & [<-|[]] & _ & l & [<-|[]] & Hl). discriminate Hl.
    + intros Hin. apply (Hsome _ _ Hc) in Hin. destruct Hin as (_ & Hno).
      apply Hno. split; [now right|].
      exists Sample.st_petersburg. split; [now left|]. split; [discriminate|].
      eexists. split; [now left | reflexivity].
Defined.

Definition request_clearwater_150 : QueryDict :=
  [("city", "clearwater-florida-united-states"); ("radius", "mile-150")].

Definition request_clearwater_150_search : QueryDict :=
  [("city", "clearwater-florida-united-states"); ("radius", "mile-150");
   ("search", "jazz")].

Definition request_clearwater_no_radius : QueryDict :=
  [("city", "clearwater-florida-united-states")].

(** C10, as stated, fails for the results of the view.  Clearwater is
    uncurated and mile-150 is outside the resolver's five tokens, yet a
    search request at that radius is answered with the featured Jazz
    Night; and a request without [radius] is not one for which the resolver
    answers no list: the view passes mile-100-plus, Tampa is the first
    candidate, and Jazz Night is in the result. *)
Lemma search_and_missing_radius_keep_promoted :
  City_objects_get Sample.cities (Some "clearwater-florida-united-states")
  = Ok Sample.clearwater
  /\ City.is_curated Sample.clearwater = false
  /\ supported_radius (Some "mile-150") = false
  /\ supported_radius (get "radius" request_clearwater_no_radius) = false
  /\ Event.is_featured Sample.jazz_night = true
  /\ EventViewSet.get_queryset Sample.events Sample.cities Sample.viewable
       Sample.get_tampa Sample.distance Sample.search_matches
       Sample.TrigramSimilarity Sample.utc_now request_clearwater_150_search
     = Ok [Sample.jazz_night]
  /\ EventViewSet.get_nearest_curated_city Sample.cities Sample.get_tampa
       Sample.distance Sample.clearwater
       (requested_radius request_clearwater_no_radius)
     = Some [Sample.tampa; Sample.st_petersburg]
  /\ EventViewSet.get_queryset Sample.events Sample.cities Sample.viewable
       Sample.get_tampa Sample.distance Sample.search_matches
       Sample.TrigramSimilarity Sample.utc_now request_clearwater_no_radius
     = Ok [Sample.jazz_night; Sample.book_club].
Proof. repeat (split; [vm_compute; reflexivity|]). vm_compute. reflexivity. Qed.

Lemma unsupported_radius_excludes_promoted_witness :
  In Sample.tampa
     (curated_within Sample.cities Sample.distance Sample.clearwater 150)
  /\ exists r,
       EventViewSet.get_queryset Sample.events Sample.cities Sample.viewable
         Sample.get_tampa Sample.distance Sample.search_matches
         Sample.TrigramSimilarity Sample.utc_now request_clearwater_150 = Ok r
       /\ In Sample.book_club r /\ ~ In Sample.jazz_night r.
Proof.
  split; [vm_compute; tauto|].
  destruct (proj1 (proj2 (proj2 (proj2
              (unsupported_radius_excludes_promoted Sample.events Sample.cities
                 Sample.viewable Sample.get_tampa Sample.distance
                 Sample.search_matches Sample.TrigramSimilarity Sample.utc_now
                 request_clearwater_150))))
              "clearwater-florida-united-states" Sample.clearwater "mile-150")
    as (r & Hr & Hin); try reflexivity; try discriminate.
  exists r. split; [exact Hr|]. split.
  - apply Hin. repeat split; vm_compute; tauto.
  - intros H. apply Hin in H. destruct H as (_ & Hfeat & _). discriminate Hfeat.
Defined.

(** ** Text search *)

Lemma StronglySorted_weaken {A : Type} (R S : A -> A -> Prop) (l : list A) :
  (forall a b, R a b -> S a b) -> StronglySorted R l -> StronglySorted S l.
Proof.
  intros HRS. induction 1 as [|a l Hl IH Ha]; constructor; [exact IH|].
  eapply Forall_impl; [|exact Ha]. intros b. apply HRS.
Qed.

(** "Tried in order, first non-empty result wins": the result of the first
    stage that has a row, and nothing when none has. *)
Fixpoint first_non_empty (stages : list (list Event.t)) : list Event.t :=
  match stages with
  | [] => []
  | stage :: stages' => if exists_ stage then stage else first_non_empty stages'
  end.

Section SearchFacts.

Variable search_matches : string -> Event.t -> bool.
Variable TrigramSimilarity : string -> string -> Q.
Variable query_params : QueryDict.

Abbreviation value := (get_default "search" "" query_params).
Abbreviation similarity := (EventViewSet.similarity TrigramSimilarity).

Lemma filter_or (p q : Event.t -> bool) (queryset : list Event.t) :
  filter_q (q_or (Qleaf p) (Qleaf q)) queryset = filter (fun e => p e || q e) queryset.
Proof. reflexivity. Qed.

Lemma first_non_empty_last (stage : list Event.t) : first_non_empty [stage] = stage.
Proof. now destruct stage. Qed.

(** C7 (amended): a query shorter than 3 characters gives the empty
    result in both views.  Otherwise [EventViewSet.filter_search] answers
    the first non-empty of (a) phrase full-text match or case-insensitive
    prefix match on the name, (b) the prefix match alone, (c) the rows
    whose trigram similarity is strictly above 0.03, by descending
    similarity, (d) the rows whose name or description contains the query,
    case-insensitively, in the order of the queryset; and
    [MapViewSet.filter_search] answers the first non-empty of (a), (b) and
    (d): it has no trigram stage. *)
Theorem search_fallback_chain :
  forall queryset,
    ((String.length value < 3)%nat ->
     EventViewSet.filter_search search_matches TrigramSimilarity query_params queryset = []
     /\ MapViewSet.filter_search search_matches query_params queryset = [])
    /\ ((3 <= String.length value)%nat ->
        exists a b c d,
          EventViewSet.filter_search search_matches TrigramSimilarity query_params queryset
          = first_non_empty [a; b; c; d]
          /\ MapViewSet.filter_search search_matches query_params queryset
             = first_non_empty [a; b; d]
          /\ a = filter (fun e => search_matches value e
                                  || istartswith (Event.name e) value) queryset
          /\ b = filter (fun e => istartswith (Event.name e) value) queryset
          /\ (forall e, In e c <-> In e queryset /\ (3 # 100 < similarity value e)%Q)
          /\ StronglySorted
               (fun e1 e2 => (similarity value e2 <= similarity value e1)%Q) c
          /\ d = filter (fun e => icontains (Event.name e) value
                                  || icontains (Event.description e) value) queryset).
Proof.
  intros queryset. split.
  - intros Hlen. apply Nat.ltb_lt in Hlen.
    unfold EventViewSet.filter_search, MapViewSet.filter_search.
    rewrite Hlen. split; reflexivity.
  - intros Hlen. apply Nat.ltb_ge in Hlen.
    unfold EventViewSet.filter_search, MapViewSet.filter_search. rewrite Hlen.
    rewrite !filter_or.
    set (a := filter (fun e => search_matches value e
                               || istartswith (Event.name e) value) queryset).
    set (b := filter (fun e => istartswith (Event.name e) value) queryset).
    set (c := order_by (similarity value) (fun q1 q2 => Qle_bool q2 q1)
                (filter (fun e => negb (Qle_bool (similarity value e) (3 # 100)))
                        queryset)).
    set (d := filter (fun e => icontains (Event.name e) value
                               || icontains (Event.description e) value) queryset).
    exists a, b, c, d.
    split; [|split; [|split; [|split; [|split; [|split]]]]]; try reflexivity.
    + cbn [first_non_empty]. destruct (exists_ a), (exists_ b), (exists_ c), d;
        reflexivity.
    + cbn [first_non_empty]. destruct (exists_ a), (exists_ b), d; reflexivity.
    + intros e. unfold c. rewrite order_by_In, filter_In, negb_true_iff.
      apply and_iff_compat_l. rewrite <- not_true_iff_false, Qle_bool_iff.
      split; [apply Qnot_le_lt | apply Qlt_not_le].
    + unfold c.
      assert (Hs := order_by_sorted (similarity value) (fun q1 q2 => Qle_bool q2 q1)
                      (fun q1 q2 => Qle_bool_total q2 q1)
                      (fun q1 q2 q3 H12 H23 => Qle_bool_trans q3 q2 q1 H23 H12)
                      (filter (fun e => negb (Qle_bool (similarity value e) (3 # 100)))
                              queryset)).
      eapply StronglySorted_weaken; [|exact Hs].
      intros e1 e2 H. unfold key_le in H. now apply Qle_bool_iff.
Qed.

End SearchFacts.

(** *** Instances of the search chain *)

Definition request_search_jazznight : QueryDict := [("search", "jazznight")].

(** C7, as stated, fails for the map view: for the query "jazznight" no
    row matches the phrase, a prefix or a substring, the trigram stage
    holds Jazz Night (similarity 8/13), and [MapViewSet.filter_search]
    answers the empty substring stage where [EventViewSet.filter_search]
    answers the trigram stage. *)
Lemma map_search_skips_trigram_stage :
  EventViewSet.filter_search Sample.search_matches Sample.TrigramSimilarity
    request_search_jazznight Sample.events = [Sample.jazz_night]
  /\ MapViewSet.filter_search Sample.search_matches
       request_search_jazznight Sample.events = []
  /\ Qle_bool (EventViewSet.similarity Sample.TrigramSimilarity "jazznight"
                 Sample.jazz_night) (3 # 100) = false.
Proof. repeat (split; [vm_compute; reflexivity|]). vm_compute. reflexivity. Qed.

Lemma search_fallback_chain_witness :
  exists a b c d,
    EventViewSet.filter_search Sample.search_matches Sample.TrigramSimilarity
      request_search_jazznight Sample.events = first_non_empty [a; b; c; d]
    /\ MapViewSet.filter_search Sample.search_matches
         request_search_jazznight Sample.events = first_non_empty [a; b; d]
    /\ In Sample.jazz_night c.
Proof.
  destruct (proj2 (search_fallback_chain Sample.search_matches
                     Sample.TrigramSimilarity request_search_jazznight Sample.events))
    as (a & b & c & d & Hev & Hmap & _ & _ & Hc & _).
  - vm_compute. lia.
  - exists a, b, c, d. split; [exact Hev|]. split; [exact Hmap|].
    apply Hc. split; [vm_compute; tauto | vm_compute; reflexivity].
Defined.

(** ** The cached views *)


Section CacheFacts.

Variable NativeCache_objects : list NativeCache.t.
Variable EventBucket_objects : list EventBucket.t.
Variable is_refresh_cache : NativeCache.t -> bool.
Variable Section_DESKTOP Section_CITY_PAGE Section_DATE_TAB : string.
Variable EventBucket_WHEN EventBucket_HAPPENING_LATER : string.
Variable EventBucketPagination_page_size : string.
Variable paginate_queryset :
  QueryDict -> list EventBucket.t -> result (option (list EventBucket.t)).
Variable get_paginated_response : QueryDict -> list EventBucket.t -> string.
Variable EventBucketSerializer_data : QueryDict -> list EventBucket.t -> string.
Variable get_response : QueryDict -> string.

Abbreviation when_paginated :=
  (EventViewSet.when_paginated NativeCache_objects EventBucket_objects
     is_refresh_cache Section_DESKTOP Section_CITY_PAGE Section_DATE_TAB
     EventBucket_WHEN EventBucket_HAPPENING_LATER EventBucketPagination_page_size
     paginate_queryset get_paginated_response EventBucketSerializer_data).
Abbreviation when_response :=
  (EventViewSet.when_response NativeCache_objects Section_DESKTOP Section_CITY_PAGE
     Section_DATE_TAB EventBucketPagination_page_size).
Abbreviation when_buckets :=
  (EventViewSet.when_buckets EventBucket_objects EventBucket_WHEN
     EventBucket_HAPPENING_LATER).
Abbreviation desktop :=
  (SectionViewSet.desktop NativeCache_objects is_refresh_cache get_response).
Abbreviation desktop_response := (SectionViewSet.desktop_response NativeCache_objects).







End CacheFacts.

(** *** Instances of the cached views *)

Module SampleCache.

Definition when_entry : NativeCache.t :=
  {| NativeCache.url := Some "/v2/events/when_paginated/";
     NativeCache.platform := Some "desktop";
     NativeCache.page_type := Some "city-page";
     NativeCache.tab := Some "date";
     NativeCache.city := Some "tampa-florida-united-states";
     NativeCache.radius := Some "mile-25";
     NativeCache.page_no := Some "1";
     NativeCache.query_params := ["10"];
     NativeCache.response := "{stored when page}";
     NativeCache.updated_at := Sample.midnight |}.

Definition NativeCache_objects : list NativeCache.t := [when_entry].

Definition mk_bucket (pk : Z) (bucket : string) : EventBucket.t :=
  {| EventBucket.pk := pk; EventBucket.bucket_type := "when";
     EventBucket.bucket := bucket; EventBucket.is_active := true;
     EventBucket.sort_order := pk |}.

Definition EventBucket_objects : list EventBucket.t :=
  [mk_bucket 1 "today"; mk_bucket 2 "tomorrow"; mk_bucket 3 "weekend"].

(** An entry is refreshed once it is five minutes old; the requests
    arrive at [Sample.utc_now], hours after the entry was written. *)
Definition is_refresh_cache (cache : NativeCache.t) : bool :=
  NativeCache.updated_at cache + timedelta 0 0 5 0 <=? Sample.utc_now.

Definition paginate_queryset (query_params : QueryDict) (buckets : list EventBucket.t)
  : result (option (list EventBucket.t)) := Ok (Some buckets).

Definition when_paginated : QueryDict -> list Task -> result (string * list Task) :=
  EventViewSet.when_paginated NativeCache_objects EventBucket_objects is_refresh_cache
    "desktop" "city-page" "date" "when" "happening-later" "10" paginate_queryset
    (fun _ _ => "{fresh when page}") (fun _ _ => "{all when buckets}").

Definition request : QueryDict :=
  [("city", "tampa-florida-united-states"); ("radius", "mile-25")].

Definition refresh : Task :=
  cache_date_tab_city_page [1; 2; 3] [1; 2; 3] (Some "tampa-florida-united-states")
    "1" "10" (Some "mile-25").

End SampleCache.



(** ** The [what] branch of [EventViewSet.get_queryset] *)

(** X1: for a request that is not a search and carries a [what] parameter,
    whenever [get_queryset] answers, its answer is every row of
    [Event.objects] that starts at or after the current instant, by start
    date: the assignment under [if what:] starts again from the manager, so
    neither [viewable()] nor the curated-city block narrows the result. *)
Theorem what_restarts_from_the_manager :
  forall Event_objects City_objects viewable get_tampa distance search_matches
         TrigramSimilarity timezone_now query_params r,
    EventViewSet.is_search query_params = false ->
    truthy (get "what" query_params) = true ->
    EventViewSet.get_queryset Event_objects City_objects viewable get_tampa distance
      search_matches TrigramSimilarity timezone_now query_params = Ok r ->
    r = order_by Event.start_date Z.leb
          (filter (start_date__gte timezone_now) Event_objects).
Proof.
  intros Event_objects City_objects viewable get_tampa distance search_matches
         TrigramSimilarity timezone_now query_params r Hs Hw.
  unfold EventViewSet.get_queryset. rewrite Hs, Hw.
  destruct (truthy (get "city" query_params)); cbn [bind].
  - destruct (City_objects_get City_objects (get "city" query_params)) as [city|[]];
      cbn [bind]; congruence.
  - congruence.
Qed.

Lemma what_restarts_from_the_manager_witness :
  [Sample.jazz_night; Sample.pier_gala; Sample.book_club]
  = order_by Event.start_date Z.leb
      (filter (start_date__gte Sample.utc_now) Sample.events).
Proof.
  apply (what_restarts_from_the_manager Sample.events Sample.cities Sample.viewable
           Sample.get_tampa Sample.distance Sample.search_matches
           Sample.TrigramSimilarity Sample.utc_now request_austin_what).
  - reflexivity.
  - reflexivity.
  - vm_compute. reflexivity.
Defined.

(** * More of [filters.py]

    The remaining methods of [EventFilter] that work on the fields modelled
    above, and the filters of sections. *)

(** A join on the locations of an event answers the event once for every
    location that matches. *)
Definition join_locations (p : Location.t -> bool) (qs : list Event.t) : list Event.t :=
  flat_map (fun e => map (fun _ => e) (filter p (Event.locations e))) qs.

(** What [filter_map_radius] raises. *)
Variant map_radius_error : Set :=
| RequiredFieldValidation (fields : list string)
| FloatValueError.

Module EventFilterRest.

Section Request.

Variable City_objects : list City.t.
Variable GET : QueryDict.

(** [self.data], the parameters the filterset was built from. *)
Variable data : QueryDict.

(** [self.form.cleaned_data]: the tokens of [when], and [since] / [until]. *)
Variable cleaned_when : list string.
Variable cleaned_since cleaned_until : option Time.

Variable to_city_time : City.t -> Time -> Time.
Variable replace_hms : Time -> Z -> Z -> Z -> Time.
Variable utc_now : Time.
Variable distance : Point -> Point -> Q.
Variable float : string -> option Q.

Definition filter_venue (queryset : list Event.t) (value : string) : list Event.t :=
  if truthy (Some value) then
    join_locations (fun l => String.eqb (Location.venue l) value) queryset
  else queryset.

Definition filter_page_size (queryset : list Event.t) (value : Q) : list Event.t :=
  queryset.

Definition filter_ongoing (queryset : list Event.t) (value : bool) : list Event.t :=
  if negb value then
    exclude (fun e => start_date__lte utc_now e && end_date__gte utc_now e) queryset
  else queryset.

Definition filter_upcoming (queryset : list Event.t) (value : bool) : list Event.t :=
  if value then filter (start_date__gte utc_now) queryset else queryset.

Definition filter_map_radius (queryset : list Event.t) (value : Q)
  : list Event.t + map_radius_error :=
  let latitude := get "latitude" data in
  let longitude := get "longitude" data in
  let fields := [] in
  let fields := if negb (truthy latitude) then fields ++ ["latitude"] else fields in
  let fields := if negb (truthy longitude) then fields ++ ["longitude"] else fields in
  if exists_ fields then inr (RequiredFieldValidation fields)
  else
    match latitude, longitude with
    | Some latitude, Some longitude =>
        match float latitude, float longitude with
        | Some latitude, Some longitude =>
            let ref_point := {| x := longitude; y := latitude |} in
            let one_mile := 1609 in
            let visible_radius := (value * inject_Z one_mile)%Q in
            inl (filter (EventFilter.point__dwithin distance ref_point visible_radius)
                        queryset)
        | _, _ => inr FloatValueError
        end
    | _, _ => inr FloatValueError
    end.

(** [date_filter] is bound by none of the three branches when neither
    [since] nor [until] is set. *)
Definition filter_until_since (queryset : list Event.t) : result (list Event.t) :=
  if exists_ cleaned_when then Ok queryset
  else
    let city_slug := get "city" GET in
    if truthy city_slug then
      match City_objects_get City_objects city_slug with
      | Raise DoesNotExist => Ok queryset
      | Raise e => Raise e
      | Ok city =>
          let '(since, until) :=
            EventFilter.process_since_and_until cleaned_since cleaned_until
              to_city_time replace_hms city in
          match since, until with
          | Some since, Some until => Ok (filter (start_date__range since until) queryset)
          | None, Some until => Ok (filter (start_date__lte until) queryset)
          | Some since, None => Ok (filter (start_date__gte since) queryset)
          | None, None => Raise UnboundLocalError
          end
      end
    else Ok queryset.

Definition filter_search (queryset : list Event.t) (value : string) : list Event.t :=
  queryset.

Definition filter_city (queryset : list Event.t) (value : string) : list Event.t :=
  queryset.

End Request.

End EventFilterRest.

(** ** What the filters have in common *)

(** A method that keeps the rows on which some predicate holds. *)
Definition row_filter (F : list Event.t -> list Event.t) : Prop :=
  exists p, forall qs, F qs = filter p qs.

(** The result of a method that may raise, mapped. *)
Definition map_result {A B : Type} (f : A -> B) (r : result A) : result B :=
  match r with
  | Ok a => Ok (f a)
  | Raise e => Raise e
  end.

Lemma filter_comm {A : Type} (p q : A -> bool) (l : list A) :
  filter p (filter q l) = filter q (filter p l).
Proof.
  induction l as [|a l IH]; simpl; [reflexivity|].
  destruct (p a) eqn:Hp, (q a) eqn:Hq; simpl; rewrite ?Hp, ?Hq, IH; reflexivity.
Qed.

Lemma filter_filter_and {A : Type} (p q : A -> bool) (l : list A) :
  filter p (filter q l) = filter (fun a => q a && p a) l.
Proof.
  induction l as [|a l IH]; simpl; [reflexivity|].
  destruct (q a); simpl; [destruct (p a)|]; now rewrite IH.
Qed.

Lemma nodup_filter (p : Event.t -> bool) (l : list Event.t) :
  nodup Event_eq_dec (filter p l) = filter p (nodup Event_eq_dec l).
Proof.
  induction l as [|a l IH]; simpl; [reflexivity|].
  destruct (p a) eqn:Hp; simpl.
  - destruct (in_dec Event_eq_dec a (filter p l)) as [Hin|Hin],
      (in_dec Event_eq_dec a l) as [Hin'|Hin']; simpl; rewrite ?Hp, ?IH;
      try reflexivity.
    + apply filter_In in Hin. now elim Hin'.
    + elim Hin. apply filter_In. now split.
  - destruct (in_dec Event_eq_dec a l); simpl; rewrite ?Hp; exact IH.
Qed.

Lemma row_filter_price (value : string) :
  row_filter (fun qs => EventFilter.filter_price qs value).
Proof. eexists. intros qs. reflexivity. Qed.

Lemma row_filter_price_sections (value : string) :
  row_filter (fun qs => EventFilter.filter_price_sections qs value).
Proof.
  unfold row_filter, EventFilter.filter_price_sections.
  destruct (String.eqb value EventFilter.PRICE_10);
    [eexists; intros qs; apply filter_exclude|].
  destruct (String.eqb value EventFilter.PRICE_25);
    [eexists; intros qs; apply filter_exclude|].
  destruct (String.eqb value EventFilter.PRICE_50);
    [eexists; intros qs; apply filter_exclude|].
  destruct (String.eqb value EventFilter.PRICE_100);
    [eexists; intros qs; apply filter_exclude|].
  destruct (String.eqb value EventFilter.PRICE_100_plus);
    [eexists; intros qs; apply filter_exclude|].
  eexists. intros qs. reflexivity.
Qed.

Lemma row_filter_has_location (name : string) (value : bool) :
  row_filter (fun qs => EventFilter.filter_has_location qs name value).
Proof.
  unfold row_filter, EventFilter.filter_has_location.
  destruct (String.eqb name "is_curated"), value; cbn [negb].
  - eexists. intros qs. unfold filter_q. apply filter_filter_and.
  - eexists. intros qs. reflexivity.
  - eexists. intros qs. reflexivity.
  - exists (fun _ => true). intros qs. symmetry. apply forallb_filter_id.
    now apply forallb_forall.
Qed.

Section FilterFacts.

Variable City_objects : list City.t.
Variable GET : QueryDict.
Variable data : QueryDict.
Variable cleaned_when : list string.
Variable cleaned_since cleaned_until : option Time.
Variable get_tampa : list string.
Variable get_city_day_start : City.t -> Time.
Variable to_city_time : City.t -> Time -> Time.
Variable get_weekend get_next_week get_next_weekend get_this_week :
  City.t -> Time * Time.
Variable utc_now : Time.
Variable replace_hms : Time -> Z -> Z -> Z -> Time.
Variable distance : Point -> Point -> Q.
Variable float : string -> option Q.

Abbreviation filter_when :=
  (EventFilter.filter_when City_objects GET cleaned_since cleaned_until
     get_city_day_start to_city_time get_weekend get_next_week get_next_weekend
     get_this_week utc_now utc_now replace_hms).
Abbreviation filter_radius :=
  (EventFilter.filter_radius City_objects GET get_tampa distance float).
Abbreviation filter_until_since :=
  (EventFilterRest.filter_until_since City_objects GET cleaned_when cleaned_since
     cleaned_until to_city_time replace_hms).
Abbreviation filter_map_radius := (EventFilterRest.filter_map_radius data distance float).
Abbreviation filter_ongoing := (EventFilterRest.filter_ongoing utc_now).
Abbreviation filter_upcoming := (EventFilterRest.filter_upcoming utc_now).


Lemma filter_when_shape (value : list string) :
  (exists q, forall qs, filter_when qs value = Ok (distinct (filter_q q qs)))
  \/ (forall qs, filter_when qs value = Ok qs)
  \/ (exists e, forall qs, filter_when qs value = Raise e).
Proof.
  unfold EventFilter.filter_when.
  destruct (City_objects_get City_objects
              (Some (get_default "city" "tampa-bay-florida-united-states" GET)))
    as [city|[]].
  - left.
    destruct (get_weekend city), (get_next_week city), (get_next_weekend city),
      (get_this_week city),
      (EventFilter.process_since_and_until cleaned_since cleaned_until
         to_city_time replace_hms city) as [since until].
    eexists. intros qs. reflexivity.
  - right. left. reflexivity.
  - right. right. eexists. reflexivity.
  - right. right. eexists. reflexivity.
  - right. right. eexists. reflexivity.
  - right. right. eexists. reflexivity.
Qed.

Lemma reference_point_shape :
  (forall qs, EventFilter.reference_point City_objects GET get_tampa distance float qs
              = Ok (Return qs))
  \/ (forall qs, EventFilter.reference_point City_objects GET get_tampa distance float qs
                 = Ok (Return []))
  \/ (exists s, forall qs,
         EventFilter.reference_point City_objects GET get_tampa distance float qs
         = Ok (Continue s))
  \/ (exists e, forall qs,
         EventFilter.reference_point City_objects GET get_tampa distance float qs
         = Raise e).
Proof.
  unfold EventFilter.reference_point.
  destruct (negb (truthy (get "city" GET)
                  || truthy (get "longitude" GET) && truthy (get "latitude" GET)));
    [left; reflexivity|].
  destruct (truthy (get "city" GET)
            || truthy (get "longitude" GET) && truthy (get "latitude" GET));
    [|right; right; right; eexists; reflexivity].
  destruct (City_objects_get City_objects (get "city" GET)) as [city|[]];
    try (right; right; right; eexists; reflexivity).
  - destruct (in_ (City.slug city) get_tampa);
      [destruct (first (EventFilter.cluster_siblings City_objects get_tampa city))|];
      right; right; left; eexists; reflexivity.
  - destruct (truthy (get "longitude" GET) && truthy (get "latitude" GET));
      [|right; left; reflexivity].
    destruct (get "longitude" GET) as [lon|], (get "latitude" GET) as [lat|];
      try (right; right; right; eexists; reflexivity).
    destruct (float lon) as [x0|], (float lat) as [y0|];
      try (right; right; right; eexists; reflexivity).
    right; right; left; eexists; reflexivity.
Qed.

Lemma filter_radius_shape (value : string) :
  (exists p, forall qs, filter_radius qs value = Ok (filter p qs))
  \/ (forall qs, filter_radius qs value = Ok qs)
  \/ (forall qs, filter_radius qs value = Ok [])
  \/ (exists e, forall qs, filter_radius qs value = Raise e).
Proof.
  unfold EventFilter.filter_radius.
  destruct reference_point_shape as [H|[H|[[[ref_point add_miles] H]|[e H]]]].
  - right. left. intros qs. now rewrite H.
  - right. right. left. intros qs. now rewrite H.
  - destruct (EventFilter.radius_distance value) as [metres|] eqn:E.
    + left. eexists. intros qs. rewrite H. cbn [bind]. reflexivity.
    + right. right. right. eexists. intros qs. rewrite H. cbn [bind]. reflexivity.
  - right. right. right. exists e. intros qs. now rewrite H.
Qed.

Lemma filter_until_since_shape :
  (exists p, forall qs, filter_until_since qs = Ok (filter p qs))
  \/ (forall qs, filter_until_since qs = Ok qs)
  \/ (exists e, forall qs, filter_until_since qs = Raise e).
Proof.
  unfold EventFilterRest.filter_until_since.
  destruct (exists_ cleaned_when); [right; left; reflexivity|].
  destruct (truthy (get "city" GET)); [|right; left; reflexivity].
  destruct (City_objects_get City_objects (get "city" GET)) as [city|[]];
    try (right; right; eexists; reflexivity); [|right; left; reflexivity].
  destruct (EventFilter.process_since_and_until cleaned_since cleaned_until
              to_city_time replace_hms city) as [[since|] [until|]];
    try (left; eexists; reflexivity).
  right. right. eexists. reflexivity.
Qed.


(** X3: the filters of different dimensions commute.  The price, price
    section, curation, ongoing and upcoming filters each keep the rows on
    which a predicate holds; such a filter can be applied before or after
    the when, radius and since/until filters, or another such filter, with
    the same result (the same rows in the same order, or the same
    exception). *)
Theorem row_filters_commute :
  (forall value, row_filter (fun qs => EventFilter.filter_price qs value))
  /\ (forall value, row_filter (fun qs => EventFilter.filter_price_sections qs value))
  /\ (forall name value,
         row_filter (fun qs => EventFilter.filter_has_location qs name value))
  /\ (forall value, row_filter (fun qs => filter_ongoing qs value))
  /\ (forall value, row_filter (fun qs => filter_upcoming qs value))
  /\ (forall F,
         row_filter F ->
         forall queryset,
           (forall value,
               filter_when (F queryset) value = map_result F (filter_when queryset value))
           /\ (forall value,
                  filter_radius (F queryset) value
                  = map_result F (filter_radius queryset value))
           /\ filter_until_since (F queryset) = map_result F (filter_until_since queryset)
           /\ (forall G, row_filter G -> F (G queryset) = G (F queryset))).
Proof.
  split; [exact row_filter_price|].
  split; [exact row_filter_price_sections|].
  split; [exact row_filter_has_location|].
  split.
  { intros value. unfold EventFilterRest.filter_ongoing.
    destruct (negb value); [eexists; intros qs; reflexivity|].
    exists (fun _ => true). intros qs. symmetry. apply forallb_filter_id.
    now apply forallb_forall. }
  split.
  { intros value. unfold EventFilterRest.filter_upcoming.
    destruct value; [eexists; intros qs; reflexivity|].
    exists (fun _ => true). intros qs. symmetry. apply forallb_filter_id.
    now apply forallb_forall. }
  intros F [p Hp] queryset. split; [|split; [|split]].
  - intros value.
    destruct (filter_when_shape value) as [[q H]|[H|[err H]]];
      rewrite !H; cbn [map_result]; try reflexivity.
    rewrite !Hp. unfold distinct, filter_q.
    now rewrite <- nodup_filter, filter_comm.
  - intros value.
    destruct (filter_radius_shape value) as [[q H]|[H|[H|[err H]]]];
      rewrite !H; cbn [map_result]; try reflexivity.
    + now rewrite !Hp, filter_comm.
    + now rewrite Hp.
  - destruct filter_until_since_shape as [[q H]|[H|[err H]]];
      rewrite !H; cbn [map_result]; try reflexivity.
    now rewrite !Hp, filter_comm.
  - intros G [q Hq]. now rewrite !Hp, !Hq, filter_comm.
Qed.

Abbreviation matches_range :=
  (matches_since_until cleaned_since cleaned_until to_city_time replace_hms).

(** X4: the since/until filter.  It leaves the queryset as it is when the
    request has [when] tokens (the range then belongs to [filter_when]),
    no city, or a city slug that names no city; otherwise it keeps exactly
    the events that start in the range [filter_when] would have used, and
    it raises when neither bound is set.  Called once for [since] and once
    for [until], it narrows only the first time. *)
Theorem filter_until_since_spec :
  forall queryset,
    (cleaned_when <> [] -> filter_until_since queryset = Ok queryset)
    /\ (truthy (get "city" GET) = false -> filter_until_since queryset = Ok queryset)
    /\ (forall slug,
           get "city" GET = Some slug ->
           (forall c, In c City_objects -> City.slug c <> slug) ->
           filter_until_since queryset = Ok queryset)
    /\ (forall slug city,
           cleaned_when = [] -> get "city" GET = Some slug -> slug <> "" ->
           City_objects_get City_objects (Some slug) = Ok city ->
           (cleaned_since = None -> cleaned_until = None ->
            filter_until_since queryset = Raise UnboundLocalError)
           /\ ((cleaned_since <> None \/ cleaned_until <> None) ->
               exists r,
                 filter_until_since queryset = Ok r
                 /\ forall e, In e r <-> In e queryset /\ matches_range city e = true))
    /\ (forall r, filter_until_since queryset = Ok r -> filter_until_since r = Ok r).
Proof.
  intros queryset. split; [|split; [|split; [|split]]].
  - intros Hw. unfold EventFilterRest.filter_until_since.
    destruct cleaned_when; [now elim Hw | reflexivity].
  - intros Hc. unfold EventFilterRest.filter_until_since. rewrite Hc.
    now destruct (exists_ cleaned_when).
  - intros slug Hc Hu. unfold EventFilterRest.filter_until_since.
    rewrite Hc, (City_objects_get_unknown City_objects Hu).
    now destruct (exists_ cleaned_when), (truthy (Some slug)).
  - intros slug city Hw Hc Hne Hget.
    unfold EventFilterRest.filter_until_since, matches_since_until.
    rewrite Hw, Hc, Hget. cbn [exists_].
    assert (Ht : truthy (Some slug) = true)
      by (destruct slug; [now elim Hne | reflexivity]).
    rewrite Ht. unfold EventFilter.process_since_and_until. split.
    + intros -> ->. reflexivity.
    + intros Hsome.
      destruct cleaned_since as [since|], cleaned_until as [until|];
        try (eexists; split; [reflexivity|]; intros e; rewrite filter_In;
             reflexivity).
      destruct Hsome as [H|H]; now elim H.
  - intros r Hr.
    destruct filter_until_since_shape as [[p H]|[H|[err H]]];
      rewrite H in *; [|congruence|discriminate].
    injection Hr as <-. f_equal. rewrite filter_filter_and.
    apply filter_ext. intros e. now destruct (p e).
Qed.

(** X5: a map-radius filter without a latitude or a longitude raises the
    required-field error that names exactly the missing parameters,
    latitude first; with both, it keeps exactly the events that have a
    point within [value] times 1609 metres of the given coordinates. *)
Theorem filter_map_radius_spec :
  forall queryset value,
    let missing :=
      (if truthy (get "latitude" data) then [] else ["latitude"])
      ++ (if truthy (get "longitude" data) then [] else ["longitude"]) in
    (missing <> [] ->
     filter_map_radius queryset value = inr (RequiredFieldValidation missing))
    /\ (forall latitude longitude lat lon,
           get "latitude" data = Some latitude -> latitude <> "" ->
           get "longitude" data = Some longitude -> longitude <> "" ->
           float latitude = Some lat -> float longitude = Some lon ->
           exists r,
             filter_map_radius queryset value = inl r
             /\ forall e,
                 In e r <->
                 In e queryset
                 /\ exists p, Event.point e = Some p
                              /\ (distance p {| x := lon; y := lat |}
                                  <= value * inject_Z 1609)%Q).
Proof.
  intros queryset value missing. subst missing. split.
  - unfold EventFilterRest.filter_map_radius.
    destruct (truthy (get "latitude" data)), (truthy (get "longitude" data));
      cbn [negb app exists_]; intros H; try reflexivity. now elim H.
  - intros latitude longitude lat lon Hlat Hnlat Hlon Hnlon Hflat Hflon.
    unfold EventFilterRest.filter_map_radius. rewrite Hlat, Hlon, Hflat, Hflon.
    destruct latitude; [now elim Hnlat|]. destruct longitude; [now elim Hnlon|].
    cbn [truthy negb exists_]. eexists. split; [reflexivity|].
    intros e. rewrite filter_In. unfold EventFilter.point__dwithin.
    apply and_iff_compat_l. destruct (Event.point e) as [p|].
    + rewrite Qle_bool_iff. split; [eauto|]. now intros (p' & [= <-] & H).
    + split; [discriminate|]. now intros (p' & [=] & _).
Qed.

(** X6: an ongoing event is one that the [now] token matches.  For a
    request whose city resolves and that carries no since/until range, the
    filter [ongoing=false] keeps exactly the events of the queryset that
    [when=now] rejects. *)
Theorem ongoing_false_complements_when_now :
  forall queryset city r,
    City_objects_get City_objects
      (Some (get_default "city" "tampa-bay-florida-united-states" GET)) = Ok city ->
    cleaned_since = None -> cleaned_until = None ->
    filter_when queryset [EventFilter.NOW] = Ok r ->
    forall e,
      In e queryset -> (In e (filter_ongoing queryset false) <-> ~ In e r).
Proof.
  intros queryset city r Hget Hs Hu Hr e Hin.
  destruct (@filter_when_union City_objects GET cleaned_since cleaned_until
              get_city_day_start to_city_time get_weekend get_next_week
              get_next_weekend get_this_week utc_now utc_now replace_hms
              queryset [EventFilter.NOW] city Hget)
    as (r' & Hr' & _ & Hiff & _ & _ & Hnow & _).
  - discriminate.
  - intros token [<-|[]]. cbv. tauto.
  - rewrite Hr' in Hr. injection Hr as <-.
    unfold EventFilterRest.filter_ongoing. cbn [negb].
    rewrite exclude_In, (Hiff Hs Hu e).
    unfold start_date__lte, end_date__gte.
    rewrite andb_false_iff, !Z.leb_gt. split.
    + intros [_ Hout] (_ & token & [<-|[]] & Hm). apply Hnow in Hm. lia.
    + intros Hnot. split; [assumption|].
      destruct (Z_le_gt_dec (Event.start_date e) utc_now) as [H1|H1]; [|left; lia].
      destruct (Z_le_gt_dec utc_now (Event.end_date e)) as [H2|H2]; [|right; lia].
      elim Hnot. split; [assumption|]. exists EventFilter.NOW.
      split; [now left|]. apply Hnow. lia.
Qed.

(** X7: the venue filter joins on the locations, so it answers an event
    once for every location it has at the venue: the event appears as many
    times as it has such locations, and not at all without one; an empty
    venue slug filters nothing. *)
Theorem filter_venue_repeats_per_location :
  forall queryset value,
    EventFilterRest.filter_venue queryset "" = queryset
    /\ (value <> "" ->
        forall e,
          count_occ Event_eq_dec (EventFilterRest.filter_venue queryset value) e
          = (count_occ Event_eq_dec queryset e
             * List.length (filter (fun l => String.eqb (Location.venue l) value)
                                   (Event.locations e)))%nat).
Proof.
  intros queryset value. split; [reflexivity|].
  intros Hne e. unfold EventFilterRest.filter_venue.
  destruct value; [now elim Hne|]. cbn [truthy].
  set (p := fun l : Location.t => String.eqb (Location.venue l) (String a value)).
  unfold join_locations.
  induction queryset as [|e' qs IH]; [reflexivity|].
  cbn [flat_map]. rewrite count_occ_app, IH. cbn [count_occ].
  assert (Hmap : forall (ls : list Location.t),
             count_occ Event_eq_dec (map (fun _ => e') ls) e
             = if Event_eq_dec e' e then List.length ls else 0%nat).
  { induction ls as [|l ls IHl]; cbn; [now destruct (Event_eq_dec e' e)|].
    rewrite IHl. now destruct (Event_eq_dec e' e). }
  rewrite Hmap. destruct (Event_eq_dec e' e) as [->|Hneq]; lia.
Qed.

End FilterFacts.

(** *** Instances of the filter properties *)


Lemma row_filters_commute_witness :
  EventFilter.filter_when Sample.cities request_tampa None None
    Sample.get_city_day_start Sample.to_city_time Sample.get_weekend
    Sample.get_next_week Sample.get_next_weekend Sample.get_this_week
    Sample.utc_now Sample.utc_now Sample.replace_hms
    (EventFilter.filter_price Sample.events EventFilter.FREE) [EventFilter.THIS_WEEK]
  = map_result (fun qs => EventFilter.filter_price qs EventFilter.FREE)
      (EventFilter.filter_when Sample.cities request_tampa None None
         Sample.get_city_day_start Sample.to_city_time Sample.get_weekend
         Sample.get_next_week Sample.get_next_weekend Sample.get_this_week
         Sample.utc_now Sample.utc_now Sample.replace_hms
         Sample.events [EventFilter.THIS_WEEK]).
Proof.
  destruct (@row_filters_commute Sample.cities request_tampa [] None None
              Sample.get_tampa Sample.get_city_day_start Sample.to_city_time
              Sample.get_weekend Sample.get_next_week Sample.get_next_weekend
              Sample.get_this_week Sample.utc_now Sample.replace_hms
              Sample.distance Sample.float)
    as (Hprice & _ & _ & _ & _ & Hcomm).
  exact (proj1 (Hcomm _ (Hprice EventFilter.FREE) Sample.events)
               [EventFilter.THIS_WEEK]).
Defined.

Lemma filter_until_since_spec_witness :
  exists r,
    EventFilterRest.filter_until_since Sample.cities request_tampa []
      (Some (Sample.midnight + timedelta 2 0 0 0)) None
      Sample.to_city_time Sample.replace_hms Sample.events = Ok r
    /\ In Sample.book_club r /\ ~ In Sample.jazz_night r.
Proof.
  destruct (proj1 (proj2 (proj2 (proj2
              (@filter_until_since_spec Sample.cities request_tampa []
                 (Some (Sample.midnight + timedelta 2 0 0 0)) None
                 Sample.to_city_time Sample.replace_hms Sample.events))))
              "tampa-florida-united-states" Sample.tampa)
    as (_ & Hrange); try reflexivity; try discriminate.
  destruct Hrange as (r & Hr & Hiff); [left; discriminate|].
  exists r. split; [exact Hr|]. split.
  - apply Hiff. split; [vm_compute; tauto | vm_compute; reflexivity].
  - intros Hin. apply Hiff in Hin. destruct Hin as [_ Hm].
    vm_compute in Hm. discriminate Hm.
Defined.

Lemma filter_map_radius_spec_witness :
  EventFilterRest.filter_map_radius [("latitude", "27.95")] Sample.distance
    Sample.float Sample.events 5
  = inr (RequiredFieldValidation ["longitude"])
  /\ exists r,
      EventFilterRest.filter_map_radius request_by_coordinates Sample.distance
        Sample.float Sample.events 5 = inl r
      /\ In Sample.jazz_night r.
Proof.
  split.
  - apply (proj1 (@filter_map_radius_spec [("latitude", "27.95")] Sample.distance
                    Sample.float Sample.events 5)).
    discriminate.
  - destruct (proj2 (@filter_map_radius_spec request_by_coordinates Sample.distance
                       Sample.float Sample.events 5)
                "27.95" "-82.46" (2795 # 100) (-8246 # 100))
      as (r & Hr & Hiff); try reflexivity; try discriminate.
    exists r. split; [exact Hr|]. apply Hiff. split; [vm_compute; tauto|].
    eexists. split; [reflexivity|]. vm_compute. discriminate.
Defined.

Lemma ongoing_false_complements_when_now_witness :
  In evening_show (EventFilterRest.filter_ongoing Sample.utc_now [evening_show] false)
  <-> ~ In evening_show [].
Proof.
  apply (@ongoing_false_complements_when_now Sample.cities request_tampa None None
           Sample.get_city_day_start Sample.to_city_time Sample.get_weekend
           Sample.get_next_week Sample.get_next_weekend Sample.get_this_week
           Sample.utc_now Sample.replace_hms [evening_show] Sample.tampa []).
  - reflexivity.
  - reflexivity.
  - reflexivity.
  - vm_compute. reflexivity.
  - now left.
Defined.

Lemma filter_venue_repeats_per_location_witness :
  count_occ Event_eq_dec (EventFilterRest.filter_venue Sample.events "hall")
            Sample.jazz_night
  = (count_occ Event_eq_dec Sample.events Sample.jazz_night
     * List.length (filter (fun l => String.eqb (Location.venue l) "hall")
                           (Event.locations Sample.jazz_night)))%nat.
Proof.
  apply (proj2 (filter_venue_repeats_per_location Sample.events "hall")).
  discriminate.
Defined.

(** ** [SectionFilter] and [StateSectionFilter] *)

Module SectionRow.
Record t : Set := {
  id : Z;
  slug : string;
  city : option Z;        (* foreign key: City.id *)
  is_curated : bool;
  platform : option string;
  section_class : string
}.
End SectionRow.

Module State.
Record t : Set := {
  state_code : string;
  name : string
}.
End State.

(** [field__iexact=value]; a [None] value compiles to [IS NULL], which no
    row of a non-null column satisfies. *)
Definition iexact (field : string) (value : option string) : bool :=
  match value with
  | Some v => String.eqb (upper field) (upper v)
  | None => false
  end.

Module SectionFilter.

Section Request.

Variable City_objects : list City.t.
Variable get_tampa : list string.

Definition filter_city (queryset : list SectionRow.t) (value : string)
  : result (list SectionRow.t) :=
  let lookup :=
    if in_ value get_tampa then
      let slug := "tampa-bay-florida-united-states" in
      City_objects_get City_objects (Some slug)
    else City_objects_get City_objects (Some value) in
  match lookup with
  | Raise DoesNotExist =>
      Ok (filter (fun s => Bool.eqb (SectionRow.is_curated s) false) queryset)
  | Raise e => Raise e
  | Ok city =>
      if negb (City.is_curated city) then
        Ok (filter (fun s => Bool.eqb (SectionRow.is_curated s) false) queryset)
      else
        Ok (filter (fun s => match SectionRow.city s with
                             | Some c => c =? City.id city
                             | None => false
                             end) queryset)
  end.

End Request.

End SectionFilter.

Module StateSectionFilter.

Section Request.

Variable State_objects : list State.t.
Variable query_params : QueryDict.

Definition filter_state (queryset : list SectionRow.t) (value : string)
  : list SectionRow.t :=
  let state_code := get "state" query_params in
  match filter (fun s => iexact (State.state_code s) state_code
                         || iexact (State.name s) state_code) State_objects with
  | [] => none queryset            (* State.DoesNotExist *)
  | [_] => queryset
  | _ :: _ :: _ => queryset        (* State.MultipleObjectsReturned *)
  end.

End Request.

End StateSectionFilter.


(** X9: the state filter is all or nothing: it returns the empty queryset
    when no state matches the [state] parameter by code or by name,
    case-insensitively, and the whole queryset when one or several match
    (an ambiguous parameter counts as a match). *)
Theorem filter_state_all_or_nothing :
  forall State_objects query_params queryset value,
    ((exists s, In s State_objects
                /\ (iexact (State.state_code s) (get "state" query_params) = true
                    \/ iexact (State.name s) (get "state" query_params) = true)) ->
     StateSectionFilter.filter_state State_objects query_params queryset value
     = queryset)
    /\ (~ (exists s, In s State_objects
                     /\ (iexact (State.state_code s) (get "state" query_params) = true
                         \/ iexact (State.name s) (get "state" query_params) = true)) ->
        StateSectionFilter.filter_state State_objects query_params queryset value = []).
Proof.
  intros State_objects query_params queryset value.
  unfold StateSectionFilter.filter_state.
  set (p := fun s => iexact (State.state_code s) (get "state" query_params)
                     || iexact (State.name s) (get "state" query_params)).
  assert (Hp : forall s, p s = true <->
                         iexact (State.state_code s) (get "state" query_params) = true
                         \/ iexact (State.name s) (get "state" query_params) = true)
    by (intros s; unfold p; apply orb_true_iff).
  split.
  - intros (s & Hin & Hm).
    assert (Hf : In s (filter p State_objects))
      by (apply filter_In; split; [|apply Hp]; assumption).
    destruct (filter p State_objects) as [|a [|b l]]; [destruct Hf| |]; reflexivity.
  - intros Hno.
    destruct (filter p State_objects) as [|a l] eqn:Hf; [reflexivity|].
    elim Hno. exists a.
    assert (Ha : In a (filter p State_objects)) by (rewrite Hf; now left).
    apply filter_In in Ha as [Ha Hpa]. split; [assumption | now apply Hp].
Qed.

(** *** Instances of the section filters *)



Definition mk_section (id : Z) (slug : string) (city : option Z) (is_curated : bool)
  : SectionRow.t :=
  {| SectionRow.id := id; SectionRow.slug := slug; SectionRow.city := city;
     SectionRow.is_curated := is_curated; SectionRow.platform := None;
     SectionRow.section_class := "top-events" |}.

Definition sample_sections : list SectionRow.t :=
  [mk_section 1 "top-events-tampa-bay-florida-united-states" (Some 7) true;
   mk_section 2 "upcoming-events" None false;
   mk_section 3 "top-events-tampa-florida-united-states" (Some 2) true].


Lemma filter_state_all_or_nothing_witness :
  StateSectionFilter.filter_state
    [{| State.state_code := "FL"; State.name := "Florida" |}]
    [("state", "florida")] sample_sections "florida"
  = sample_sections.
Proof.
  apply (proj1 (filter_state_all_or_nothing
                  [{| State.state_code := "FL"; State.name := "Florida" |}]
                  [("state", "florida")] sample_sections "florida")).
  eexists. split; [now left|]. right. reflexivity.
Defined.

(** * More of [views.py] *)

(** ** The other search views *)

Module EventSearchViewSet.

Section Request.

Variable Event_objects : list Event.t.
Variable viewable : bool -> Event.t -> bool.
Variable search_matches : string -> Event.t -> bool.
Variable query_params : QueryDict.

Definition filter_search (queryset : list Event.t) : list Event.t :=
  let value := get_default "search" "" query_params in
  if (String.length value <? 3)%nat then none queryset
  else
    let ft_search :=
      filter_q (q_or (Qleaf (search_matches value))
                     (Qleaf (fun e => istartswith (Event.name e) value))) queryset in
    if exists_ ft_search then ft_search
    else
      let name_search := filter (fun e => istartswith (Event.name e) value) queryset in
      if exists_ name_search then name_search
      else
        filter_q (q_or (Qleaf (fun e => icontains (Event.name e) value))
                       (Qleaf (fun e => icontains (Event.description e) value)))
                 queryset.

Definition search_events : list Event.t :=
  let is_past_events := get "when" query_params in
  let events := filter (viewable false) Event_objects in
  let events :=
    if truthy is_past_events && eqb_opt is_past_events (Some EventFilter.PAST_EVENTS)
    then filter (viewable true) Event_objects
    else events in
  distinct (filter_search events).

Definition get_queryset : list Event.t := search_events.

End Request.

End EventSearchViewSet.

Module MobileEventViewSet.

Section Request.

Variable Event_objects : list Event.t.
Variable viewable : bool -> Event.t -> bool.
Variable search_matches : string -> Event.t -> bool.
Variable query_params : QueryDict.

Definition filter_search (queryset : list Event.t) : list Event.t :=
  let value := get_default "search" "" query_params in
  if (String.length value <? 3)%nat then none queryset
  else
    let ft_search :=
      filter_q (q_or (Qleaf (search_matches value))
                     (Qleaf (fun e => istartswith (Event.name e) value))) queryset in
    if exists_ ft_search then ft_search
    else
      filter_q (q_or (Qleaf (fun e => icontains (Event.name e) value))
                     (Qleaf (fun e => icontains (Event.description e) value)))
               queryset.

(** [exclude(locations=None)]: the events that have a location. *)
Definition search_events : list Event.t :=
  let events :=
    exclude (fun e => negb (exists_ (Event.locations e)))
            (filter (viewable false) Event_objects) in
  filter_search events.

Definition get_queryset : list Event.t := search_events.

End Request.

End MobileEventViewSet.

Section SearchViewsFacts.

Variable Event_objects : list Event.t.
Variable viewable : bool -> Event.t -> bool.
Variable search_matches : string -> Event.t -> bool.
Variable TrigramSimilarity : string -> string -> Q.
Variable query_params : QueryDict.

Abbreviation value := (get_default "search" "" query_params).

(** X10: the prefix-only stage of the search chain can never win: a
    queryset with a row whose name starts with the query has a row in the
    first stage already.  Hence the three-stage searches of the map view
    and of the search view always answer what the two-stage search of the
    mobile view answers, and the event view answers the same whenever no
    row has a trigram similarity above 0.03. *)
Theorem prefix_stage_never_wins :
  forall queryset,
    (exists_ (filter (fun e => istartswith (Event.name e) value) queryset) = true ->
     exists_ (filter (fun e => search_matches value e
                               || istartswith (Event.name e) value) queryset) = true)
    /\ MapViewSet.filter_search search_matches query_params queryset
       = MobileEventViewSet.filter_search search_matches query_params queryset
    /\ EventSearchViewSet.filter_search search_matches query_params queryset
       = MobileEventViewSet.filter_search search_matches query_params queryset
    /\ ((forall e, In e queryset ->
                   (EventViewSet.similarity TrigramSimilarity value e <= 3 # 100)%Q) ->
        EventViewSet.filter_search search_matches TrigramSimilarity query_params queryset
        = MobileEventViewSet.filter_search search_matches query_params queryset).
Proof.
  intros queryset.
  set (a := filter (fun e => search_matches value e
                             || istartswith (Event.name e) value) queryset).
  set (b := filter (fun e => istartswith (Event.name e) value) queryset).
  assert (Hdead : exists_ b = true -> exists_ a = true).
  { unfold a, b. intros Hb.
    destruct (filter (fun e => istartswith (Event.name e) value) queryset)
      as [|e l] eqn:E; [discriminate|].
    assert (He : In e (filter (fun e => istartswith (Event.name e) value) queryset))
      by (rewrite E; now left).
    apply filter_In in He as [Hin Hp].
    assert (Ha : In e (filter (fun e => search_matches value e
                                        || istartswith (Event.name e) value) queryset))
      by (apply filter_In; split; [assumption | rewrite Hp; apply orb_true_r]).
    now destruct (filter _ queryset). }
  split; [exact Hdead|].
  assert (Hb : exists_ a = false -> exists_ b = false).
  { intros Ha. destruct (exists_ b) eqn:E; [|reflexivity].
    rewrite (Hdead eq_refl) in Ha. discriminate. }
  split; [|split].
  - unfold MapViewSet.filter_search, MobileEventViewSet.filter_search.
    destruct (String.length value <? 3)%nat; [reflexivity|].
    rewrite !filter_or. fold a b.
    destruct (exists_ a) eqn:Ha; [reflexivity|]. now rewrite (Hb eq_refl).
  - unfold EventSearchViewSet.filter_search, MobileEventViewSet.filter_search.
    destruct (String.length value <? 3)%nat; [reflexivity|].
    rewrite !filter_or. fold a b.
    destruct (exists_ a) eqn:Ha; [reflexivity|]. now rewrite (Hb eq_refl).
  - intros Hlow.
    unfold EventViewSet.filter_search, MobileEventViewSet.filter_search.
    destruct (String.length value <? 3)%nat; [reflexivity|].
    rewrite !filter_or. fold a b.
    destruct (exists_ a) eqn:Ha; [reflexivity|]. rewrite (Hb eq_refl).
    replace (filter (fun e => negb (Qle_bool (EventViewSet.similarity
                                                TrigramSimilarity value e) (3 # 100)))
                    queryset) with (@nil Event.t); [reflexivity|].
    symmetry. clear -Hlow. induction queryset as [|e l IH]; [reflexivity|].
    cbn [filter].
    assert (He : Qle_bool (EventViewSet.similarity TrigramSimilarity value e)
                          (3 # 100) = true)
      by (apply Qle_bool_iff, Hlow; now left).
    rewrite He. cbn [negb]. apply IH. intros e' He'. apply Hlow. now right.
Qed.

(** X11: a search never answers a row outside the queryset it searches,
    whatever the stage that wins; the rows [search_events] answers are
    viewable events, each answered once; and a query of fewer than three
    characters answers nothing. *)
Theorem search_events_are_viewable :
  (forall queryset e,
      In e (EventViewSet.filter_search search_matches TrigramSimilarity query_params
              queryset) ->
      In e queryset)
  /\ (forall queryset e,
         In e (MobileEventViewSet.filter_search search_matches query_params queryset) ->
         In e queryset)
  /\ (forall e,
         In e (EventViewSet.search_events Event_objects viewable search_matches
                 TrigramSimilarity query_params) ->
         In e Event_objects
         /\ viewable (truthy (get "when" query_params)
                      && eqb_opt (get "when" query_params)
                                 (Some EventFilter.PAST_EVENTS)) e = true)
  /\ NoDup (EventViewSet.search_events Event_objects viewable search_matches
              TrigramSimilarity query_params)
  /\ (forall e,
         In e (MobileEventViewSet.search_events Event_objects viewable search_matches
                 query_params) ->
         In e Event_objects /\ viewable false e = true /\ Event.locations e <> [])
  /\ ((String.length value < 3)%nat ->
      EventViewSet.search_events Event_objects viewable search_matches
        TrigramSimilarity query_params = []
      /\ MobileEventViewSet.search_events Event_objects viewable search_matches
           query_params = []).
Proof.
  assert (Hev : forall queryset e,
             In e (EventViewSet.filter_search search_matches TrigramSimilarity
                     query_params queryset) -> In e queryset).
  { intros queryset e. unfold EventViewSet.filter_search.
    destruct (String.length value <? 3)%nat; [intros []|].
    rewrite !filter_or.
    destruct (exists_ (filter _ queryset)); [rewrite filter_In; tauto|].
    destruct (exists_ (filter _ queryset)); [rewrite filter_In; tauto|].
    destruct (exists_ (order_by _ _ _));
      [rewrite order_by_In, filter_In; tauto | rewrite filter_In; tauto]. }
  assert (Hmob : forall queryset e,
             In e (MobileEventViewSet.filter_search search_matches query_params
                     queryset) -> In e queryset).
  { intros queryset e. unfold MobileEventViewSet.filter_search.
    destruct (String.length value <? 3)%nat; [intros []|].
    rewrite !filter_or.
    destruct (exists_ (filter _ queryset)); rewrite filter_In; tauto. }
  split; [exact Hev|]. split; [exact Hmob|]. split; [|split; [|split]].
  - intros e. unfold EventViewSet.search_events. rewrite distinct_In.
    intros He. apply Hev in He.
    destruct (truthy (get "when" query_params)
              && eqb_opt (get "when" query_params) (Some EventFilter.PAST_EVENTS));
      now apply filter_In in He.
  - unfold EventViewSet.search_events, distinct. apply NoDup_nodup.
  - intros e. unfold MobileEventViewSet.search_events. intros He. apply Hmob in He.
    apply exclude_In in He as [He Hloc]. apply filter_In in He as [He Hv].
    repeat split; try assumption. intros Hnil. rewrite Hnil in Hloc. discriminate.
  - intros Hlen. apply Nat.ltb_lt in Hlen.
    unfold EventViewSet.search_events, MobileEventViewSet.search_events,
      EventViewSet.filter_search, MobileEventViewSet.filter_search.
    rewrite Hlen. split; reflexivity.
Qed.

End SearchViewsFacts.

Lemma prefix_stage_never_wins_witness :
  EventViewSet.filter_search Sample.search_matches Sample.TrigramSimilarity
    [("search", "book")] Sample.events
  = MobileEventViewSet.filter_search Sample.search_matches [("search", "book")]
      Sample.events.
Proof.
  apply (proj2 (proj2 (proj2
           (prefix_stage_never_wins Sample.search_matches Sample.TrigramSimilarity
              [("search", "book")] Sample.events)))).
  intros e He. vm_compute in He.
  repeat (destruct He as [<-|He]; [vm_compute; discriminate|]). destruct He.
Defined.

Lemma search_events_are_viewable_witness :
  In Sample.jazz_night Sample.events
  /\ EventViewSet.search_events Sample.events Sample.viewable Sample.search_matches
       Sample.TrigramSimilarity [("search", "ja")] = [].
Proof.
  destruct (search_events_are_viewable Sample.events Sample.viewable
              Sample.search_matches Sample.TrigramSimilarity [("search", "jazz")])
    as (_ & _ & Hview & _).
  split.
  - apply Hview. vm_compute. tauto.
  - apply (proj2 (proj2 (proj2 (proj2 (proj2
             (search_events_are_viewable Sample.events Sample.viewable
                Sample.search_matches Sample.TrigramSimilarity
                [("search", "ja")])))))).
    vm_compute. lia.
Defined.

(** ** The two [get_queryset] methods *)

Lemma get_update (qd : QueryDict) (key k v : string) :
  get key (update qd k v) = if String.eqb k key then Some v else get key qd.
Proof.
  unfold update. induction qd as [|[k0 v0] qd IH]; cbn [app get].
  - reflexivity.
  - rewrite IH. destruct (String.eqb k key); [reflexivity|].
    destruct (get key qd); reflexivity.
Qed.

Section GetQuerysetFacts.

Variable Event_objects : list Event.t.
Variable City_objects : list City.t.
Variable viewable : bool -> Event.t -> bool.
Variable get_tampa : list string.
Variable distance : Point -> Point -> Q.
Variable search_matches : string -> Event.t -> bool.
Variable TrigramSimilarity : string -> string -> Q.
Variable timezone_now : Time.
Variable query_params : QueryDict.

Abbreviation event_get_queryset :=
  (EventViewSet.get_queryset Event_objects City_objects viewable get_tampa distance
     search_matches TrigramSimilarity timezone_now).
Abbreviation map_get_queryset :=
  (MapViewSet.get_queryset Event_objects City_objects viewable get_tampa distance
     search_matches).
Abbreviation is_listed := (listed Event_objects viewable query_params).

(** The request with its radius defaulted, as [EventViewSet.get_queryset]
    rewrites it. *)
Definition with_default_radius : QueryDict :=
  update query_params "radius"
         (get_default "radius" EventFilter.HUNDRED_PLUS_MILE query_params).

(** X12: the event view is the map view on the request with the radius
    defaulted to mile-100-plus, ordered by start date, for every request
    that is neither a search nor carries a [what] parameter: the two
    copies of the curated-city code agree, exceptions included. *)
Theorem event_view_is_map_view_with_default_radius :
  EventViewSet.is_search query_params = false ->
  truthy (get "what" query_params) = false ->
  event_get_queryset query_params
  = map_result (order_by Event.start_date Z.leb)
               (map_get_queryset with_default_radius).
Proof.
  intros Hs Hw.
  assert (Hs' : MapViewSet.is_search with_default_radius = false).
  { unfold MapViewSet.is_search, with_default_radius, get_default.
    rewrite get_update. cbn [String.eqb Ascii.eqb Bool.eqb]. exact Hs. }
  unfold EventViewSet.get_queryset, MapViewSet.get_queryset.
  rewrite Hs, Hs', Hw. unfold with_default_radius. rewrite !get_update.
  cbn [String.eqb Ascii.eqb Bool.eqb].
  destruct (truthy (get "city" query_params)); [|reflexivity].
  destruct (City_objects_get City_objects (get "city" query_params)) as [city|[]];
    reflexivity.
Qed.

(** X13: the curated-city policy applies to known, uncurated cities only.
    For a request that is neither a search nor carries [what], and that
    has no city, a city slug naming no city, or a curated city, both views
    answer every listed event, promoted ones included. *)
Theorem no_policy_without_a_known_uncurated_city :
  EventViewSet.is_search query_params = false ->
  truthy (get "what" query_params) = false ->
  (truthy (get "city" query_params) = false
   \/ (exists slug, get "city" query_params = Some slug
                    /\ forall c, In c City_objects -> City.slug c <> slug)
   \/ (exists city, City_objects_get City_objects (get "city" query_params) = Ok city
                    /\ City.is_curated city = true)) ->
  exists r_event r_map,
    event_get_queryset query_params = Ok r_event
    /\ map_get_queryset query_params = Ok r_map
    /\ forall e, (In e r_event <-> is_listed e) /\ (In e r_map <-> is_listed e).
Proof.
  intros Hs Hw Hcity.
  assert (Hs' : MapViewSet.is_search query_params = false) by exact Hs.
  unfold EventViewSet.get_queryset, MapViewSet.get_queryset.
  rewrite Hs, Hs', Hw.
  assert (Hbase : forall e,
             In e (if truthy (get "when" query_params)
                      && eqb_opt (get "when" query_params)
                                 (Some EventFilter.PAST_EVENTS)
                   then order_by Event.end_date (fun a b => b <=? a)
                                 (filter (viewable true) Event_objects)
                   else filter (viewable false) Event_objects) <-> is_listed e).
  { intros e. unfold listed, past_requested.
    destruct (truthy (get "when" query_params)
              && eqb_opt (get "when" query_params) (Some EventFilter.PAST_EVENTS));
      rewrite ?order_by_In, filter_In; reflexivity. }
  destruct Hcity as [Hc|[(slug & Hc & Hu)|(city & Hget & Hcur)]].
  - rewrite Hc. cbn [bind]. eexists. eexists. split; [reflexivity|].
    split; [reflexivity|]. intros e. rewrite order_by_In. split; apply Hbase.
  - rewrite Hc, (City_objects_get_unknown City_objects Hu).
    destruct (truthy (Some slug)); cbn [bind EventViewSet.curated_city_block negb];
      eexists; eexists; (split; [reflexivity|]); (split; [reflexivity|]);
      intros e; rewrite order_by_In; split; apply Hbase.
  - rewrite Hget, Hcur.
    destruct (truthy (get "city" query_params));
      cbn [bind EventViewSet.curated_city_block negb];
      eexists; eexists; (split; [reflexivity|]); (split; [reflexivity|]);
      intros e; rewrite order_by_In; split; apply Hbase.
Qed.

(** X14: without a [radius] parameter the map view passes no radius to
    the resolver, which then answers no candidate list: for a known,
    uncurated city the map view lists no featured and no staff-picked
    event at all, where the event view searches within its default. *)
Theorem map_view_without_radius_drops_promoted :
  forall slug city,
    MapViewSet.is_search query_params = false ->
    get "radius" query_params = None ->
    get "city" query_params = Some slug -> slug <> "" ->
    City_objects_get City_objects (Some slug) = Ok city ->
    City.is_curated city = false ->
    exists r,
      map_get_queryset query_params = Ok r
      /\ forall e,
          In e r <->
          is_listed e /\ Event.is_featured e = false /\ Event.is_staff_picked e = false.
Proof.
  intros slug city Hs Hr Hc Hne Hget Hcur.
  unfold MapViewSet.get_queryset. rewrite Hs, Hc, Hget, Hr, Hcur.
  assert (Ht : truthy (Some slug) = true)
    by (destruct slug; [now elim Hne | reflexivity]).
  rewrite Ht. eexists. split; [reflexivity|]. intros e.
  rewrite (@block_no_candidate City_objects get_tampa distance city None _ e eq_refl).
  unfold listed, past_requested.
  destruct (truthy (get "when" query_params)
            && eqb_opt (get "when" query_params) (Some EventFilter.PAST_EVENTS));
    rewrite ?order_by_In, filter_In; reflexivity.
Qed.

End GetQuerysetFacts.

Lemma event_view_is_map_view_with_default_radius_witness :
  EventViewSet.get_queryset Sample.events Sample.cities Sample.viewable
    Sample.get_tampa Sample.distance Sample.search_matches Sample.TrigramSimilarity
    Sample.utc_now [("city", "clearwater-florida-united-states")]
  = map_result (order_by Event.start_date Z.leb)
      (MapViewSet.get_queryset Sample.events Sample.cities Sample.viewable
         Sample.get_tampa Sample.distance Sample.search_matches
         (with_default_radius [("city", "clearwater-florida-united-states")])).
Proof.
  apply (event_view_is_map_view_with_default_radius Sample.events Sample.cities
           Sample.viewable Sample.get_tampa Sample.distance Sample.search_matches
           Sample.TrigramSimilarity Sample.utc_now
           [("city", "clearwater-florida-united-states")]);
    reflexivity.
Defined.

Lemma no_policy_without_a_known_uncurated_city_witness :
  exists r,
    EventViewSet.get_queryset Sample.events Sample.cities Sample.viewable
      Sample.get_tampa Sample.distance Sample.search_matches Sample.TrigramSimilarity
      Sample.utc_now request_unknown_city = Ok r
    /\ In Sample.jazz_night r.
Proof.
  destruct (no_policy_without_a_known_uncurated_city Sample.events Sample.cities
              Sample.viewable Sample.get_tampa Sample.distance Sample.search_matches
              Sample.TrigramSimilarity Sample.utc_now request_unknown_city)
    as (r_event & r_map & Hev & _ & Hiff).
  - reflexivity.
  - reflexivity.
  - right. left. exists "atlantis". split; [reflexivity|].
    intros c Hc. cbv in Hc.
    repeat (destruct Hc as [<-|Hc]; [discriminate|]). destruct Hc.
  - exists r_event. split; [exact Hev|]. apply (proj1 (Hiff Sample.jazz_night)).
    split; [vm_compute; tauto | vm_compute; reflexivity].
Defined.

Lemma map_view_without_radius_drops_promoted_witness :
  exists r,
    MapViewSet.get_queryset Sample.events Sample.cities Sample.viewable
      Sample.get_tampa Sample.distance Sample.search_matches
      [("city", "clearwater-florida-united-states")] = Ok r
    /\ In Sample.book_club r /\ ~ In Sample.jazz_night r.
Proof.
  destruct (map_view_without_radius_drops_promoted Sample.events Sample.cities
              Sample.viewable Sample.get_tampa Sample.distance Sample.search_matches
              [("city", "clearwater-florida-united-states")]
              (slug := "clearwater-florida-united-states")
              (city := Sample.clearwater))
    as (r & Hr & Hiff); try reflexivity; try discriminate.
  exists r. split; [exact Hr|]. split.
  - apply Hiff. repeat split; vm_compute; tauto.
  - intros Hin. apply Hiff in Hin. destruct Hin as (_ & Hf & _). discriminate Hf.
Defined.

(** ** The price buckets of [EventViewSet.prices] *)

Module EventViewSetRest.

Section Request.

(** [timezone.now()] as read by [exclude_ongoing_events]. *)
Variable utc_now : Time.

(** The local [get_events] of [prices] (and of [when]): the ten latest
    events that have a location. *)
Definition get_events (qs : list Event.t) : list Event.t :=
  firstn 10
    (order_by Event.start_date (fun a b => b <=? a)
       (exclude (fun e => negb (exists_ (Event.locations e))) qs)).

Definition exclude_ongoing_events (qs : list Event.t) : list Event.t :=
  exclude (fun e => start_date__lte utc_now e && end_date__gte utc_now e) qs.

(** [prices], from the queryset [filter_queryset] has answered to the
    buckets it hands to the serializer. *)
Definition prices (queryset : list Event.t) : list (string * list Event.t) :=
  let free := filter (prices_available__contains [EventFilter.FREE]) queryset in
  let price_10 := filter (prices_available__contains [EventFilter.PRICE_10]) queryset in
  let price_25 := filter (prices_available__contains [EventFilter.PRICE_25]) queryset in
  let price_50 := filter (prices_available__contains [EventFilter.PRICE_50]) queryset in
  let price_100 := filter (prices_available__contains [EventFilter.PRICE_100]) queryset in
  let price_100_plus :=
    filter (prices_available__contains [EventFilter.PRICE_100_plus]) queryset in
  [(EventFilter.FREE, get_events (exclude_ongoing_events free));
   (EventFilter.PRICE_10, get_events price_10);
   (EventFilter.PRICE_25, get_events price_25);
   (EventFilter.PRICE_50, get_events price_50);
   (EventFilter.PRICE_100, get_events price_100);
   (EventFilter.PRICE_100_plus, get_events price_100_plus)].

End Request.

End EventViewSetRest.

Lemma sorted_firstn_skipn {A : Type} (R : A -> A -> Prop) (n : nat) (l : list A) :
  StronglySorted R l ->
  forall a b, In a (firstn n l) -> In b (skipn n l) -> R a b.
Proof.
  intros Hs. revert n. induction Hs as [|c l Hl IH Hc]; intros n a b Ha Hb.
  - destruct n; destruct Ha.
  - destruct n as [|n]; [destruct Ha|]. cbn in Ha, Hb. destruct Ha as [<-|Ha].
    + rewrite Forall_forall in Hc. apply Hc.
      rewrite <- (firstn_skipn n l). apply in_or_app. now right.
    + eapply IH; eassumption.
Qed.

Lemma sorted_firstn {A : Type} (R : A -> A -> Prop) (n : nat) (l : list A) :
  StronglySorted R l -> StronglySorted R (firstn n l).
Proof.
  intros Hs. revert n. induction Hs as [|c l Hl IH Hc]; intros [|n]; cbn;
    try constructor; [apply IH|].
  rewrite Forall_forall in *. intros a Ha. apply Hc.
  rewrite <- (firstn_skipn n l). apply in_or_app. now left.
Qed.

(** An event has a location. *)
Definition located (e : Event.t) : Prop := Event.locations e <> [].

Lemma located_exists_ (e : Event.t) :
  negb (exists_ (Event.locations e)) = false <-> located e.
Proof.
  unfold located. destruct (Event.locations e); cbn; split; congruence.
Qed.

(** X15: the bucket listing [get_events] answers at most ten events of the
    queryset, each with a location, latest start first; they are the
    latest ones (no located event it leaves out starts after one it
    answers), and all the located events when there are at most ten. *)
Theorem get_events_top_ten :
  forall qs,
    let r := EventViewSetRest.get_events qs in
    (List.length r <= 10)%nat
    /\ (forall e, In e r -> In e qs /\ located e)
    /\ StronglySorted (fun e1 e2 => Event.start_date e2 <= Event.start_date e1) r
    /\ (forall e e',
           In e r -> In e' qs -> located e' -> ~ In e' r ->
           Event.start_date e' <= Event.start_date e)
    /\ ((List.length (filter (fun e => exists_ (Event.locations e)) qs) <= 10)%nat ->
        forall e, In e qs -> located e -> In e r).
Proof.
  intros qs r. unfold r, EventViewSetRest.get_events.
  set (with_location := exclude (fun e => negb (exists_ (Event.locations e))) qs).
  set (sorted := order_by Event.start_date (fun a b => b <=? a) with_location).
  assert (Hin : forall e, In e sorted <-> In e qs /\ located e).
  { intros e. unfold sorted, with_location.
    now rewrite order_by_In, exclude_In, located_exists_. }
  assert (Hsorted : StronglySorted
                      (fun e1 e2 => Event.start_date e2 <= Event.start_date e1) sorted).
  { eapply StronglySorted_weaken;
      [|apply (order_by_sorted Event.start_date (fun a b => b <=? a))].
    - intros e1 e2 H. unfold key_le in H. now apply Z.leb_le.
    - intros k1 k2. rewrite !Z.leb_le. lia.
    - intros k1 k2 k3. rewrite !Z.leb_le. lia. }
  split; [apply firstn_le_length|]. split; [|split; [|split]].
  - intros e He. apply Hin. rewrite <- (firstn_skipn 10 sorted).
    apply in_or_app. now left.
  - now apply sorted_firstn.
  - intros e e' He Hqs Hloc Hnot.
    assert (He' : In e' sorted) by (apply Hin; now split).
    rewrite <- (firstn_skipn 10 sorted) in He'. apply in_app_or in He'.
    destruct He' as [He'|He']; [contradiction|].
    exact (sorted_firstn_skipn 10 Hsorted e e' He He').
  - intros Hlen e Hqs Hloc.
    assert (Hl : (List.length sorted <= 10)%nat).
    { unfold sorted.
      rewrite <- (Permutation_length (order_by_perm Event.start_date
                                        (fun a b => b <=? a) with_location)).
      unfold with_location, exclude.
      erewrite filter_ext; [exact Hlen|]. intros a. apply negb_involutive. }
    rewrite firstn_all2 by exact Hl. apply Hin. now split.
Qed.

(** X16: [prices] answers one bucket for each of the six tiers, in the
    order of [PRICE_CHOICES]; a bucket holds only events of the queryset
    tagged with its tier (an event tagged with several tiers may be in
    several buckets), and the free bucket holds no event that is going on
    at the time of the request. *)
Theorem prices_buckets :
  forall utc_now queryset,
    map fst (EventViewSetRest.prices utc_now queryset) = EventFilter.PRICE_CHOICES
    /\ (forall tier events e,
           In (tier, events) (EventViewSetRest.prices utc_now queryset) ->
           In e events ->
           In e queryset /\ In tier (Event.prices_available e) /\ located e)
    /\ (forall events e,
           In (EventFilter.FREE, events) (EventViewSetRest.prices utc_now queryset) ->
           In e events ->
           ~ (Event.start_date e <= utc_now <= Event.end_date e)).
Proof.
  intros utc_now queryset. split; [reflexivity|].
  assert (Hget : forall qs e,
             In e (EventViewSetRest.get_events qs) -> In e qs /\ located e)
    by (intros qs; exact (proj1 (proj2 (get_events_top_ten qs)))).
  assert (Htier : forall tier qs e,
             In e (EventViewSetRest.get_events
                     (filter (prices_available__contains [tier]) qs)) ->
             In e qs /\ In tier (Event.prices_available e) /\ located e).
  { intros tier qs e He. apply Hget in He.
    destruct He as [He Hloc]. apply filter_In in He as [He Ht].
    rewrite contains_single, in__true in Ht. tauto. }
  split.
  - intros tier events e Hb He. unfold EventViewSetRest.prices in Hb. cbn [In] in Hb.
    destruct Hb as [Hb|[Hb|[Hb|[Hb|[Hb|[Hb|[]]]]]]]; injection Hb as <- <-;
      try (now apply Htier).
    apply Hget in He. destruct He as [He Hloc].
    apply exclude_In in He as [He _]. apply filter_In in He as [He Ht].
    rewrite contains_single, in__true in Ht. tauto.
  - intros events e Hb He. unfold EventViewSetRest.prices in Hb. cbn [In] in Hb.
    destruct Hb as [Hb|[Hb|[Hb|[Hb|[Hb|[Hb|[]]]]]]]; try discriminate Hb.
    injection Hb as <-.
    apply Hget in He. destruct He as [He _].
    apply exclude_In in He as [_ Hon].
    unfold start_date__lte, end_date__gte in Hon.
    rewrite andb_false_iff, !Z.leb_gt in Hon. lia.
Qed.

Lemma get_events_top_ten_witness :
  In Sample.book_club (EventViewSetRest.get_events Sample.events).
Proof.
  apply (proj2 (proj2 (proj2 (proj2 (get_events_top_ten Sample.events))))).
  - vm_compute. lia.
  - vm_compute. tauto.
  - discriminate.
Defined.

Lemma prices_buckets_witness :
  In Sample.jazz_night Sample.events
  /\ In EventFilter.FREE (Event.prices_available Sample.jazz_night)
  /\ located Sample.jazz_night.
Proof.
  apply (proj1 (proj2 (prices_buckets Sample.utc_now Sample.events))
           EventFilter.FREE
           (EventViewSetRest.get_events
              (EventViewSetRest.exclude_ongoing_events Sample.utc_now
                 (filter (prices_available__contains [EventFilter.FREE])
                         Sample.events)))).
  - now left.
  - vm_compute. tauto.
Defined.

(** ** The other cached views *)

(** A row of [NativeCache] together with its [state] column, which the
    state page filters on. *)
Record StateCache : Set := {
  cache_row : NativeCache.t;
  cache_state : option string
}.

(** The tasks of [core.tasks] that [mobile] and the state page dispatch. *)
Variant SectionTask : Set :=
| cache_mobile_discover (sections : list Z) (city radius : option string)
| cache_state_page (url : string) (platform page_type state : option string).

Module SectionViewSetRest.

Section Cache.

Variable NativeCache_objects : list NativeCache.t.
Variable is_refresh_cache : NativeCache.t -> bool.
Variable Section_MOBILE : string.

(** [self.filter_queryset(self.get_queryset())] and [self.get_response]. *)
Variable filtered_sections : QueryDict -> list SectionRow.t.
Variable get_response : QueryDict -> list SectionRow.t -> string.

Definition mobile_response (query_params : QueryDict) : list NativeCache.t :=
  let city := get "city" query_params in
  let radius := get "radius" query_params in
  filter (fun c =>
            eqb_opt (NativeCache.url c) (Some "/v2/sections/mobile/")
            && eqb_opt (NativeCache.platform c) (Some Section_MOBILE)
            && eqb_opt (NativeCache.city c) city
            && eqb_opt (NativeCache.radius c) radius)
         NativeCache_objects.

Definition mobile (query_params : QueryDict) (queue : list SectionTask)
  : string * list SectionTask :=
  let queryset := filtered_sections query_params in
  let city := get "city" query_params in
  let radius := get "radius" query_params in
  let response := mobile_response query_params in
  match first response with
  | Some cache =>
      let queue :=
        if is_refresh_cache cache then
          let sections := map SectionRow.id queryset in
          queue ++ [cache_mobile_discover sections city radius]
        else queue in
      (NativeCache.response cache, queue)
  | None =>
      let sections := map SectionRow.id queryset in
      let queue := queue ++ [cache_mobile_discover sections city radius] in
      (get_response query_params queryset, queue)
  end.

End Cache.

End SectionViewSetRest.

Module StateSectionViewSet.

Section Cache.

Variable NativeCache_objects : list StateCache.
Variable is_refresh_cache : NativeCache.t -> bool.

(** [super().list(request, ...)], the list view of [SectionViewSet] behind
    its page cache; it may dispatch a task of its own. *)
Variable super_list : QueryDict -> list SectionTask -> string * list SectionTask.

(** [state__iexact=state]; a [None] value compiles to [IS NULL]. *)
Definition state__iexact (state : option string) (c : StateCache) : bool :=
  match cache_state c, state with
  | Some s, Some v => String.eqb (upper s) (upper v)
  | None, None => true
  | _, _ => false
  end.

Definition list_response (query_params : QueryDict) : list StateCache :=
  let url := "/v2/state/sections/" in
  let platform := get "platform" query_params in
  let page_type := get "page_type" query_params in
  let state := get "state" query_params in
  filter (fun c =>
            eqb_opt (NativeCache.url (cache_row c)) (Some url)
            && eqb_opt (NativeCache.platform (cache_row c)) platform
            && eqb_opt (NativeCache.page_type (cache_row c)) page_type
            && state__iexact state c)
         NativeCache_objects.

Definition list (query_params : QueryDict) (queue : list SectionTask)
  : string * list SectionTask :=
  let url := "/v2/state/sections/" in
  let platform := get "platform" query_params in
  let page_type := get "page_type" query_params in
  let state := get "state" query_params in
  let cache_refresh := get "cache_refresh" query_params in
  if negb (truthy cache_refresh) then
    let response := list_response query_params in
    let dispatch := queue ++ [cache_state_page url platform page_type state] in
    match first response with
    | Some cache =>
        if negb (is_refresh_cache (cache_row cache)) then
          (NativeCache.response (cache_row cache), queue)
        else super_list query_params dispatch
    | None => super_list query_params dispatch
    end
  else super_list query_params queue.

End Cache.

End StateSectionViewSet.

Lemma sorted_filter {A : Type} (R : A -> A -> Prop) (p : A -> bool) (l : list A) :
  StronglySorted R l -> StronglySorted R (filter p l).
Proof.
  induction 1 as [|a l Hl IH Ha]; cbn; [constructor|].
  destruct (p a); [|exact IH]. constructor; [exact IH|].
  rewrite Forall_forall in *. intros b Hb. apply Ha.
  apply filter_In in Hb. tauto.
Qed.

Section CachedViewsFacts.

Variable NativeCache_objects : list NativeCache.t.
Variable StateCache_objects : list StateCache.
Variable EventBucket_objects : list EventBucket.t.
Variable is_refresh_cache : NativeCache.t -> bool.
Variable Section_DESKTOP Section_CITY_PAGE Section_DATE_TAB Section_MOBILE : string.
Variable EventBucket_WHEN EventBucket_HAPPENING_LATER : string.
Variable EventBucketPagination_page_size : string.
Variable paginate_queryset :
  QueryDict -> list EventBucket.t -> result (option (list EventBucket.t)).
Variable get_paginated_response : QueryDict -> list EventBucket.t -> string.
Variable EventBucketSerializer_data : QueryDict -> list EventBucket.t -> string.
Variable get_response : QueryDict -> string.
Variable filtered_sections : QueryDict -> list SectionRow.t.
Variable get_section_response : QueryDict -> list SectionRow.t -> string.
Variable super_list : QueryDict -> list SectionTask -> string * list SectionTask.

Abbreviation when_paginated :=
  (EventViewSet.when_paginated NativeCache_objects EventBucket_objects
     is_refresh_cache Section_DESKTOP Section_CITY_PAGE Section_DATE_TAB
     EventBucket_WHEN EventBucket_HAPPENING_LATER EventBucketPagination_page_size
     paginate_queryset get_paginated_response EventBucketSerializer_data).
Abbreviation when_response :=
  (EventViewSet.when_response NativeCache_objects Section_DESKTOP Section_CITY_PAGE
     Section_DATE_TAB EventBucketPagination_page_size).
Abbreviation when_buckets :=
  (EventViewSet.when_buckets EventBucket_objects EventBucket_WHEN
     EventBucket_HAPPENING_LATER).
Abbreviation desktop :=
  (SectionViewSet.desktop NativeCache_objects is_refresh_cache get_response).
Abbreviation desktop_response := (SectionViewSet.desktop_response NativeCache_objects).
Abbreviation mobile :=
  (SectionViewSetRest.mobile NativeCache_objects is_refresh_cache Section_MOBILE
     filtered_sections get_section_response).
Abbreviation mobile_response :=
  (SectionViewSetRest.mobile_response NativeCache_objects Section_MOBILE).
Abbreviation state_list :=
  (StateSectionViewSet.list StateCache_objects is_refresh_cache super_list).
Abbreviation state_response := (StateSectionViewSet.list_response StateCache_objects).

(** The task a request of [when_paginated] dispatches for the page it was
    given. *)
Definition when_task (query_params : QueryDict) (page : list EventBucket.t) : Task :=
  cache_date_tab_city_page
    (map EventBucket.pk (when_buckets query_params)) (map EventBucket.pk page)
    (get "city" query_params) (get_default "page" "1" query_params)
    (get_default "page_size" EventBucketPagination_page_size query_params)
    (get "radius" query_params).

Definition mobile_task (query_params : QueryDict) : SectionTask :=
  cache_mobile_discover (map SectionRow.id (filtered_sections query_params))
    (get "city" query_params) (get "radius" query_params).

Definition state_task (query_params : QueryDict) : SectionTask :=
  cache_state_page "/v2/state/sections/" (get "platform" query_params)
    (get "page_type" query_params) (get "state" query_params).

(** X17: [when_paginated], [desktop] and [mobile] never drop or reorder a
    task that is already queued, and a request adds at most one task. *)
Theorem cached_views_queue_at_most_one_task :
  forall query_params,
    (forall queue payload queue',
        when_paginated query_params queue = Ok (payload, queue') ->
        exists tasks, queue' = queue ++ tasks /\ (List.length tasks <= 1)%nat)
    /\ (forall queue payload queue',
           desktop query_params queue = Ok (payload, queue') ->
           exists tasks, queue' = queue ++ tasks /\ (List.length tasks <= 1)%nat)
    /\ (forall (queue : list SectionTask),
           exists tasks,
             snd (mobile query_params queue) = queue ++ tasks
             /\ (List.length tasks <= 1)%nat).
Proof.
  intros query_params. split; [|split].
  - intros queue payload queue'. unfold EventViewSet.when_paginated, delay.
    destruct (paginate_queryset query_params (when_buckets query_params))
      as [[page|]|e]; cbn [bind]; [| |discriminate].
    + destruct (first (when_response query_params)) as [cache|].
      * destruct (is_refresh_cache cache); intros [= _ <-].
        -- eexists [_]. split; [reflexivity | cbn; lia].
        -- exists []. rewrite app_nil_r. split; [reflexivity | cbn; lia].
      * intros [= _ <-]. eexists [_]. split; [reflexivity | cbn; lia].
    + intros [= _ <-]. exists []. rewrite app_nil_r. split; [reflexivity | cbn; lia].
  - intros queue payload queue'. unfold SectionViewSet.desktop, delay.
    destruct (negb (truthy (get "cache_refresh" query_params))).
    + destruct (first (desktop_response query_params)) as [cache|].
      * destruct (negb (is_refresh_cache cache)); intros [= _ <-].
        -- exists []. rewrite app_nil_r. split; [reflexivity | cbn; lia].
        -- eexists [_]. split; [reflexivity | cbn; lia].
      * intros [= _ <-]. exists []. rewrite app_nil_r. split; [reflexivity | cbn; lia].
    + intros [= _ <-]. exists []. rewrite app_nil_r. split; [reflexivity | cbn; lia].
  - intros queue. unfold SectionViewSetRest.mobile.
    destruct (first (mobile_response query_params)) as [cache|].
    + destruct (is_refresh_cache cache); cbn [snd].
      * eexists [_]. split; [reflexivity | cbn; lia].
      * exists []. rewrite app_nil_r. split; [reflexivity | cbn; lia].
    + cbn [snd]. eexists [_]. split; [reflexivity | cbn; lia].
Qed.

(** X18: what a request does when its key has no cache entry.  A page of
    [when_paginated] and [mobile] answer with the freshly computed payload and
    queue the task that fills the key; [desktop] answers with the freshly
    computed payload and queues nothing, as it does for any request that
    carries [cache_refresh]. *)
Theorem only_desktop_stays_silent_on_a_miss :
  forall query_params,
    (forall queue page,
        paginate_queryset query_params (when_buckets query_params) = Ok (Some page) ->
        first (when_response query_params) = None ->
        when_paginated query_params queue
        = Ok (get_paginated_response query_params page,
              queue ++ [when_task query_params page]))
    /\ (forall queue,
           first (mobile_response query_params) = None ->
           mobile query_params queue
           = (get_section_response query_params (filtered_sections query_params),
              queue ++ [mobile_task query_params]))
    /\ (forall queue,
           first (desktop_response query_params) = None
           \/ truthy (get "cache_refresh" query_params) = true ->
           desktop query_params queue = Ok (get_response query_params, queue)).
Proof.
  intros query_params. split; [|split].
  - intros queue page Hp Hf. unfold EventViewSet.when_paginated.
    rewrite Hp. cbn [bind]. rewrite Hf. reflexivity.
  - intros queue Hf. unfold SectionViewSetRest.mobile. rewrite Hf. reflexivity.
  - intros queue H. unfold SectionViewSet.desktop.
    destruct (truthy (get "cache_refresh" query_params)); cbn [negb]; [reflexivity|].
    destruct H as [Hf|H]; [|discriminate]. rewrite Hf. reflexivity.
Qed.

(** X19: the state page serves a stored payload only while it is fresh.
    Without [cache_refresh], a fresh first entry of the key is returned and
    nothing is queued; with no entry, or a stale one, the request queues one
    [cache_state_page] task for the key and then runs the list view of the
    parent class, whose answer is returned: the stale payload is not served.
    With [cache_refresh] the parent's list view runs and nothing is queued
    before it.  [mobile], by contrast, serves the stored payload of a hit
    whether it is stale or not. *)
Theorem state_page_never_serves_a_stale_payload :
  forall query_params,
    (forall queue cache,
        truthy (get "cache_refresh" query_params) = false ->
        first (state_response query_params) = Some cache ->
        is_refresh_cache (cache_row cache) = false ->
        state_list query_params queue = (NativeCache.response (cache_row cache), queue))
    /\ (forall queue,
           truthy (get "cache_refresh" query_params) = false ->
           (first (state_response query_params) = None
            \/ exists cache, first (state_response query_params) = Some cache
                             /\ is_refresh_cache (cache_row cache) = true) ->
           state_list query_params queue
           = super_list query_params (queue ++ [state_task query_params]))
    /\ (forall queue,
           truthy (get "cache_refresh" query_params) = true ->
           state_list query_params queue = super_list query_params queue)
    /\ (forall queue cache,
           first (mobile_response query_params) = Some cache ->
           mobile query_params queue
           = (NativeCache.response cache,
              if is_refresh_cache cache then queue ++ [mobile_task query_params]
              else queue)).
Proof.
  intros query_params. split; [|split; [|split]].
  - intros queue cache Hr Hf Hs. unfold StateSectionViewSet.list.
    rewrite Hr, Hf, Hs. reflexivity.
  - intros queue Hr H. unfold StateSectionViewSet.list. rewrite Hr. cbn [negb].
    destruct H as [Hf|(cache & Hf & Hs)]; rewrite Hf; [reflexivity|].
    rewrite Hs. reflexivity.
  - intros queue Hr. unfold StateSectionViewSet.list. rewrite Hr. reflexivity.
  - intros queue cache Hf. unfold SectionViewSetRest.mobile. rewrite Hf.
    destruct (is_refresh_cache cache); reflexivity.
Qed.

End CachedViewsFacts.

(** X20: the buckets [when_paginated] pages through are exactly the active
    rows of type [WHEN], without the [HAPPENING_LATER] bucket when the
    request says [registered_user=true] in any letter case, and they come
    in ascending [sort_order]. *)
Theorem when_buckets_spec :
  forall EventBucket_objects EventBucket_WHEN EventBucket_HAPPENING_LATER query_params,
    let when_buckets :=
      EventViewSet.when_buckets EventBucket_objects EventBucket_WHEN
        EventBucket_HAPPENING_LATER in
    (forall b,
        In b (when_buckets query_params)
        <-> In b EventBucket_objects
            /\ EventBucket.bucket_type b = EventBucket_WHEN
            /\ EventBucket.is_active b = true
            /\ (lower (get_default "registered_user" "false" query_params) = "true" ->
                EventBucket.bucket b <> EventBucket_HAPPENING_LATER))
    /\ StronglySorted (fun a b => EventBucket.sort_order a <= EventBucket.sort_order b)
         (when_buckets query_params).
Proof.
  intros EventBucket_objects EventBucket_WHEN EventBucket_HAPPENING_LATER query_params
         when_buckets.
  subst when_buckets.
  set (active := filter (fun b => String.eqb (EventBucket.bucket_type b) EventBucket_WHEN
                                  && Bool.eqb (EventBucket.is_active b) true)
                        EventBucket_objects).
  assert (Hin : forall b, In b (order_by EventBucket.sort_order Z.leb active)
                          <-> In b EventBucket_objects
                              /\ EventBucket.bucket_type b = EventBucket_WHEN
                              /\ EventBucket.is_active b = true).
  { intros b. rewrite order_by_In. unfold active.
    rewrite filter_In, andb_true_iff, String.eqb_eq, eqb_true_iff. tauto. }
  assert (Hsorted : StronglySorted
                      (fun a b => EventBucket.sort_order a <= EventBucket.sort_order b)
                      (order_by EventBucket.sort_order Z.leb active)).
  { apply StronglySorted_weaken
      with (R := key_le EventBucket.sort_order Z.leb).
    - intros a b H. apply Z.leb_le. exact H.
    - apply order_by_sorted.
      + intros a b. destruct (Z.leb_spec a b), (Z.leb_spec b a); auto; lia.
      + intros a b c H1 H2. apply Z.leb_le in H1, H2. apply Z.leb_le. lia. }
  unfold EventViewSet.when_buckets. fold active.
  destruct (String.eqb_spec
              (lower (get_default "registered_user" "false" query_params)) "true")
    as [Hr|Hr].
  - split.
    + intros b. rewrite exclude_In, Hin, String.eqb_neq. tauto.
    + unfold exclude. apply sorted_filter. exact Hsorted.
  - split.
    + intros b. rewrite Hin. tauto.
    + exact Hsorted.
Qed.

(** Sample cache rows of the section views: both entries were written at
    midnight and are stale at [Sample.utc_now]. *)
Module SampleSections.

Definition mobile_entry : NativeCache.t :=
  {| NativeCache.url := Some "/v2/sections/mobile/";
     NativeCache.platform := Some "mobile";
     NativeCache.page_type := None;
     NativeCache.tab := None;
     NativeCache.city := Some "tampa-florida-united-states";
     NativeCache.radius := Some "mile-25";
     NativeCache.page_no := None;
     NativeCache.query_params := [];
     NativeCache.response := "{stored mobile sections}";
     NativeCache.updated_at := Sample.midnight |}.

Definition state_entry : StateCache :=
  {| cache_row :=
       {| NativeCache.url := Some "/v2/state/sections/";
          NativeCache.platform := Some "desktop";
          NativeCache.page_type := Some "state-page";
          NativeCache.tab := None;
          NativeCache.city := None;
          NativeCache.radius := None;
          NativeCache.page_no := None;
          NativeCache.query_params := [];
          NativeCache.response := "{stored state sections}";
          NativeCache.updated_at := Sample.midnight |};
     cache_state := Some "FL" |}.

Definition NativeCache_objects : list NativeCache.t :=
  SampleCache.NativeCache_objects ++ [mobile_entry].

Definition filtered_sections (query_params : QueryDict) : list SectionRow.t :=
  sample_sections.

Definition super_list (query_params : QueryDict) (queue : list SectionTask)
  : string * list SectionTask := ("{fresh state sections}", queue).

Definition state_request : QueryDict :=
  [("platform", "desktop"); ("page_type", "state-page"); ("state", "fl")].

Definition other_city : QueryDict :=
  [("city", "miami-florida-united-states"); ("radius", "mile-25")].

End SampleSections.

Lemma cached_views_queue_at_most_one_task_witness :
  exists tasks,
    [SampleCache.refresh] = [] ++ tasks /\ (List.length tasks <= 1)%nat.
Proof.
  apply (proj1 (cached_views_queue_at_most_one_task
                  SampleCache.NativeCache_objects SampleCache.EventBucket_objects
                  SampleCache.is_refresh_cache "desktop" "city-page" "date" "mobile"
                  "when" "happening-later" "10" SampleCache.paginate_queryset
                  (fun _ _ => "{fresh when page}") (fun _ _ => "{all when buckets}")
                  (fun _ => "{sections}") SampleSections.filtered_sections
                  (fun _ _ => "{fresh mobile sections}") SampleCache.request)
           [] "{stored when page}" [SampleCache.refresh]).
  vm_compute. reflexivity.
Defined.

Lemma only_desktop_stays_silent_on_a_miss_witness :
  SectionViewSet.desktop SampleSections.NativeCache_objects SampleCache.is_refresh_cache
    (fun _ => "{sections}") SampleCache.request [cache_top_tab_city_page "/" None None None None None]
  = Ok ("{sections}", [cache_top_tab_city_page "/" None None None None None])
  /\ SectionViewSetRest.mobile SampleSections.NativeCache_objects
       SampleCache.is_refresh_cache "mobile" SampleSections.filtered_sections
       (fun _ _ => "{fresh mobile sections}") SampleSections.other_city []
     = ("{fresh mobile sections}",
        [cache_mobile_discover [1; 2; 3] (Some "miami-florida-united-states")
           (Some "mile-25")]).
Proof.
  pose proof (only_desktop_stays_silent_on_a_miss
                SampleSections.NativeCache_objects SampleCache.EventBucket_objects
                SampleCache.is_refresh_cache "desktop" "city-page" "date" "mobile"
                "when" "happening-later" "10" SampleCache.paginate_queryset
                (fun _ _ => "{fresh when page}") (fun _ _ => "{all when buckets}")
                (fun _ => "{sections}") SampleSections.filtered_sections
                (fun _ _ => "{fresh mobile sections}")) as H.
  split.
  - apply (proj2 (proj2 (H SampleCache.request))). left. reflexivity.
  - apply (proj1 (proj2 (H SampleSections.other_city)) []). reflexivity.
Defined.

Lemma state_page_never_serves_a_stale_payload_witness :
  StateSectionViewSet.list [SampleSections.state_entry] SampleCache.is_refresh_cache
    SampleSections.super_list SampleSections.state_request []
  = ("{fresh state sections}",
     [cache_state_page "/v2/state/sections/" (Some "desktop") (Some "state-page")
        (Some "fl")])
  /\ SectionViewSetRest.mobile SampleSections.NativeCache_objects
       SampleCache.is_refresh_cache "mobile" SampleSections.filtered_sections
       (fun _ _ => "{fresh mobile sections}") SampleCache.request []
     = ("{stored mobile sections}",
        [cache_mobile_discover [1; 2; 3] (Some "tampa-florida-united-states")
           (Some "mile-25")]).
Proof.
  pose proof (state_page_never_serves_a_stale_payload
                SampleSections.NativeCache_objects [SampleSections.state_entry]
                SampleCache.is_refresh_cache "mobile" SampleSections.filtered_sections
                (fun _ _ => "{fresh mobile sections}") SampleSections.super_list) as H.
  split.
  - apply (proj1 (proj2 (H SampleSections.state_request)) []).
    + reflexivity.
    + right. exists SampleSections.state_entry. split; reflexivity.
  - apply (proj2 (proj2 (proj2 (H SampleCache.request))) [] SampleSections.mobile_entry).
    reflexivity.
Defined.

Lemma when_buckets_spec_witness :
  In (SampleCache.mk_bucket 2 "tomorrow")
     (EventViewSet.when_buckets SampleCache.EventBucket_objects "when" "happening-later"
        [("registered_user", "TRUE")]).
Proof.
  apply (proj1 (when_buckets_spec SampleCache.EventBucket_objects "when"
                  "happening-later" [("registered_user", "TRUE")])).
  split; [|split; [|split]].
  - cbn. tauto.
  - reflexivity.
  - reflexivity.
  - intros _. discriminate.
Defined.

(** ** [SectionViewSet.get_object] *)

Fixpoint str_take (n : nat) (s : string) : string :=
  match n, s with
  | S n, String c s => String c (str_take n s)
  | _, _ => EmptyString
  end.

Fixpoint str_drop (n : nat) (s : string) : string :=
  match n, s with
  | S n, String _ s => str_drop n s
  | _, _ => s
  end.

(** [s.endswith(suffix)] *)
Definition endswith (s suffix : string) : bool :=
  (String.length suffix <=? String.length s)%nat
  && String.eqb (str_drop (String.length s - String.length suffix) s) suffix.

(** [s[:n]]: a negative bound counts from the end of the string. *)
Definition slice_to (n : Z) (s : string) : string :=
  if 0 <=? n then str_take (Z.to_nat n) s
  else str_take (Z.to_nat (Z.of_nat (String.length s) + n)) s.

Module SectionViewSetObject.

Section Request.

Variable City_objects : list City.t.
Variable query_params : QueryDict.

(** [get_object] up to its call of [super().get_object()]: the slug under
    which the section is then looked up.  [get_object_or_404] answers an
    unknown city with [Http404], which the framework renders as
    [NotFound]. *)
Definition get_object (kwargs_slug : string) : result string :=
  let city_slug := get "city" query_params in
  if negb (truthy city_slug) then Ok kwargs_slug
  else
    let section_slug := kwargs_slug in
    match City_objects_get City_objects city_slug with
    | Raise DoesNotExist => Raise NotFound
    | Raise e => Raise e
    | Ok city =>
        if negb (City.is_curated city) then
          match city_slug with
          | Some city_slug =>
              if endswith section_slug city_slug then
                let max_length :=
                  Z.of_nat (String.length section_slug)
                  - Z.of_nat (String.length city_slug) in
                let section_slug := slice_to (max_length - 1) section_slug in
                Ok section_slug
              else Ok section_slug
          | None => Ok section_slug
          end
        else Ok section_slug
    end.

End Request.

End SectionViewSetObject.

Lemma length_append (a b : string) :
  String.length (a ++ b) = (String.length a + String.length b)%nat.
Proof. induction a as [|c a IH]; cbn; [reflexivity | now rewrite IH]. Qed.

Lemma str_take_append (a b : string) : str_take (String.length a) (a ++ b) = a.
Proof. induction a as [|c a IH]; cbn; [now destruct b | now rewrite IH]. Qed.

Lemma str_drop_append (a b : string) : str_drop (String.length a) (a ++ b) = b.
Proof. induction a as [|c a IH]; cbn; [now destruct b | exact IH]. Qed.

Lemma append_assoc (a b c : string) : ((a ++ b) ++ c = a ++ (b ++ c))%string.
Proof. induction a as [|x a IH]; cbn; [reflexivity | now rewrite IH]. Qed.

Lemma endswith_append (a b : string) : endswith (a ++ b) b = true.
Proof.
  unfold endswith. rewrite length_append.
  replace (String.length a + String.length b - String.length b)%nat
    with (String.length a) by lia.
  rewrite str_drop_append, String.eqb_refl, andb_true_r.
  apply Nat.leb_le. lia.
Qed.

Lemma endswith_refl (s : string) : endswith s s = true.
Proof. apply (endswith_append EmptyString s). Qed.

(** X21: the slug under which [get_object] looks a section up when the
    request names a known city that is not curated.  A slug made of a base,
    one separating character and the city's slug is cut down to the base; a
    slug that does not end with the city's slug is left alone; and a slug
    that is the city's slug itself loses only its last character, the bound
    of the slice being [-1] there.  For a curated city the slug is never
    changed. *)
Theorem get_object_strips_the_city :
  forall City_objects query_params city_slug city,
    get "city" query_params = Some city_slug ->
    truthy (Some city_slug) = true ->
    City_objects_get City_objects (Some city_slug) = Ok city ->
    let get_object := SectionViewSetObject.get_object City_objects query_params in
    (City.is_curated city = true -> forall slug, get_object slug = Ok slug)
    /\ (City.is_curated city = false ->
        (forall base sep,
            get_object (base ++ String sep city_slug)%string = Ok base)
        /\ (forall slug, endswith slug city_slug = false -> get_object slug = Ok slug)
        /\ (forall init last,
               city_slug = (init ++ String last EmptyString)%string ->
               get_object city_slug = Ok init)).
Proof.
  intros City_objects query_params city_slug city Hg Ht Hc get_object.
  subst get_object. unfold SectionViewSetObject.get_object.
  rewrite Hg, Ht, Hc. cbn [negb]. split.
  - intros ->. reflexivity.
  - intros ->. cbn [negb]. split; [|split].
    + intros base sep.
      replace (base ++ String sep city_slug)%string
        with ((base ++ String sep EmptyString) ++ city_slug)%string
        by (rewrite append_assoc; reflexivity).
      rewrite endswith_append, length_append.
      unfold slice_to.
      replace (Z.of_nat (String.length (base ++ String sep EmptyString)%string
                         + String.length city_slug)
               - Z.of_nat (String.length city_slug) - 1)
        with (Z.of_nat (String.length base))
        by (rewrite length_append; cbn [String.length]; lia).
      destruct (Z.leb_spec 0 (Z.of_nat (String.length base))) as [_|H]; [|lia].
      rewrite Nat2Z.id, append_assoc, str_take_append. reflexivity.
    + intros slug ->. reflexivity.
    + intros init last ->. rewrite endswith_refl. unfold slice_to.
      rewrite Z.sub_diag. cbn [Z.sub Z.add Z.opp Z.leb Z.compare].
      rewrite length_append. cbn [String.length].
      replace (Z.to_nat (Z.of_nat (String.length init + 1) + -1))
        with (String.length init) by lia.
      rewrite str_take_append. reflexivity.
Qed.

(** X22: [get_object] answers a request that names an unknown city with
    [Http404], whatever the section, and leaves the slug alone when the
    request names no city. *)
Theorem get_object_unknown_city_is_404 :
  forall City_objects query_params slug,
    (truthy (get "city" query_params) = true ->
     (forall c, In c City_objects -> Some (City.slug c) <> get "city" query_params) ->
     SectionViewSetObject.get_object City_objects query_params slug = Raise NotFound)
    /\ (truthy (get "city" query_params) = false ->
        SectionViewSetObject.get_object City_objects query_params slug = Ok slug).
Proof.
  intros City_objects query_params slug. unfold SectionViewSetObject.get_object. split.
  - intros Ht Hn. rewrite Ht. cbn [negb].
    destruct (get "city" query_params) as [s|] eqn:Hg; [|discriminate].
    unfold City_objects_get.
    replace (filter (fun c => String.eqb (City.slug c) s) City_objects) with (@nil City.t);
      [reflexivity|].
    symmetry. clear Ht. induction City_objects as [|c l IH]; [reflexivity|].
    cbn [filter]. destruct (String.eqb_spec (City.slug c) s) as [E|E].
    + exfalso. apply (Hn c); [now left | now rewrite E].
    + apply IH. intros c' Hc'. apply Hn. now right.
  - intros ->. reflexivity.
Qed.

Lemma get_object_strips_the_city_witness :
  SectionViewSetObject.get_object Sample.cities [("city", "austin-texas")]
    "top-events-austin-texas" = Ok "top-events"
  /\ SectionViewSetObject.get_object Sample.cities [("city", "austin-texas")]
       "austin-texas" = Ok "austin-texa".
Proof.
  pose proof (@get_object_strips_the_city Sample.cities [("city", "austin-texas")]
                "austin-texas" Sample.austin eq_refl eq_refl eq_refl) as H.
  destruct (proj2 H eq_refl) as (Hbase & _ & Hself). split.
  - apply (Hbase "top-events" "-"%char).
  - apply (Hself "austin-texa" "s"%char). reflexivity.
Defined.

Lemma get_object_unknown_city_is_404_witness :
  SectionViewSetObject.get_object Sample.cities [("city", "atlantis")] "top-events"
  = Raise NotFound.
Proof.
  apply (proj1 (get_object_unknown_city_is_404 Sample.cities [("city", "atlantis")]
                  "top-events")).
  - reflexivity.
  - intros c Hc. cbn in Hc.
    repeat (destruct Hc as [<-|Hc]; [discriminate|]). destruct Hc.
Defined.

(** * [views.py]: [SubscriptionViewSet.create] *)

Module SubscriptionViewSet.

(** The fields of the validated city that [create] reads. *)
Record city : Set := {
  sendy_list : string;
  simple_texting_group : string
}.

Record validated_data : Set := {
  email : option string;
  city_ : option city;
  phone_number : option string
}.

(** The [response] dict: its [sendy] and [simple_texting] keys are absent
    until they are assigned; [simple_texting] holds the [code] of the
    gateway's result. *)
Record response : Set := {
  error : bool;
  already : bool;
  sendy : option string;
  simple_texting : option Z
}.

(** What [sendy.add_email_to_list] does: it returns, or raises a
    [SendyError] with a message. *)
Variant sendy_result : Set :=
| Added
| SendyError (message : string).

(** The calls [create] makes on the outside world, in order. *)
Variant effect : Set :=
| add_email_to_list (email : string) (list_ : option string)
| add_phone_to_list (phone_number : string) (group : option string)
| serializer_save.

Variant outcome : Set :=
| Invalid                                  (* status 400, the serializer's errors *)
| Respond (status : Z) (r : response)
| SuperCreate.                             (* [super().create(request)] *)

Section Request.

Variable settings_SENDY_URL : option string.
Variable sendy_add_email_to_list : string -> option string -> sendy_result.
Variable simple_texting_add_phone_to_list : string -> option string -> Z.

Definition accepted_codes : list Z := [1; -607; -610].

Definition create (is_valid : bool) (validated : validated_data)
  : list effect * outcome :=
  if negb is_valid then ([], Invalid)
  else
    let email := email validated in
    let city := city_ validated in
    let response :=
      {| error := false; already := false; sendy := None; simple_texting := None |} in
    let '(effects, response) :=
      match email with
      | Some ((String _ _) as email) =>
          if truthy settings_SENDY_URL then
            let list_ := option_map sendy_list city in
            match sendy_add_email_to_list email list_ with
            | Added => ([add_email_to_list email list_], response)
            | SendyError e =>
                let response :=
                  if negb (contains "Already subscribed" e) then
                    {| error := true; already := false; sendy := Some e;
                       simple_texting := None |}
                  else response in
                let response :=
                  if contains "Already subscribed" e then
                    {| error := false; already := true; sendy := Some e;
                       simple_texting := None |}
                  else response in
                ([add_email_to_list email list_], response)
            end
          else ([], response)
      | _ => ([], response)
      end in
    let '(effects, response) :=
      match phone_number validated with
      | Some ((String _ _) as phone_number) =>
          let group := option_map simple_texting_group city in
          let result := simple_texting_add_phone_to_list phone_number group in
          let effects := effects ++ [add_phone_to_list phone_number group] in
          if negb (existsb (Z.eqb result) accepted_codes) then
            (effects,
             {| error := true; already := already response; sendy := sendy response;
                simple_texting := Some result |})
          else
            (effects,
             {| error := false; already := true; sendy := sendy response;
                simple_texting := Some result |})
      | _ => (effects, response)
      end in
    if error response then (effects, Respond 400 response)
    else if already response then (effects, Respond 206 response)
    else (effects ++ [serializer_save], SuperCreate).

End Request.

End SubscriptionViewSet.

Section SubscriptionFacts.

Import SubscriptionViewSet.

Variable settings_SENDY_URL : option string.
Variable sendy_add_email_to_list : string -> option string -> sendy_result.
Variable simple_texting_add_phone_to_list : string -> option string -> Z.

Abbreviation create :=
  (SubscriptionViewSet.create settings_SENDY_URL sendy_add_email_to_list
     simple_texting_add_phone_to_list).

(** The mailing list accepted the address, or was not asked. *)
Definition email_accepted (validated : validated_data) : Prop :=
  truthy (email validated) = false
  \/ truthy settings_SENDY_URL = false
  \/ exists e, email validated = Some e
               /\ sendy_add_email_to_list e (option_map sendy_list (city_ validated))
                  = Added.

(** X23: [create] saves the subscription in exactly one case: the data are
    valid, they carry no phone number, and the mailing list accepted the
    address or was not asked; it then hands over to [super().create], and
    it hands over in no other case.  In particular valid data with a phone
    number are never saved, whatever the gateways answer: the request ends
    in status 400 or 206. *)
Theorem create_saves_only_without_phone :
  forall is_valid validated,
    (snd (create is_valid validated) = SuperCreate
     <-> is_valid = true
         /\ truthy (phone_number validated) = false
         /\ email_accepted validated)
    /\ (In serializer_save (fst (create is_valid validated))
        <-> snd (create is_valid validated) = SuperCreate)
    /\ (is_valid = true -> truthy (phone_number validated) = true ->
        exists r, snd (create is_valid validated) = Respond 400 r
                  \/ snd (create is_valid validated) = Respond 206 r).
Proof.
  intros [|] [[[|c e]|] city [[|d p]|]];
    unfold email_accepted, SubscriptionViewSet.create;
    cbn [negb email city_ phone_number truthy fst snd];
    try destruct (truthy settings_SENDY_URL) eqn:Hurl;
    try destruct (sendy_add_email_to_list (String c e) (option_map sendy_list city))
      as [|msg] eqn:Hsendy;
    try destruct (contains "Already subscribed" msg);
    try destruct (existsb (Z.eqb (simple_texting_add_phone_to_list (String d p)
                                    (option_map simple_texting_group city)))
                          accepted_codes);
    cbn [negb error already fst snd app In];
    (split; [|split]);
    try (intros H1 H2; discriminate);
    try (intros _ _);
    try (eexists; (left; reflexivity) || (right; reflexivity));
    try (split; [intros H | intros H];
         repeat match goal with
                | H : _ /\ _ |- _ => destruct H
                | H : _ \/ _ |- _ => destruct H
                | H : exists _, _ |- _ => destruct H
                | H : Some _ = Some _ |- _ => injection H as H; subst
                end;
         try discriminate; try congruence; try tauto;
         try (split; [reflexivity|split; [reflexivity|]]);
         try (left; reflexivity);
         try (right; left; reflexivity);
         try (right; right; eexists; split; [reflexivity | eassumption]);
         try (right; reflexivity);
         try (left; reflexivity)).
Qed.

(** X24: a failure of the mailing list is forgotten once the texting
    gateway accepts the phone number.  When [add_email_to_list] raises an
    error other than "Already subscribed" and the gateway then answers one
    of the accepted codes, both gateways have been called, nothing is saved,
    and the request ends in status 206 with [error] false, the mailing
    list's message still under [sendy]. *)
Theorem accepted_phone_masks_sendy_error :
  forall validated e p message,
    email validated = Some e -> truthy (Some e) = true ->
    phone_number validated = Some p -> truthy (Some p) = true ->
    truthy settings_SENDY_URL = true ->
    let list_ := option_map sendy_list (city_ validated) in
    let group := option_map simple_texting_group (city_ validated) in
    sendy_add_email_to_list e list_ = SendyError message ->
    contains "Already subscribed" message = false ->
    In (simple_texting_add_phone_to_list p group) accepted_codes ->
    create true validated
    = ([add_email_to_list e list_; add_phone_to_list p group],
       Respond 206
         {| error := false; already := true; sendy := Some message;
            simple_texting := Some (simple_texting_add_phone_to_list p group) |}).
Proof.
  intros [em city ph] e p message He Hte Hp Htp Hurl list_ group Hs Hc Hin.
  cbn [email phone_number city_] in *. subst em ph list_ group.
  destruct e as [|c e]; [discriminate|]. destruct p as [|d p]; [discriminate|].
  unfold SubscriptionViewSet.create. cbn [negb email city_ phone_number].
  rewrite Hurl, Hs, Hc. cbn [negb].
  assert (Hex : existsb (Z.eqb (simple_texting_add_phone_to_list (String d p)
                                  (option_map simple_texting_group city)))
                        accepted_codes = true).
  { apply existsb_exists. eexists. split; [exact Hin | apply Z.eqb_refl]. }
  rewrite Hex. reflexivity.
Qed.

End SubscriptionFacts.

Module SampleSubscription.

Import SubscriptionViewSet.

Definition tampa_lists : city :=
  {| sendy_list := "tampa-weekly"; simple_texting_group := "tampa" |}.

Definition subscriber : validated_data :=
  {| email := Some "ana@example.org"; city_ := Some tampa_lists;
     phone_number := Some "8135550100" |}.

(** A mailing list that rejects every address, and a texting gateway that
    accepts every number. *)
Definition sendy_down (email : string) (list_ : option string) : sendy_result :=
  SendyError "Invalid list ID.".

Definition texting_up (phone_number : string) (group : option string) : Z := 1.

End SampleSubscription.

Lemma create_saves_only_without_phone_witness :
  exists r,
    snd (SubscriptionViewSet.create (Some "https://sendy.example.org")
           SampleSubscription.sendy_down SampleSubscription.texting_up true
           SampleSubscription.subscriber) = SubscriptionViewSet.Respond 400 r
    \/ snd (SubscriptionViewSet.create (Some "https://sendy.example.org")
              SampleSubscription.sendy_down SampleSubscription.texting_up true
              SampleSubscription.subscriber) = SubscriptionViewSet.Respond 206 r.
Proof.
  apply (proj2 (proj2 (create_saves_only_without_phone
                         (Some "https://sendy.example.org")
                         SampleSubscription.sendy_down SampleSubscription.texting_up
                         true SampleSubscription.subscriber)));
    reflexivity.
Defined.

Lemma accepted_phone_masks_sendy_error_witness :
  SubscriptionViewSet.create (Some "https://sendy.example.org")
    SampleSubscription.sendy_down SampleSubscription.texting_up true
    SampleSubscription.subscriber
  = ([SubscriptionViewSet.add_email_to_list "ana@example.org" (Some "tampa-weekly");
      SubscriptionViewSet.add_phone_to_list "8135550100" (Some "tampa")],
     SubscriptionViewSet.Respond 206
       {| SubscriptionViewSet.error := false;
          SubscriptionViewSet.already := true;
          SubscriptionViewSet.sendy := Some "Invalid list ID.";
          SubscriptionViewSet.simple_texting := Some 1 |}).
Proof.
  apply (@accepted_phone_masks_sendy_error (Some "https://sendy.example.org")
           SampleSubscription.sendy_down SampleSubscription.texting_up
           SampleSubscription.subscriber "ana@example.org" "8135550100"
           "Invalid list ID.");
    try reflexivity.
  now left.
Defined.
